(** * SHL assessment recommender: catalog harvester and recommendation service

    A shallow embedding of [scraper.py] (the catalog harvester),
    [analysis_engine.py] (the recommendation formatter and service),
    [api.py] (the HTTP endpoints) and [main.py] (the page), and the
    properties of the specification stated over it.

    Modelling conventions.
    - A Python [str] is a [string]: the bytes of its UTF-8 encoding.  Its
      characters are read off these bytes ([chars]), and the character
      classes ([str.strip], [\d], [\w], [\b], [int]) are those of
      CPython 3.11 (Unicode 14.0.0), tabulated by code point.  [s.find],
      [s.rfind], a slice and [s.startswith] are used with ASCII needles
      only and count in bytes.  [str.lower] acts on the ASCII letters: no
      other character becomes one of the letters the page compares with.
    - A Python [int] is a [Z]; [int(s)] is total on runs of digits (the
      optional limit some interpreters put on the length of a decimal
      literal is not modelled).
    - A value decoded from JSON, and every dictionary the program builds, is a
      [json]; a dictionary keeps its keys in insertion order.
    - An operation that can raise returns an [exc]; [try ... except Exception]
      is [try_except].
    - The outside world (the language model, the random sampler, the HTTP
      client, the HTML parser, the dataset file, the widgets of the page,
      the text written for a float) is a parameter of the functions that
      use it. *)

From Stdlib Require Import String Ascii List ZArith Bool Lia Arith.
From Stdlib Require Import DecimalString DecimalPos DecimalZ Permutation.
Import ListNotations.

Local Open Scope string_scope.
Local Open Scope Z_scope.

(* ===================================================================== *)
(** * Python primitives *)
(* ===================================================================== *)

Module Py.

(** ** Exceptions *)

(** The classes of [Exception] the program can meet.  [External] is anything
    raised by a collaborator (network, authentication, time-out), with the
    text it carries. *)
Inductive exn : Type :=
| KeyError (key : string)
| TypeError
| AttributeError
| IndexError
| ValueError
| JSONDecodeError
| External (msg : string).

Inductive exc (A : Type) : Type :=
| Ok (a : A)
| Raise (e : exn).
Arguments Ok {A} a.
Arguments Raise {A} e.

Definition bind {A B : Type} (m : exc A) (f : A -> exc B) : exc B :=
  match m with
  | Ok a => f a
  | Raise e => Raise e
  end.

(** [try: body except Exception as e: handler e] *)
Definition try_except {A : Type} (body : exc A) (handler : exn -> A) : A :=
  match body with
  | Ok a => a
  | Raise e => handler e
  end.

Declare Scope exc_scope.
Delimit Scope exc_scope with exc.
Notation "x <- m ;; k" := (bind m (fun x => k))
  (at level 61, m at next level, right associativity) : exc_scope.
Notation "m ;;; k" := (bind m (fun _ => k))
  (at level 61, right associativity) : exc_scope.

(** ** Bytes *)

Definition code (c : ascii) : N := N_of_ascii c.
Definition between (lo hi : N) (c : ascii) : bool :=
  (N.leb lo (code c) && N.leb (code c) hi)%bool.

Definition dquote : ascii := ascii_of_N 34.
Definition backslash : ascii := ascii_of_N 92.

(** ** Characters *)

(** A [str] is held as the bytes of its UTF-8 encoding, and a character is
    the one to four bytes that encode it (a [str] with a lone surrogate has
    no encoding and is not modelled).  A byte that belongs to no well-formed
    encoding stands alone; it is a character of no class. *)
Definition continuation (c : ascii) : bool := between 128 191 c.
Definition two_bytes (a b : ascii) : bool :=
  (between 194 223 a && continuation b)%bool.
Definition three_bytes (a b c : ascii) : bool :=
  ((between 224 224 a && between 160 191 b
    || between 225 236 a && continuation b
    || between 237 237 a && between 128 159 b
    || between 238 239 a && continuation b)
   && continuation c)%bool.
Definition four_bytes (a b c d : ascii) : bool :=
  ((between 240 240 a && between 144 191 b
    || between 241 243 a && continuation b
    || between 244 244 a && between 128 143 b)
   && continuation c && continuation d)%bool.

Definition char1 (a : ascii) : string := String a EmptyString.
Definition char2 (a b : ascii) : string := String a (char1 b).
Definition char3 (a b c : ascii) : string := String a (char2 b c).
Definition char4 (a b c d : ascii) : string := String a (char3 b c d).

(** The character at the head of [String a r], and what follows it: one
    step of [chars]. *)
Definition head_char (a : ascii) (r : string) : string * string :=
  match r with
  | String b r1 =>
      if two_bytes a b then (char2 a b, r1)
      else
        match r1 with
        | String c r2 =>
            if three_bytes a b c then (char3 a b c, r2)
            else
              match r2 with
              | String d r3 =>
                  if four_bytes a b c d then (char4 a b c d, r3)
                  else (char1 a, r)
              | EmptyString => (char1 a, r)
              end
        | EmptyString => (char1 a, r)
        end
  | EmptyString => (char1 a, r)
  end.

(** [list(s)]: the characters of [s]. *)
Fixpoint chars (s : string) : list string :=
  match s with
  | EmptyString => []
  | String a r =>
      match r with
      | String b r1 =>
          if two_bytes a b then char2 a b :: chars r1
          else
            match r1 with
            | String c r2 =>
                if three_bytes a b c then char3 a b c :: chars r2
                else
                  match r2 with
                  | String d r3 =>
                      if four_bytes a b c d then char4 a b c d :: chars r3
                      else char1 a :: chars r
                  | EmptyString => char1 a :: chars r
                  end
            | EmptyString => char1 a :: chars r
            end
      | EmptyString => [char1 a]
      end
  end.

(** [''.join(l)]: the string a list of characters spells. *)
Fixpoint text_of (l : list string) : string :=
  match l with
  | [] => EmptyString
  | x :: r => x ++ text_of r
  end.

(** [ord(ch)]: the code point of a character; a byte that stands alone is
    given a number above every code point. *)
Definition no_code_point : N := 1114112.
Definition ord (ch : string) : N :=
  match ch with
  | String a EmptyString =>
      if N.ltb (code a) 128 then code a else no_code_point
  | String a (String b EmptyString) =>
      if two_bytes a b
      then (code a - 192) * 64 + (code b - 128)
      else no_code_point
  | String a (String b (String c EmptyString)) =>
      if three_bytes a b c
      then (code a - 224) * 4096 + (code b - 128) * 64 + (code c - 128)
      else no_code_point
  | String a (String b (String c (String d EmptyString))) =>
      if four_bytes a b c d
      then (code a - 240) * 262144 + (code b - 128) * 4096
           + (code c - 128) * 64 + (code d - 128)
      else no_code_point
  | _ => no_code_point
  end%N.

(** The character is the encoding of a code point. *)
Definition wellformed (ch : string) : Prop := (ord ch < no_code_point)%N.

Definition in_ranges (table : list (N * N)) (n : N) : bool :=
  existsb (fun r => (N.leb (fst r) n && N.leb n (snd r))%bool) table.

(** *** Character classes

    The classes are tabulated by code point, as CPython 3.11 has them
    (Unicode 14.0.0). *)

(** The code points [str.isspace] accepts, which are those [str.strip()]
    removes: the ASCII white space and separators, NEL, the no-break space
    and the spaces and line separators of the other blocks. *)
Definition space_table : list (N * N) :=
  [(9, 13); (28, 32); (133, 133); (160, 160); (5760, 5760); (8192, 8202);
   (8232, 8233); (8239, 8239); (8287, 8287); (12288, 12288)]%N.
Definition isspace (n : N) : bool := in_ranges space_table n.

(** The digit zero of every script that has decimal digits; the nine
    digits that follow it have the values 1 to 9. *)
Definition decimal_zeros : list N :=
  [48; 1632; 1776; 1984; 2406; 2534; 2662; 2790; 2918; 3046; 3174; 3302;
   3430; 3558; 3664; 3792; 3872; 4160; 4240; 6112; 6160; 6470; 6608; 6784;
   6800; 6992; 7088; 7232; 7248; 42528; 43216; 43264; 43472; 43504; 43600;
   44016; 65296; 66720; 68912; 69734; 69872; 69942; 70096; 70384; 70736;
   70864; 71248; 71360; 71472; 71904; 72016; 72784; 73040; 73120; 92768;
   92864; 93008; 120782; 120792; 120802; 120812; 120822; 123200; 123632;
   125264; 130032]%N.

(** The value of a decimal digit, whatever its script. *)
Definition decimal (n : N) : option N :=
  match List.find (fun z => (N.leb z n && N.leb n (z + 9))%bool)
          decimal_zeros with
  | Some z => Some (n - z)%N
  | None => None
  end.
(** [str.isdecimal], which is the class [\d] of a pattern on [str] and the
    digits [int] reads. *)
Definition isdecimal (n : N) : bool :=
  match decimal n with
  | Some _ => true
  | None => false
  end.

(** The code points [str.isalnum] accepts: letters, and the digits and
    numbers of every script. *)
Definition alnum_table : list (N * N) :=
  [(48, 57); (65, 90); (97, 122); (170, 170); (178, 179); (181, 181);
   (185, 186); (188, 190); (192, 214); (216, 246); (248, 705); (710, 721);
   (736, 740); (748, 748); (750, 750); (880, 884); (886, 887); (890, 893);
   (895, 895); (902, 902); (904, 906); (908, 908); (910, 929); (931, 1013);
   (1015, 1153); (1162, 1327); (1329, 1366); (1369, 1369); (1376, 1416);
   (1488, 1514); (1519, 1522); (1568, 1610); (1632, 1641); (1646, 1647);
   (1649, 1747); (1749, 1749); (1765, 1766); (1774, 1788); (1791, 1791);
   (1808, 1808); (1810, 1839); (1869, 1957); (1969, 1969); (1984, 2026);
   (2036, 2037); (2042, 2042); (2048, 2069); (2074, 2074); (2084, 2084);
   (2088, 2088); (2112, 2136); (2144, 2154); (2160, 2183); (2185, 2190);
   (2208, 2249); (2308, 2361); (2365, 2365); (2384, 2384); (2392, 2401);
   (2406, 2415); (2417, 2432); (2437, 2444); (2447, 2448); (2451, 2472);
   (2474, 2480); (2482, 2482); (2486, 2489); (2493, 2493); (2510, 2510);
   (2524, 2525); (2527, 2529); (2534, 2545); (2548, 2553); (2556, 2556);
   (2565, 2570); (2575, 2576); (2579, 2600); (2602, 2608); (2610, 2611);
   (2613, 2614); (2616, 2617); (2649, 2652); (2654, 2654); (2662, 2671);
   (2674, 2676); (2693, 2701); (2703, 2705); (2707, 2728); (2730, 2736);
   (2738, 2739); (2741, 2745); (2749, 2749); (2768, 2768); (2784, 2785);
   (2790, 2799); (2809, 2809); (2821, 2828); (2831, 2832); (2835, 2856);
   (2858, 2864); (2866, 2867); (2869, 2873); (2877, 2877); (2908, 2909);
   (2911, 2913); (2918, 2927); (2929, 2935); (2947, 2947); (2949, 2954);
   (2958, 2960); (2962, 2965); (2969, 2970); (2972, 2972); (2974, 2975);
   (2979, 2980); (2984, 2986); (2990, 3001); (3024, 3024); (3046, 3058);
   (3077, 3084); (3086, 3088); (3090, 3112); (3114, 3129); (3133, 3133);
   (3160, 3162); (3165, 3165); (3168, 3169); (3174, 3183); (3192, 3198);
   (3200, 3200); (3205, 3212); (3214, 3216); (3218, 3240); (3242, 3251);
   (3253, 3257); (3261, 3261); (3293, 3294); (3296, 3297); (3302, 3311);
   (3313, 3314); (3332, 3340); (3342, 3344); (3346, 3386); (3389, 3389);
   (3406, 3406); (3412, 3414); (3416, 3425); (3430, 3448); (3450, 3455);
   (3461, 3478); (3482, 3505); (3507, 3515); (3517, 3517); (3520, 3526);
   (3558, 3567); (3585, 3632); (3634, 3635); (3648, 3654); (3664, 3673);
   (3713, 3714); (3716, 3716); (3718, 3722); (3724, 3747); (3749, 3749);
   (3751, 3760); (3762, 3763); (3773, 3773); (3776, 3780); (3782, 3782);
   (3792, 3801); (3804, 3807); (3840, 3840); (3872, 3891); (3904, 3911);
   (3913, 3948); (3976, 3980); (4096, 4138); (4159, 4169); (4176, 4181);
   (4186, 4189); (4193, 4193); (4197, 4198); (4206, 4208); (4213, 4225);
   (4238, 4238); (4240, 4249); (4256, 4293); (4295, 4295); (4301, 4301);
   (4304, 4346); (4348, 4680); (4682, 4685); (4688, 4694); (4696, 4696);
   (4698, 4701); (4704, 4744); (4746, 4749); (4752, 4784); (4786, 4789);
   (4792, 4798); (4800, 4800); (4802, 4805); (4808, 4822); (4824, 4880);
   (4882, 4885); (4888, 4954); (4969, 4988); (4992, 5007); (5024, 5109);
   (5112, 5117); (5121, 5740); (5743, 5759); (5761, 5786); (5792, 5866);
   (5870, 5880); (5888, 5905); (5919, 5937); (5952, 5969); (5984, 5996);
   (5998, 6000); (6016, 6067); (6103, 6103); (6108, 6108); (6112, 6121);
   (6128, 6137); (6160, 6169); (6176, 6264); (6272, 6276); (6279, 6312);
   (6314, 6314); (6320, 6389); (6400, 6430); (6470, 6509); (6512, 6516);
   (6528, 6571); (6576, 6601); (6608, 6618); (6656, 6678); (6688, 6740);
   (6784, 6793); (6800, 6809); (6823, 6823); (6917, 6963); (6981, 6988);
   (6992, 7001); (7043, 7072); (7086, 7141); (7168, 7203); (7232, 7241);
   (7245, 7293); (7296, 7304); (7312, 7354); (7357, 7359); (7401, 7404);
   (7406, 7411); (7413, 7414); (7418, 7418); (7424, 7615); (7680, 7957);
   (7960, 7965); (7968, 8005); (8008, 8013); (8016, 8023); (8025, 8025);
   (8027, 8027); (8029, 8029); (8031, 8061); (8064, 8116); (8118, 8124);
   (8126, 8126); (8130, 8132); (8134, 8140); (8144, 8147); (8150, 8155);
   (8160, 8172); (8178, 8180); (8182, 8188); (8304, 8305); (8308, 8313);
   (8319, 8329); (8336, 8348); (8450, 8450); (8455, 8455); (8458, 8467);
   (8469, 8469); (8473, 8477); (8484, 8484); (8486, 8486); (8488, 8488);
   (8490, 8493); (8495, 8505); (8508, 8511); (8517, 8521); (8526, 8526);
   (8528, 8585); (9312, 9371); (9450, 9471); (10102, 10131); (11264, 11492);
   (11499, 11502); (11506, 11507); (11517, 11517); (11520, 11557);
   (11559, 11559); (11565, 11565); (11568, 11623); (11631, 11631);
   (11648, 11670); (11680, 11686); (11688, 11694); (11696, 11702);
   (11704, 11710); (11712, 11718); (11720, 11726); (11728, 11734);
   (11736, 11742); (11823, 11823); (12293, 12295); (12321, 12329);
   (12337, 12341); (12344, 12348); (12353, 12438); (12445, 12447);
   (12449, 12538); (12540, 12543); (12549, 12591); (12593, 12686);
   (12690, 12693); (12704, 12735); (12784, 12799); (12832, 12841);
   (12872, 12879); (12881, 12895); (12928, 12937); (12977, 12991);
   (13312, 19903); (19968, 42124); (42192, 42237); (42240, 42508);
   (42512, 42539); (42560, 42606); (42623, 42653); (42656, 42735);
   (42775, 42783); (42786, 42888); (42891, 42954); (42960, 42961);
   (42963, 42963); (42965, 42969); (42994, 43009); (43011, 43013);
   (43015, 43018); (43020, 43042); (43056, 43061); (43072, 43123);
   (43138, 43187); (43216, 43225); (43250, 43255); (43259, 43259);
   (43261, 43262); (43264, 43301); (43312, 43334); (43360, 43388);
   (43396, 43442); (43471, 43481); (43488, 43492); (43494, 43518);
   (43520, 43560); (43584, 43586); (43588, 43595); (43600, 43609);
   (43616, 43638); (43642, 43642); (43646, 43695); (43697, 43697);
   (43701, 43702); (43705, 43709); (43712, 43712); (43714, 43714);
   (43739, 43741); (43744, 43754); (43762, 43764); (43777, 43782);
   (43785, 43790); (43793, 43798); (43808, 43814); (43816, 43822);
   (43824, 43866); (43868, 43881); (43888, 44002); (44016, 44025);
   (44032, 55203); (55216, 55238); (55243, 55291); (63744, 64109);
   (64112, 64217); (64256, 64262); (64275, 64279); (64285, 64285);
   (64287, 64296); (64298, 64310); (64312, 64316); (64318, 64318);
   (64320, 64321); (64323, 64324); (64326, 64433); (64467, 64829);
   (64848, 64911); (64914, 64967); (65008, 65019); (65136, 65140);
   (65142, 65276); (65296, 65305); (65313, 65338); (65345, 65370);
   (65382, 65470); (65474, 65479); (65482, 65487); (65490, 65495);
   (65498, 65500); (65536, 65547); (65549, 65574); (65576, 65594);
   (65596, 65597); (65599, 65613); (65616, 65629); (65664, 65786);
   (65799, 65843); (65856, 65912); (65930, 65931); (66176, 66204);
   (66208, 66256); (66273, 66299); (66304, 66339); (66349, 66378);
   (66384, 66421); (66432, 66461); (66464, 66499); (66504, 66511);
   (66513, 66517); (66560, 66717); (66720, 66729); (66736, 66771);
   (66776, 66811); (66816, 66855); (66864, 66915); (66928, 66938);
   (66940, 66954); (66956, 66962); (66964, 66965); (66967, 66977);
   (66979, 66993); (66995, 67001); (67003, 67004); (67072, 67382);
   (67392, 67413); (67424, 67431); (67456, 67461); (67463, 67504);
   (67506, 67514); (67584, 67589); (67592, 67592); (67594, 67637);
   (67639, 67640); (67644, 67644); (67647, 67669); (67672, 67702);
   (67705, 67742); (67751, 67759); (67808, 67826); (67828, 67829);
   (67835, 67867); (67872, 67897); (67968, 68023); (68028, 68047);
   (68050, 68096); (68112, 68115); (68117, 68119); (68121, 68149);
   (68160, 68168); (68192, 68222); (68224, 68255); (68288, 68295);
   (68297, 68324); (68331, 68335); (68352, 68405); (68416, 68437);
   (68440, 68466); (68472, 68497); (68521, 68527); (68608, 68680);
   (68736, 68786); (68800, 68850); (68858, 68899); (68912, 68921);
   (69216, 69246); (69248, 69289); (69296, 69297); (69376, 69415);
   (69424, 69445); (69457, 69460); (69488, 69505); (69552, 69579);
   (69600, 69622); (69635, 69687); (69714, 69743); (69745, 69746);
   (69749, 69749); (69763, 69807); (69840, 69864); (69872, 69881);
   (69891, 69926); (69942, 69951); (69956, 69956); (69959, 69959);
   (69968, 70002); (70006, 70006); (70019, 70066); (70081, 70084);
   (70096, 70106); (70108, 70108); (70113, 70132); (70144, 70161);
   (70163, 70187); (70272, 70278); (70280, 70280); (70282, 70285);
   (70287, 70301); (70303, 70312); (70320, 70366); (70384, 70393);
   (70405, 70412); (70415, 70416); (70419, 70440); (70442, 70448);
   (70450, 70451); (70453, 70457); (70461, 70461); (70480, 70480);
   (70493, 70497); (70656, 70708); (70727, 70730); (70736, 70745);
   (70751, 70753); (70784, 70831); (70852, 70853); (70855, 70855);
   (70864, 70873); (71040, 71086); (71128, 71131); (71168, 71215);
   (71236, 71236); (71248, 71257); (71296, 71338); (71352, 71352);
   (71360, 71369); (71424, 71450); (71472, 71483); (71488, 71494);
   (71680, 71723); (71840, 71922); (71935, 71942); (71945, 71945);
   (71948, 71955); (71957, 71958); (71960, 71983); (71999, 71999);
   (72001, 72001); (72016, 72025); (72096, 72103); (72106, 72144);
   (72161, 72161); (72163, 72163); (72192, 72192); (72203, 72242);
   (72250, 72250); (72272, 72272); (72284, 72329); (72349, 72349);
   (72368, 72440); (72704, 72712); (72714, 72750); (72768, 72768);
   (72784, 72812); (72818, 72847); (72960, 72966); (72968, 72969);
   (72971, 73008); (73030, 73030); (73040, 73049); (73056, 73061);
   (73063, 73064); (73066, 73097); (73112, 73112); (73120, 73129);
   (73440, 73458); (73648, 73648); (73664, 73684); (73728, 74649);
   (74752, 74862); (74880, 75075); (77712, 77808); (77824, 78894);
   (82944, 83526); (92160, 92728); (92736, 92766); (92768, 92777);
   (92784, 92862); (92864, 92873); (92880, 92909); (92928, 92975);
   (92992, 92995); (93008, 93017); (93019, 93025); (93027, 93047);
   (93053, 93071); (93760, 93846); (93952, 94026); (94032, 94032);
   (94099, 94111); (94176, 94177); (94179, 94179); (94208, 100343);
   (100352, 101589); (101632, 101640); (110576, 110579); (110581, 110587);
   (110589, 110590); (110592, 110882); (110928, 110930); (110948, 110951);
   (110960, 111355); (113664, 113770); (113776, 113788); (113792, 113800);
   (113808, 113817); (119520, 119539); (119648, 119672); (119808, 119892);
   (119894, 119964); (119966, 119967); (119970, 119970); (119973, 119974);
   (119977, 119980); (119982, 119993); (119995, 119995); (119997, 120003);
   (120005, 120069); (120071, 120074); (120077, 120084); (120086, 120092);
   (120094, 120121); (120123, 120126); (120128, 120132); (120134, 120134);
   (120138, 120144); (120146, 120485); (120488, 120512); (120514, 120538);
   (120540, 120570); (120572, 120596); (120598, 120628); (120630, 120654);
   (120656, 120686); (120688, 120712); (120714, 120744); (120746, 120770);
   (120772, 120779); (120782, 120831); (122624, 122654); (123136, 123180);
   (123191, 123197); (123200, 123209); (123214, 123214); (123536, 123565);
   (123584, 123627); (123632, 123641); (124896, 124902); (124904, 124907);
   (124909, 124910); (124912, 124926); (124928, 125124); (125127, 125135);
   (125184, 125251); (125259, 125259); (125264, 125273); (126065, 126123);
   (126125, 126127); (126129, 126132); (126209, 126253); (126255, 126269);
   (126464, 126467); (126469, 126495); (126497, 126498); (126500, 126500);
   (126503, 126503); (126505, 126514); (126516, 126519); (126521, 126521);
   (126523, 126523); (126530, 126530); (126535, 126535); (126537, 126537);
   (126539, 126539); (126541, 126543); (126545, 126546); (126548, 126548);
   (126551, 126551); (126553, 126553); (126555, 126555); (126557, 126557);
   (126559, 126559); (126561, 126562); (126564, 126564); (126567, 126570);
   (126572, 126578); (126580, 126583); (126585, 126588); (126590, 126590);
   (126592, 126601); (126603, 126619); (126625, 126627); (126629, 126633);
   (126635, 126651); (127232, 127244); (130032, 130041); (131072, 173791);
   (173824, 177976); (177984, 178205); (178208, 183969); (183984, 191456);
   (194560, 195101); (196608, 201546)]%N.
Definition isalnum (n : N) : bool := in_ranges alnum_table n.
(** The class [\w] of a pattern on [str]: [str.isalnum] and the
    underscore. *)
Definition isword (n : N) : bool := (isalnum n || N.eqb n 95)%bool.

(** The classes, of a character. *)
Definition space (ch : string) : bool := isspace (ord ch).
Definition digit (ch : string) : bool := isdecimal (ord ch).
Definition word (ch : string) : bool := isword (ord ch).

(** ** Strings *)

Fixpoint dropwhile {A : Type} (p : A -> bool) (l : list A) : list A :=
  match l with
  | [] => []
  | x :: r => if p x then dropwhile p r else l
  end.

(** [s.strip()]: the white space at both ends is removed. *)
Definition strip_chars (l : list string) : list string :=
  rev (dropwhile space (rev (dropwhile space l))).
Definition strip (s : string) : string := text_of (strip_chars (chars s)).

(** [s.find(c)] for a one-character needle: the least index, or -1. *)
Fixpoint find (c : ascii) (s : string) : Z :=
  match s with
  | EmptyString => -1
  | String d r =>
      if Ascii.eqb d c then 0
      else let i := find c r in if i <? 0 then -1 else i + 1
  end.

(** [s.rfind(c)] for a one-character needle: the greatest index, or -1. *)
Fixpoint rfind (c : ascii) (s : string) : Z :=
  match s with
  | EmptyString => -1
  | String d r =>
      let i := rfind c r in
      if 0 <=? i then i + 1
      else if Ascii.eqb d c then 0 else -1
  end.

Fixpoint drop (n : nat) (s : string) : string :=
  match n, s with
  | O, _ => s
  | S m, String _ r => drop m r
  | S _, EmptyString => EmptyString
  end.

Fixpoint take (n : nat) (s : string) : string :=
  match n, s with
  | S m, String c r => String c (take m r)
  | _, _ => EmptyString
  end.

(** [s[i:j]]; a negative bound counts from the end, as in Python. *)
Definition clamp (s : string) (i : Z) : nat :=
  let n := Z.of_nat (String.length s) in
  Z.to_nat (Z.min n (if i <? 0 then Z.max 0 (n + i) else i)).
Definition slice (s : string) (i j : Z) : string :=
  let a := clamp s i in
  let b := clamp s j in
  take (b - a) (drop a s).

(** [s.startswith(p)] *)
Fixpoint startswith (s p : string) : bool :=
  match p, s with
  | EmptyString, _ => true
  | String a p', String b s' => (Ascii.eqb a b && startswith s' p')%bool
  | String _ _, EmptyString => false
  end.

(** [int(s)] on a string of decimal digits, of whatever script. *)
Definition digit_value (ch : string) : Z :=
  match decimal (ord ch) with
  | Some v => Z.of_N v
  | None => 0
  end.
Fixpoint int_acc (acc : Z) (l : list string) : Z :=
  match l with
  | [] => acc
  | ch :: r => int_acc (10 * acc + digit_value ch) r
  end.
Definition int (s : string) : Z := int_acc 0 (chars s).

(** [str(n)] for an [int] *)
Definition str_of_int (n : Z) : string := NilZero.string_of_int (Z.to_int n).

(** ** Regular expressions *)

(** The longest run of digits at the head of the characters [l]. *)
Fixpoint leading_digits (l : list string) : string :=
  match l with
  | ch :: r => if digit ch then ch ++ leading_digits r else EmptyString
  | [] => EmptyString
  end.

(** [re.search(r'(\d+)', s)]: [group(1)] of the leftmost match, which is the
    first maximal run of digits. *)
Fixpoint search_digits (l : list string) : option string :=
  match l with
  | [] => None
  | ch :: r => if digit ch then Some (leading_digits l) else search_digits r
  end.
Definition re_search_digits (s : string) : option string :=
  search_digits (chars s).

(** [re.findall(r'\b(\d+)\b', s)].  A match starts at a digit that does not
    follow a word character, takes digits greedily, and needs a word
    boundary after them; giving digits back never helps, since what follows
    a shorter run is again a digit, and a digit is a word character.  [run]
    is the match being read ([None] outside one); [prev] tells whether the
    previous character is a word character. *)
Fixpoint findall_scan (l : list string) (prev : bool) (run : option string)
  : list string :=
  match l with
  | [] =>
      match run with
      | Some ds => [ds]
      | None => []
      end
  | ch :: r =>
      match run with
      | Some ds =>
          if digit ch then findall_scan r true (Some (ds ++ ch))
          else if word ch then findall_scan r true None
          else ds :: findall_scan r false None
      | None =>
          if digit ch
          then if prev then findall_scan r true None
               else findall_scan r true (Some ch)
          else findall_scan r (word ch) None
      end
  end.
Definition re_findall_word_digits (s : string) : list string :=
  findall_scan (chars s) false None.

(** ** Lists *)

(** [l[:k]] *)
Definition list_prefix {A : Type} (l : list A) (k : Z) : list A :=
  if k <? 0 then firstn (Z.to_nat (Z.of_nat (length l) + k)) l
  else firstn (Z.to_nat k) l.

(** [list(range(n))] *)
Definition range (n : Z) : list Z := map Z.of_nat (seq 0 (Z.to_nat n)).

(** [l[i]] *)
Definition list_index {A : Type} (l : list A) (i : Z) : exc A :=
  let j := if i <? 0 then Z.of_nat (length l) + i else i in
  if j <? 0 then Raise IndexError
  else match nth_error l (Z.to_nat j) with
       | Some a => Ok a
       | None => Raise IndexError
       end.

End Py.


Import Py.

(* ===================================================================== *)
(** * Decoded JSON values, and the dictionaries of the program *)
(* ===================================================================== *)

Module Json.

(** What [json.loads] returns and [json.dump] accepts.  A number with a
    fraction or an exponent keeps the text of its literal. *)
#[warnings="-register-all"]
Inductive json : Type :=
| JNull
| JBool (b : bool)
| JInt (n : Z)
| JFloat (lit : string)
| JStr (s : string)
| JArr (items : list json)
| JObj (fields : list (string * json)).

Definition dict : Type := list (string * json).

Fixpoint lookup (k : string) (d : dict) : option json :=
  match d with
  | [] => None
  | (k', v) :: r => if String.eqb k' k then Some v else lookup k r
  end.

(** [d[k] = v]: an existing key keeps its place. *)
Fixpoint dict_set (k : string) (v : json) (d : dict) : dict :=
  match d with
  | [] => [(k, v)]
  | (k', v') :: r =>
      if String.eqb k' k then (k', v) :: r else (k', v') :: dict_set k v r
  end.

Definition keys (d : dict) : list string := map fst d.

(** The mantissa of a float literal has a non-zero digit, or the literal is
    one of [NaN], [Infinity], [-Infinity]. *)
Fixpoint float_nonzero (lit : string) : bool :=
  match lit with
  | EmptyString => false
  | String c r =>
      if (Ascii.eqb c "e" || Ascii.eqb c "E")%bool then false
      else if (between 49 57 c || Ascii.eqb c "N" || Ascii.eqb c "I")%bool then true
      else float_nonzero r
  end.

(** [bool(v)] *)
Definition truthy (v : json) : bool :=
  match v with
  | JNull => false
  | JBool b => b
  | JInt n => negb (n =? 0)
  | JFloat lit => float_nonzero lit
  | JStr s => negb (String.eqb s EmptyString)
  | JArr l => match l with [] => false | _ => true end
  | JObj d => match d with [] => false | _ => true end
  end.

(** [v == s] for a [str] [s] *)
Definition eq_str (v : json) (s : string) : bool :=
  match v with
  | JStr t => String.eqb t s
  | _ => false
  end.

(** [v.get(k, default)]: only a dictionary has [get]. *)
Definition get (v : json) (k : string) (default : json) : exc json :=
  match v with
  | JObj d => Ok (match lookup k d with Some x => x | None => default end)
  | _ => Raise AttributeError
  end.

(** [v[k]] for a [str] key. *)
Definition getitem (v : json) (k : string) : exc json :=
  match v with
  | JObj d => match lookup k d with
              | Some x => Ok x
              | None => Raise (KeyError k)
              end
  | _ => Raise TypeError
  end.

(** [needle in hay] on strings: [needle] occurs in [hay]. *)
Fixpoint occurs (needle hay : string) : bool :=
  (startswith hay needle ||
   match hay with
   | EmptyString => false
   | String _ r => occurs needle r
   end)%bool.

(** [k in v] for a [str] [k]: a key of a dictionary, an element of a list,
    a substring of a string; other values are not containers. *)
Definition contains (k : string) (v : json) : exc bool :=
  match v with
  | JObj d => Ok (match lookup k d with Some _ => true | None => false end)
  | JArr l => Ok (existsb (fun x => eq_str x k) l)
  | JStr s => Ok (occurs k s)
  | _ => Raise TypeError
  end.

(** [for x in v]: the elements of a list, the keys of a dictionary, the
    characters of a string. *)
Definition iter (v : json) : exc (list json) :=
  match v with
  | JArr l => Ok l
  | JObj d => Ok (map JStr (keys d))
  | JStr s => Ok (map JStr (chars s))
  | _ => Raise TypeError
  end.

(** ** [json.loads] *)

Definition is_ws (c : ascii) : bool :=
  (Ascii.eqb c " " || between 9 10 c || N.eqb (code c) 13)%bool.

Fixpoint skip_ws (s : string) : string :=
  match s with
  | String c r => if is_ws c then skip_ws r else s
  | EmptyString => EmptyString
  end.

(** The digits of the scanner, which compares with the characters 0 and 9:
    the ten ASCII ones. *)
Definition is_digit (c : ascii) : bool := between 48 57 c.

(** The longest prefix of digits, and what follows it. *)
Fixpoint span_digits (s : string) : string * string :=
  match s with
  | String c r =>
      if is_digit c
      then let '(ds, rest) := span_digits r in (String c ds, rest)
      else (EmptyString, s)
  | EmptyString => (EmptyString, EmptyString)
  end.

Definition hex_value (c : ascii) : option N :=
  if is_digit c then Some (code c - 48)%N
  else if between 97 102 c then Some (code c - 87)%N
  else if between 65 70 c then Some (code c - 55)%N
  else None.

(** The four hexadecimal digits of a [\uXXXX] escape. *)
Definition decode_uXXXX (s : string) : option (N * string) :=
  match s with
  | String a (String b (String c (String d r))) =>
      match hex_value a, hex_value b, hex_value c, hex_value d with
      | Some x, Some y, Some z, Some w =>
          Some (((x * 16 + y) * 16 + z) * 16 + w, r)%N
      | _, _, _, _ => None
      end
  | _ => None
  end.

Definition byte (n : N) : string := String (ascii_of_N n) EmptyString.

(** [chr(u)] as the bytes of its UTF-8 encoding. *)
Definition chr (u : N) : string :=
  (if u <? 128 then byte u
   else if u <? 2048 then byte (192 + u / 64) ++ byte (128 + u mod 64)
   else if u <? 65536 then
     byte (224 + u / 4096) ++ byte (128 + (u / 64) mod 64) ++ byte (128 + u mod 64)
   else
     byte (240 + u / 262144) ++ byte (128 + (u / 4096) mod 64)
       ++ byte (128 + (u / 64) mod 64) ++ byte (128 + u mod 64))%N.

Definition unescape (c : ascii) : option string :=
  if Ascii.eqb c dquote then Some (String dquote EmptyString)
  else if Ascii.eqb c backslash then Some (String backslash EmptyString)
  else if Ascii.eqb c "/" then Some "/"
  else if Ascii.eqb c "b" then Some (byte 8)
  else if Ascii.eqb c "f" then Some (byte 12)
  else if Ascii.eqb c "n" then Some (byte 10)
  else if Ascii.eqb c "r" then Some (byte 13)
  else if Ascii.eqb c "t" then Some (byte 9)
  else None.

(** The body of a string literal, after its opening quote: the decoded text
    and what follows the closing quote.  A raw control character is refused
    (strict mode). *)
Fixpoint scanstring (fuel : nat) (s : string) (acc : string)
  : option (string * string) :=
  match fuel with
  | O => None
  | S f =>
      match s with
      | EmptyString => None
      | String c r =>
          if Ascii.eqb c dquote then Some (acc, r)
          else if Ascii.eqb c backslash then
            match r with
            | EmptyString => None
            | String e r' =>
                if Ascii.eqb e "u" then
                  match decode_uXXXX r' with
                  | None => None
                  | Some (u, r2) =>
                      if ((55296 <=? u) && (u <=? 56319)
                          && startswith r2 (String backslash "u"))%N%bool
                      then match decode_uXXXX (drop 2 r2) with
                           | None => None
                           | Some (u2, r3) =>
                               if ((56320 <=? u2) && (u2 <=? 57343))%N%bool
                               then scanstring f r3
                                      (acc ++ chr (65536 + ((u - 55296) * 1024 + (u2 - 56320))))%N
                               else scanstring f r2 (acc ++ chr u)
                           end
                      else scanstring f r2 (acc ++ chr u)
                  end
                else match unescape e with
                     | Some t => scanstring f r' (acc ++ t)
                     | None => None
                     end
            end
          else if (code c <? 32)%N then None
          else scanstring f r (acc ++ String c EmptyString)
      end
  end.

Definition negate (neg : bool) (n : Z) : Z := if neg then - n else n.

(** The number at the head of [s]: an optional minus sign, then either a
    single 0 or a digit 1..9 followed by digits; then, if present, a point
    followed by one digit or more; then, if present, e or E, an optional
    sign and one digit or more.  It is an [int] when it has neither fraction
    nor exponent. *)
Definition match_number (s : string) : option (json * string) :=
  let '(neg, s1) := match s with
                    | String "-" r => (true, r)
                    | _ => (false, s)
                    end in
  let int_part :=
    match s1 with
    | String c r =>
        if Ascii.eqb c "0" then Some ("0", r)
        else if between 49 57 c then Some (span_digits s1)
        else None
    | EmptyString => None
    end in
  match int_part with
  | None => None
  | Some (ds, r1) =>
      let '(frac, r2) :=
        match r1 with
        | String "." r =>
            let '(fs, r') := span_digits r in
            if String.eqb fs EmptyString then (EmptyString, r1)
            else (String "." fs, r')
        | _ => (EmptyString, r1)
        end in
      let '(expo, r3) :=
        match r2 with
        | String e r =>
            if (Ascii.eqb e "e" || Ascii.eqb e "E")%bool then
              let '(sign, r') :=
                match r with
                | String g r'' =>
                    if (Ascii.eqb g "+" || Ascii.eqb g "-")%bool
                    then (String g EmptyString, r'') else (EmptyString, r)
                | EmptyString => (EmptyString, r)
                end in
              let '(es, r'') := span_digits r' in
              if String.eqb es EmptyString then (EmptyString, r2)
              else (String e (sign ++ es), r'')
            else (EmptyString, r2)
        | EmptyString => (EmptyString, r2)
        end in
      if (String.eqb frac EmptyString && String.eqb expo EmptyString)%bool
      then Some (JInt (negate neg (int ds)), r3)
      else Some (JFloat ((if neg then "-" else EmptyString) ++ ds ++ frac ++ expo), r3)
  end.

(** One value at the head of [s] (no white space is skipped before it), and
    the two loops of the array and object decoders, which start at an
    element and at a key.  Each call reads a character of the text or hands
    over to a call that does, so calls nest no deeper than twice the length
    of the text, which is what [loads] gives as [fuel]. *)
Fixpoint scan_once (fuel : nat) (s : string) : option (json * string) :=
  match fuel with
  | O => None
  | S f =>
      match s with
      | EmptyString => None
      | String c r =>
          if Ascii.eqb c dquote then
            match scanstring (S (String.length r)) r EmptyString with
            | Some (t, r') => Some (JStr t, r')
            | None => None
            end
          else if Ascii.eqb c "{" then
            match skip_ws r with
            | String "}" r' => Some (JObj [], r')
            | r' => match object_pairs f r' [] with
                    | Some (d, r'') => Some (JObj d, r'')
                    | None => None
                    end
            end
          else if Ascii.eqb c "[" then
            match skip_ws r with
            | String "]" r' => Some (JArr [], r')
            | r' => match array_items f r' with
                    | Some (l, r'') => Some (JArr l, r'')
                    | None => None
                    end
            end
          else if startswith s "null" then Some (JNull, drop 4 s)
          else if startswith s "true" then Some (JBool true, drop 4 s)
          else if startswith s "false" then Some (JBool false, drop 5 s)
          else match match_number s with
               | Some res => Some res
               | None =>
                   if startswith s "NaN" then Some (JFloat "NaN", drop 3 s)
                   else if startswith s "Infinity"
                   then Some (JFloat "Infinity", drop 8 s)
                   else if startswith s "-Infinity"
                   then Some (JFloat "-Infinity", drop 9 s)
                   else None
               end
      end
  end
with array_items (fuel : nat) (s : string) : option (list json * string) :=
  match fuel with
  | O => None
  | S f =>
      match scan_once f s with
      | None => None
      | Some (v, r) =>
          match skip_ws r with
          | String "]" r' => Some ([v], r')
          | String "," r' =>
              match array_items f (skip_ws r') with
              | Some (l, r'') => Some (v :: l, r'')
              | None => None
              end
          | _ => None
          end
      end
  end
with object_pairs (fuel : nat) (s : string) (acc : dict)
  : option (dict * string) :=
  match fuel with
  | O => None
  | S f =>
      match s with
      | String c r =>
          if Ascii.eqb c dquote then
            match scanstring (S (String.length r)) r EmptyString with
            | None => None
            | Some (k, r1) =>
                match skip_ws r1 with
                | String ":" r2 =>
                    match scan_once f (skip_ws r2) with
                    | None => None
                    | Some (v, r3) =>
                        let acc' := dict_set k v acc in
                        match skip_ws r3 with
                        | String "}" r4 => Some (acc', r4)
                        | String "," r4 => object_pairs f (skip_ws r4) acc'
                        | _ => None
                        end
                    end
                | _ => None
                end
            end
          else None
      | EmptyString => None
      end
  end.

(** [json.loads(s)]: one value, white space allowed around it, nothing
    after it. *)
Definition loads (s : string) : exc json :=
  match scan_once (2 * String.length s + 2) (skip_ws s) with
  | Some (v, r) =>
      match skip_ws r with
      | EmptyString => Ok v
      | _ => Raise JSONDecodeError
      end
  | None => Raise JSONDecodeError
  end.

End Json.

Import Json.

(* ===================================================================== *)
(** * analysis_engine.py: the recommendation formatter and service *)
(* ===================================================================== *)

Module AnalysisEngine.

Definition nl : string := String (ascii_of_N 10) EmptyString.
Definition dq : string := String dquote EmptyString.

Definition CONTACT_URL : string := "https://www.shl.com/contact-us/".

Section Engine.

(** [str(v)] of a decoded value that is not a string, as an f-string
    renders it. *)
Variable repr_other : json -> string.
(** [str(e)] of a caught exception. *)
Variable exn_str : exn -> string.
(** What reading and decoding the dataset file gives: [_get_products()]. *)
Variable _get_products : exc (list json).
(** [random.sample(population, n)] *)
Variable random_sample : list json -> nat -> list json.
(** Building the chat client, [llm.invoke(prompt)] and
    [str(response.content)]: the text of the reply, or what was raised. *)
Variable llm_invoke : string -> exc string.

(** A replacement field [{v}] of an f-string. *)
Definition fmt (v : json) : string :=
  match v with
  | JStr s => s
  | _ => repr_other v
  end.

(** The loop of [_get_product_text] over the sections. *)
Fixpoint product_text_sections (sections : list json) (text : string)
  : exc string :=
  match sections with
  | [] => Ok text
  | section :: rest =>
      (heading <- get section "heading" (JStr EmptyString) ;;
       content <- get section "text" (JStr EmptyString) ;;
       if (truthy heading && truthy content)%bool
       then product_text_sections rest
              (text ++ fmt heading ++ ": " ++ fmt content ++ nl)
       else product_text_sections rest text)%exc
  end.

Definition _get_product_text (product : json) : exc string :=
  (name <- getitem product "Name" ;;
   let text := "Name: " ++ fmt name ++ nl in
   description <- getitem product "Description" ;;
   let text := text ++ "Description: " ++ fmt description ++ nl in
   sections <- get product "Sections" (JArr []) ;;
   sections <- iter sections ;;
   product_text_sections sections text)%exc.

(** [re.search(r'(\d+)', text)]: the pattern needs a string. *)
Definition re_search (text : json) : exc (option string) :=
  match text with
  | JStr s => Ok (re_search_digits s)
  | _ => Raise TypeError
  end.

(** The loop of [_extract_duration] over the sections. *)
Fixpoint duration_of_sections (sections : list json) : exc Z :=
  match sections with
  | [] => Ok 60
  | section :: rest =>
      (heading <- get section "heading" JNull ;;
       if eq_str heading "Assessment length" then
         text <- get section "text" (JStr EmptyString) ;;
         m <- re_search text ;;
         match m with
         | Some digits => Ok (int digits)
         | None => duration_of_sections rest
         end
       else duration_of_sections rest)%exc
  end.

Definition _extract_duration (product : json) : exc Z :=
  (sections <- get product "Sections" (JArr []) ;;
   sections <- iter sections ;;
   duration_of_sections sections)%exc.

Definition _extract_test_types (product : json) : exc json :=
  (present <- contains "Test Types" product ;;
   if present then
     types <- getitem product "Test Types" ;;
     if truthy types then Ok types
     else Ok (JArr [JStr "Knowledge & Skills"])
   else Ok (JArr [JStr "Knowledge & Skills"]))%exc.

Definition yes_no (b : bool) : json := JStr (if b then "Yes" else "No").

(** The loop of [_format_for_llm]; [i] is the index [enumerate] gives. *)
Fixpoint formatted_products (i : Z) (products : list json)
  : exc (list string) :=
  match products with
  | [] => Ok []
  | product :: rest =>
      (text <- _get_product_text product ;;
       link <- getitem product "Link" ;;
       let entry := "PRODUCT " ++ str_of_int (i + 1) ++ ":" ++ nl ++ text ++ nl
                    ++ "Link: " ++ fmt link ++ nl in
       others <- formatted_products (i + 1) rest ;;
       Ok (entry :: others))%exc
  end.

(** [sep.join(parts)] *)
Fixpoint join (sep : string) (parts : list string) : string :=
  match parts with
  | [] => EmptyString
  | [x] => x
  | x :: r => x ++ sep ++ join sep r
  end.

Definition _format_for_llm (products : list json) (limit : Z) : exc string :=
  (formatted <- formatted_products 0 (list_prefix products limit) ;;
   Ok (join nl formatted))%exc.

(** The dictionary of one product in the shape of the API. *)
Definition _extract_product_api_format (product : json) : exc json :=
  (url <- get product "Link" (JStr EmptyString) ;;
   adaptive <- get product "Adaptive" JNull ;;
   description <- get product "Description" (JStr EmptyString) ;;
   duration <- _extract_duration product ;;
   remote <- get product "Remote Testing" JNull ;;
   test_type <- _extract_test_types product ;;
   Ok (JObj [("url", url);
             ("adaptive_support", yes_no (eq_str adaptive "Yes"));
             ("description", description);
             ("duration", JInt duration);
             ("remote_support", yes_no (eq_str remote "Yes"));
             ("test_type", test_type)]))%exc.

(** ** recommend_assessment *)

Definition ui_prompt (user_query : string) (k : Z) (products_text : string)
  : string :=
    "You are an AI assistant for SHL, a company that offers various assessments for hiring and employee development." ++ nl ++
    nl ++
    "TASK: Based on the user query, identify the " ++ str_of_int k ++ " most relevant assessment products from the list below." ++ nl ++
    nl ++
    "USER QUERY: " ++ dq ++ user_query ++ dq ++ nl ++
    nl ++
    "AVAILABLE ASSESSMENTS:" ++ nl ++
    products_text ++ nl ++
    nl ++
    "Select the " ++ str_of_int k ++ " most relevant assessments that match the user's needs, considering:" ++ nl ++
    "1. Job role/industry mentioned in the query" ++ nl ++
    "2. Skills being assessed" ++ nl ++
    "3. Time constraints mentioned" ++ nl ++
    "4. Experience level requirements" ++ nl ++
    nl ++
    "RESPOND ONLY with a valid format array containing the selected assessments in this exact format:" ++ nl ++
    "[" ++ nl ++
    "  {" ++ dq ++ "name" ++ dq ++ ": " ++ dq ++ "Assessment Name 1" ++ dq ++ ", " ++ dq ++ "url" ++ dq ++ ": " ++ dq ++ "https://link-to-assessment-1" ++ dq ++ "}," ++ nl ++
    "  {" ++ dq ++ "name" ++ dq ++ ": " ++ dq ++ "Assessment Name 2" ++ dq ++ ", " ++ dq ++ "url" ++ dq ++ ": " ++ dq ++ "https://link-to-assessment-2" ++ dq ++ "}," ++ nl ++
    "  ..." ++ nl ++
    "]" ++ nl ++
    nl ++
    "Each assessment must have only these two fields: " ++ dq ++ "name" ++ dq ++ " and " ++ dq ++ "url" ++ dq ++ "." ++ nl ++
    "Do not include any other fields or commentary or tags or even tags' syntax and symbols." ++ nl.

Definition name_url (name url : json) : json :=
  JObj [("name", name); ("url", url)].

(** The item returned when the reply holds no bracketed array. *)
Definition no_suitable : json :=
  JArr [name_url (JStr "No suitable assessments found") (JStr CONTACT_URL)].

(** The item returned when something was raised. *)
Definition error_retrieving : json :=
  JArr [name_url (JStr "Error retrieving recommendations") (JStr CONTACT_URL)].

(** The loop that keeps the items with both fields, stripped to them. *)
Fixpoint clean_items (results : list json) (clean_results : list json)
  : exc (list json) :=
  match results with
  | [] => Ok clean_results
  | item :: rest =>
      (has_name <- contains "name" item ;;
       has_url <- (if has_name then contains "url" item else Ok false) ;;
       if (has_name && has_url)%bool then
         name <- getitem item "name" ;;
         url <- getitem item "url" ;;
         clean_items rest (clean_results ++ [name_url name url])%list
       else clean_items rest clean_results)%exc
  end.

(** The body of the [try] block, from the reply on. *)
Definition parse_ui_reply (response_text : string) : exc json :=
  let start_idx := find "[" response_text in
  let end_idx := rfind "]" response_text + 1 in
  if ((0 <=? start_idx) && (start_idx <? end_idx))%bool then
    let json_str := slice response_text start_idx end_idx in
    (results <- loads json_str ;;
     results <- iter results ;;
     clean_results <- clean_items results [] ;;
     Ok (JArr clean_results))%exc
  else Ok no_suitable.

(** The value whose [json.dumps] text the function returns; [Raise] is an
    exception that reaches the caller. *)
Definition recommend_assessment (user_query : string) (k : Z) : exc json :=
  (products <- _get_products ;;
   let sample_size := Nat.min 50 (length products) in
   let sampled_products := random_sample products sample_size in
   products_text <- _format_for_llm sampled_products 30 ;;
   let prompt := ui_prompt user_query k products_text in
   Ok (try_except
         (response <- llm_invoke prompt ;;
          let response_text := strip response in
          parse_ui_reply response_text)
         (fun e => error_retrieving)))%exc.

(** ** recommend_assessment_api_format *)

Definition api_prompt (user_query : string) (k : Z) (products_text : string)
  : string :=
    "You are an SHL assessment recommendation expert." ++ nl ++
    nl ++
    "USER QUERY: " ++ dq ++ user_query ++ dq ++ nl ++
    nl ++
    "TASK: Review the assessments below and select EXACTLY " ++ str_of_int k ++ " assessments that best match this query." ++ nl ++
    nl ++
    "AVAILABLE ASSESSMENTS:" ++ nl ++
    products_text ++ nl ++
    nl ++
    "SELECTION CRITERIA:" ++ nl ++
    "1. Match assessment content to skills/topics in the query (highest priority)" ++ nl ++
    "2. Match assessment to job role or industry if mentioned" ++ nl ++
    "3. Consider experience level requirements if mentioned" ++ nl ++
    "4. Consider time constraints if mentioned" ++ nl ++
    nl ++
    "For programming or technical assessments, match the EXACT language or technology mentioned." ++ nl ++
    nl ++
    "INSTRUCTIONS:" ++ nl ++
    "1. Analyze what the user is looking for" ++ nl ++
    "2. For each assessment, evaluate relevance to the query" ++ nl ++
    "3. Select the " ++ str_of_int k ++ " most relevant assessments" ++ nl ++
    "4. Output ONLY their NUMBERS (separated by commas)" ++ nl ++
    nl ++
    "For example, if assessments 7, 12, 15, 22, and 31 are most relevant, respond ONLY with:" ++ nl ++
    "7, 12, 15, 22, 31" ++ nl ++
    nl ++
    "IMPORTANT: DO NOT include any explanations, just the assessment numbers." ++ nl.

(** The loop over the matches: 1-based to 0-based, in range only.  Every
    match is a run of digits, on which [int] is total, so the
    [except ValueError: continue] of the source has no case here. *)
Fixpoint valid_indices (matches : list string) (n : Z) : list Z :=
  match matches with
  | [] => []
  | m :: rest =>
      let idx := int m - 1 in
      if ((0 <=? idx) && (idx <? n))%bool
      then idx :: valid_indices rest n
      else valid_indices rest n
  end.

(** The indices the reply resolves to, with the fallback to the first [k]
    sampled products. *)
Definition resolve_indices (response_text : string) (n k : Z) : list Z :=
  let matches := re_findall_word_digits response_text in
  let indices := valid_indices matches n in
  let indices := list_prefix indices k in
  match indices with
  | [] => range (Z.min k n)
  | _ => indices
  end.

(** The loop that builds one expanded record per index. *)
Fixpoint assessments_of (sampled_products : list json) (indices : list Z)
  : exc (list json) :=
  match indices with
  | [] => Ok []
  | idx :: rest =>
      (product <- list_index sampled_products idx ;;
       url <- get product "Link" (JStr EmptyString) ;;
       adaptive <- get product "Adaptive" JNull ;;
       description <- get product "Description" (JStr EmptyString) ;;
       duration <- _extract_duration product ;;
       remote <- get product "Remote Testing" JNull ;;
       test_type <- _extract_test_types product ;;
       let assessment :=
         JObj [("url", url);
               ("adaptive_support", yes_no (eq_str adaptive "Yes"));
               ("description", description);
               ("duration", JInt duration);
               ("remote_support", yes_no (eq_str remote "Yes"));
               ("test_type", test_type)] in
       others <- assessments_of sampled_products rest ;;
       Ok (assessment :: others))%exc
  end.

Definition recommended (assessments : list json) : json :=
  JObj [("recommended_assessments", JArr assessments)].

(** The record returned when something was raised. *)
Definition api_error (e : exn) : json :=
  recommended
    [JObj [("url", JStr CONTACT_URL);
           ("adaptive_support", JStr "No");
           ("description", JStr ("Error retrieving recommendations: " ++ exn_str e));
           ("duration", JInt 60);
           ("remote_support", JStr "Yes");
           ("test_type", JArr [JStr "Error"])]].

(** The body of the [try] block, from the reply on. *)
Definition parse_api_reply (sampled_products : list json) (k : Z)
  (response_text : string) : exc json :=
  let indices :=
    resolve_indices response_text (Z.of_nat (length sampled_products)) k in
  (recommended_assessments <- assessments_of sampled_products indices ;;
   Ok (recommended recommended_assessments))%exc.

Definition recommend_assessment_api_format (user_query : string) (k : Z)
  : exc json :=
  (products <- _get_products ;;
   let sampled_products :=
     random_sample products (Nat.min 50 (length products)) in
   products_text <- _format_for_llm sampled_products 30 ;;
   let prompt := api_prompt user_query k products_text in
   Ok (try_except
         (response <- llm_invoke prompt ;;
          let response_text := strip response in
          parse_api_reply sampled_products k response_text)
         api_error))%exc.

End Engine.

End AnalysisEngine.

(* ===================================================================== *)
(** * scraper.py: the catalog harvester *)
(* ===================================================================== *)

(** The parsed markup, as the queries of the harvester see it. *)
Module Soup.

(** A tag keeps its classes apart from its other attributes, as the parser
    does. *)
#[warnings="-register-all"]
Inductive node : Type :=
| Text (s : string)
| Tag (name : string) (classes : list string) (attrs : list (string * string))
      (children : list node).

(** Every node below [n], in document order, each with the siblings that
    follow it. *)
Fixpoint below (n : node) : list (node * list node) :=
  match n with
  | Text _ => []
  | Tag _ _ _ children =>
      (fix walk (l : list node) : list (node * list node) :=
         match l with
         | [] => []
         | c :: r => ((c, r) :: below c ++ walk r)%list
         end) children
  end.

Definition descendants (n : node) : list node := map fst (below n).

Definition is_tag (name : string) (n : node) : bool :=
  match n with
  | Tag t _ _ _ => String.eqb t name
  | Text _ => false
  end.

(** [class_=c] *)
Definition has_class (c : string) (n : node) : bool :=
  match n with
  | Tag _ classes _ _ => existsb (String.eqb c) classes
  | Text _ => false
  end.

Fixpoint assoc (k : string) (l : list (string * string)) : option string :=
  match l with
  | [] => None
  | (k', v) :: r => if String.eqb k' k then Some v else assoc k r
  end.

(** [tag.has_attr(k)], and [attrs={k: True}] *)
Definition has_attr (k : string) (n : node) : bool :=
  match n with
  | Tag _ _ attrs _ => match assoc k attrs with Some _ => true | None => false end
  | Text _ => false
  end.

(** [attrs={k: v}] *)
Definition attr_is (k v : string) (n : node) : bool :=
  match n with
  | Tag _ _ attrs _ =>
      match assoc k attrs with Some x => String.eqb x v | None => false end
  | Text _ => false
  end.

(** [tag[k]] *)
Definition attr (n : node) (k : string) : exc string :=
  match n with
  | Tag _ _ attrs _ =>
      match assoc k attrs with Some v => Ok v | None => Raise (KeyError k) end
  | Text _ => Raise TypeError
  end.

(** [n.find_all(...)] and [n.find(...)], the criteria being [p]. *)
Definition find_all (n : node) (p : node -> bool) : list node :=
  filter p (descendants n).
Definition find (n : node) (p : node -> bool) : option node :=
  hd_error (find_all n p).

(** [n.text] *)
Fixpoint get_text (n : node) : string :=
  match n with
  | Text s => s
  | Tag _ _ _ children => String.concat EmptyString (map get_text children)
  end.

End Soup.

Module Scraper.

Import Soup.

Definition BASE_URL : string := "https://www.shl.com".
Definition CATALOG_URL : string := BASE_URL ++ "/products/product-catalog/".

(** The response of [requests.get]. *)
Record response : Type := { status_code : Z; text : string }.

Definition get_full_url (relative_link : string) : string :=
  if startswith relative_link "/" then BASE_URL ++ relative_link
  else relative_link.

Definition both (p q : node -> bool) (n : node) : bool := (p n && q n)%bool.

Section Harvester.

(** [str(e)] of a caught exception. *)
Variable exn_str : exn -> string.
(** [requests.get(url, headers=HEADERS, params=params, timeout=10)]: the
    response whatever its status, or what was raised (time-out, connection
    error). *)
Variable requests_get : string -> list (string * json) -> exc response.
(** [BeautifulSoup(markup, 'html.parser')] *)
Variable BeautifulSoup : string -> exc node.

(** The loop over the [h4] headings: each one that has a following sibling
    [p] gives a section. *)
Fixpoint sections_of (headings : list (node * list node)) : list json :=
  match headings with
  | [] => []
  | (h4_tag, siblings) :: rest =>
      match hd_error (filter (is_tag "p") siblings) with
      | Some next_p =>
          JObj [("heading", JStr (strip (get_text h4_tag)));
                ("text", JStr (strip (get_text next_p)))]
            :: sections_of rest
      | None => sections_of rest
      end
  end.

(** The body of the [try] block of [extract_details_from_link]. *)
Definition fetch_details (link : string) : exc json :=
  (res <- requests_get link [] ;;
   soup <- BeautifulSoup (text res) ;;
   let sections :=
     sections_of (filter (fun x => is_tag "h4" (fst x)) (below soup)) in
   let description_block :=
     find soup (both (is_tag "meta") (attr_is "name" "description")) in
   description <- match description_block with
                  | Some block => attr block "content"
                  | None => Ok EmptyString
                  end ;;
   Ok (JObj [("description", JStr description);
             ("sections", JArr sections)]))%exc.

Definition extract_details_from_link (link : string) : json :=
  try_except (fetch_details link)
    (fun e => JObj [("description", JStr EmptyString);
                    ("sections", JArr []);
                    ("error", JStr (exn_str e))]).

Definition tick (b : bool) : string := if b then "✅" else "✗".

Definition has_yes (column : node) : bool :=
  match find column (both (is_tag "span") (has_class "-yes")) with
  | Some _ => true
  | None => false
  end.

(** [None] is the row that is skipped; [Raise] is an exception that leaves
    the function. *)
Definition parse_product_row (row : node) (product_type : string)
  (job_family job_level industry job_category : json) : exc (option json) :=
  match find row (both (is_tag "td") (has_class "custom__table-heading__title")) with
  | None => Ok None
  | Some title_td =>
      match find title_td (is_tag "a") with
      | None => Ok None
      | Some link_tag =>
          (href <- attr link_tag "href" ;;
           let link := get_full_url (strip href) in
           let name := strip (get_text link_tag) in
           let columns :=
             find_all row
               (both (is_tag "td") (has_class "custom__table-heading__general")) in
           column0 <- list_index columns 0 ;;
           let remote_testing := tick (has_yes column0) in
           column1 <- list_index columns 1 ;;
           let adaptive := tick (has_yes column1) in
           column2 <- list_index columns 2 ;;
           let test_types :=
             map (fun span => JStr (strip (get_text span)))
               (find_all column2
                  (both (is_tag "span") (has_class "product-catalogue__key"))) in
           let detail_data := extract_details_from_link link in
           description <- get detail_data "description" (JStr EmptyString) ;;
           sections <- get detail_data "sections" (JArr []) ;;
           Ok (Some (JObj [("Product Type", JStr product_type);
                           ("Name", JStr name);
                           ("Link", JStr link);
                           ("Remote Testing", JStr remote_testing);
                           ("Adaptive", JStr adaptive);
                           ("Test Types", JArr test_types);
                           ("Description", description);
                           ("Sections", sections);
                           ("Job Family", job_family);
                           ("Job Level", job_level);
                           ("Industry", industry);
                           ("Job Category", job_category)])))%exc
      end
  end.

(** The rows of a listing page: first those with a course identifier, then
    those with an entity identifier. *)
Definition listing_rows (soup : node) : list node :=
  (find_all soup (both (is_tag "tr") (has_attr "data-course-id"))
   ++ find_all soup (both (is_tag "tr") (has_attr "data-entity-id")))%list.

Definition product_type_of (row : node) : string :=
  if has_attr "data-course-id" row then "Pre-packaged" else "Individual".

(** The loop over the rows of a listing page. *)
Fixpoint parse_rows (rows : list node)
  (job_family job_level industry job_category : json) : exc (list json) :=
  match rows with
  | [] => Ok []
  | row :: rest =>
      (parsed <- parse_product_row row (product_type_of row)
                   job_family job_level industry job_category ;;
       others <- parse_rows rest job_family job_level industry job_category ;;
       match parsed with
       | Some product => Ok (if truthy product then product :: others else others)
       | None => Ok others
       end)%exc
  end.

Definition scrape_combination (job_family job_level industry : Z) : list json :=
  let params := [("job_family", JInt job_family);
                 ("job_level", JInt job_level);
                 ("industry", JInt industry);
                 ("action_doFilteringForm", JStr "Search");
                 ("f", JStr "1")] in
  try_except
    (res <- requests_get CATALOG_URL params ;;
     soup <- BeautifulSoup (text res) ;;
     parse_rows (listing_rows soup)
       (JInt job_family) (JInt job_level) (JInt industry) JNull)%exc
    (fun e => []).

Definition scrape_job_category (jc : Z) : list json :=
  let params := [("job_category", JInt jc);
                 ("action_doFilteringForm", JStr "Search");
                 ("f", JStr "1")] in
  try_except
    (res <- requests_get CATALOG_URL params ;;
     soup <- BeautifulSoup (text res) ;;
     parse_rows (listing_rows soup) JNull JNull JNull (JInt jc))%exc
    (fun e => []).

End Harvester.

End Scraper.

(* ===================================================================== *)
(** * The vocabulary of the properties *)
(* ===================================================================== *)

Module Props.

Import AnalysisEngine Soup Scraper.

(** [c] occurs in [s]. *)
Fixpoint mem (c : ascii) (s : string) : bool :=
  match s with
  | EmptyString => false
  | String d r => (Ascii.eqb d c || mem c r)%bool
  end.

Fixpoint all_chars (p : ascii -> bool) (s : string) : bool :=
  match s with
  | EmptyString => true
  | String c r => (p c && all_chars p r)%bool
  end.

(** The text is empty or holds white space only. *)
Definition only_space (s : string) : bool := forallb space (chars s).

(** White space neither starts nor ends the text. *)
Definition starts_with_space (l : list string) : bool :=
  match l with
  | ch :: _ => space ch
  | [] => false
  end.
Definition trimmed (s : string) : bool :=
  (negb (starts_with_space (chars s))
   && negb (starts_with_space (rev (chars s))))%bool.

(** [t] is [s] without the white space around it: [s] is [t] between two
    runs of white space, and white space neither starts nor ends [t]. *)
Definition trimming (s t : string) : Prop :=
  exists before after,
    chars s = (before ++ chars t ++ after)%list
    /\ forallb space before = true
    /\ forallb space after = true
    /\ trimmed t = true.

(** The reply holds an opening bracket and, later, a closing one. *)
Definition bracket_span (s : string) : Prop :=
  exists pre mid post, s = pre ++ "[" ++ mid ++ "]" ++ post.

(** [s] cut at its first opening bracket and its last closing bracket. *)
Definition widest_span (s pre mid post : string) : Prop :=
  s = pre ++ "[" ++ mid ++ "]" ++ post
  /\ mem "[" pre = false /\ mem "]" post = false.

Definition is_object (v : json) : bool :=
  match v with
  | JObj _ => true
  | _ => false
  end.

(** The item exposes both a [name] and a [url] field. *)
Definition exposes_both (v : json) : bool :=
  match v with
  | JObj d =>
      match lookup "name" d, lookup "url" d with
      | Some _, Some _ => true
      | _, _ => false
      end
  | _ => false
  end.

Definition field (k : string) (v : json) : json :=
  match v with
  | JObj d => match lookup k d with Some x => x | None => JNull end
  | _ => JNull
  end.

(** The item stripped to its two fields. *)
Definition stripped (v : json) : json :=
  JObj [("name", field "name" v); ("url", field "url" v)].

(** The maximal runs of characters of class [p], from left to right; [cur]
    is the run being read. *)
Fixpoint runs_from (p : string -> bool) (l : list string) (cur : list string)
  : list (list string) :=
  match l with
  | [] =>
      match cur with
      | [] => []
      | _ => [cur]
      end
  | ch :: r =>
      if p ch then runs_from p r (cur ++ [ch])
      else match cur with
           | [] => runs_from p r []
           | _ => cur :: runs_from p r []
           end
  end.
Definition runs (p : string -> bool) (s : string) : list (list string) :=
  runs_from p (chars s) [].

(** Every run of digits of the text. *)
Definition digit_runs (s : string) : list string :=
  map text_of (runs digit s).
(** The words of the text: its maximal runs of letters, digits and
    underscores. *)
Definition words (s : string) : list (list string) := runs word s.
(** The runs of digits that stand as whole words. *)
Definition number_words (s : string) : list string :=
  map text_of (filter (forallb digit) (words s)).

(** The decimal numeral a run of digits writes, each digit read by its
    value, whatever its script. *)
Definition numeral_digit (v : N) (d : Decimal.uint) : Decimal.uint :=
  match v with
  | 0 => Decimal.D0 d
  | 1 => Decimal.D1 d
  | 2 => Decimal.D2 d
  | 3 => Decimal.D3 d
  | 4 => Decimal.D4 d
  | 5 => Decimal.D5 d
  | 6 => Decimal.D6 d
  | 7 => Decimal.D7 d
  | 8 => Decimal.D8 d
  | _ => Decimal.D9 d
  end%N.
Fixpoint numeral (l : list string) : option Decimal.uint :=
  match l with
  | [] => Some Decimal.Nil
  | ch :: r =>
      match decimal (ord ch), numeral r with
      | Some v, Some d => Some (numeral_digit v d)
      | _, _ => None
      end
  end.

(** The integer a run of digits writes. *)
Definition value_of (run : list string) : Z :=
  match numeral run with
  | Some d => Z.of_uint d
  | None => 0
  end.
(** The numbers the text holds as whole words. *)
Definition whole_numbers (s : string) : list Z :=
  map value_of (filter (forallb digit) (words s)).

(** The integer written by the first run of digits of the text. *)
Definition first_number (text : string) : option Z :=
  match hd_error (runs digit text) with
  | Some run => option_map Z.of_uint (numeral run)
  | None => None
  end.

(** The indices as the specification words them: every run of digits, made
    0-based, kept when in range, cut to the first [k]. *)
Definition indices_of_every_run (response_text : string) (n k : Z) : list Z :=
  list_prefix (valid_indices (digit_runs response_text) n) k.

(** A section as the harvester writes it. *)
Definition section_dict (p : string * string) : json :=
  JObj [("heading", JStr (fst p)); ("text", JStr (snd p))].

(** The section is headed "Assessment length" and its text has a digit. *)
Definition gives_length (p : string * string) : bool :=
  (String.eqb (fst p) "Assessment length"
   && existsb digit (chars (snd p)))%bool.

(** The link has a scheme and a host. *)
Definition absolute_url (s : string) : bool :=
  (startswith s "http://" || startswith s "https://")%bool.

(** The anchor of the title cell of a row. *)
Definition title_anchor (row : node) : option node :=
  match find row (both (is_tag "td") (has_class "custom__table-heading__title")) with
  | Some title_td => find title_td (is_tag "a")
  | None => None
  end.

Definition general_columns (row : node) : list node :=
  find_all row (both (is_tag "td") (has_class "custom__table-heading__general")).

(** The sections and the description the harvester reads on a detail
    page. *)
Definition page_sections (soup : node) : list json :=
  sections_of (filter (fun x => is_tag "h4" (fst x)) (below soup)).
(** The headings of a page that are followed by a paragraph, each with the
    first paragraph that follows it: their texts as the page has them. *)
Fixpoint headed_texts (headings : list (node * list node))
  : list (string * string) :=
  match headings with
  | [] => []
  | (h4_tag, siblings) :: rest =>
      match hd_error (filter (is_tag "p") siblings) with
      | Some next_p =>
          (get_text h4_tag, get_text next_p) :: headed_texts rest
      | None => headed_texts rest
      end
  end.
Definition page_headings (soup : node) : list (string * string) :=
  headed_texts (filter (fun x => is_tag "h4" (fst x)) (below soup)).
Definition page_description (soup : node) : exc string :=
  match find soup (both (is_tag "meta") (attr_is "name" "description")) with
  | Some block => attr block "content"
  | None => Ok EmptyString
  end.

(** The record of a row, given what its cells hold and what the detail page
    gave. *)
Definition record_of (product_type : string) (link_tag : node)
  (href : string) (column0 column1 column2 : node)
  (description sections job_family job_level industry job_category : json)
  : json :=
  JObj [("Product Type", JStr product_type);
        ("Name", JStr (strip (get_text link_tag)));
        ("Link", JStr (get_full_url (strip href)));
        ("Remote Testing", JStr (tick (has_yes column0)));
        ("Adaptive", JStr (tick (has_yes column1)));
        ("Test Types",
         JArr (map (fun span => JStr (strip (get_text span)))
                 (find_all column2
                    (both (is_tag "span")
                       (has_class "product-catalogue__key")))));
        ("Description", description);
        ("Sections", sections);
        ("Job Family", job_family);
        ("Job Level", job_level);
        ("Industry", industry);
        ("Job Category", job_category)].

End Props.

Import AnalysisEngine Scraper Props.

(* ===================================================================== *)
(** * A small catalog, two listing rows and a few replies *)
(* ===================================================================== *)

Module Sample.

Import AnalysisEngine Soup Scraper Props.

Definition repr (v : json) : string := "?".

(** Characters outside ASCII, by the bytes of their encoding: the no-break
    space U+00A0, the control NEL U+0085, the em space U+2003, the letter
    e with an acute accent U+00E9, and the ARABIC-INDIC digits four U+0664
    and five U+0665. *)
Definition utf8 (bytes : list N) : string :=
  fold_right (fun n s => String (ascii_of_N n) s) EmptyString bytes.
Definition no_break_space : string := utf8 [194; 160]%N.
Definition next_line : string := utf8 [194; 133]%N.
Definition em_space : string := utf8 [226; 128; 131]%N.
Definition e_acute : string := utf8 [195; 169]%N.
Definition arabic_four : string := utf8 [217; 164]%N.
Definition arabic_five : string := utf8 [217; 165]%N.

Definition message (e : exn) : string :=
  match e with
  | External msg => msg
  | KeyError key => "'" ++ key ++ "'"
  | _ => "error"
  end.

(** A sampler that takes the head of the population. *)
Definition first_n (population : list json) (n : nat) : list json :=
  firstn n population.

(** ** Markup *)

Definition general_cell (yes : bool) : node :=
  Tag "td" ["custom__table-heading__general"] []
    (if yes then [Tag "span" ["catalogue__circle"; "-yes"] [] []] else []).

Definition keys_cell (types : list string) : node :=
  Tag "td" ["custom__table-heading__general"; "product-catalogue__keys"] []
    (map (fun t => Tag "span" ["product-catalogue__key"] [] [Text t]) types).

Definition listing_row (href name : string) (remote adaptive : bool)
  (types : list string) : node :=
  Tag "tr" [] [("data-entity-id", "377")]
    [Tag "td" ["custom__table-heading__title"] []
       [Tag "a" [] [("href", href)] [Text name]];
     general_cell remote; general_cell adaptive; keys_cell types].

Definition java_row : node :=
  listing_row "/products/product-catalog/view/java-8-new/" " Java 8 (New) "
    true true ["K"].

(** A row whose link is relative to the page, with no leading slash. *)
Definition relative_row : node :=
  listing_row "view/java-8-new/" "Java 8 (New)" true false ["K"].

(** A row whose link, name and label are padded with white space that is
    not ASCII. *)
Definition padded_row : node :=
  listing_row
    (no_break_space ++ "/products/product-catalog/view/java-8-new/"
     ++ next_line)
    (em_space ++ "Java 8 (New)" ++ no_break_space)
    true true [no_break_space ++ "K" ++ em_space].

Definition detail_page : node :=
  Tag "[document]" [] []
    [Tag "html" [] []
       [Tag "head" [] []
          [Tag "meta" [] [("name", "description");
                          ("content", "Multi-choice test of Java 8.")] []];
        Tag "body" [] []
          [Tag "div" [] []
             [Tag "h4" [] [] [Text "Description"];
              Tag "p" [] [] [Text " Multi-choice test of Java 8. "];
              Tag "h4" [] [] [Text "Assessment length"];
              Tag "p" [] [] [Text "Approximate Completion Time in minutes = 18"]]]]].

Definition not_found_page : node :=
  Tag "[document]" [] []
    [Tag "html" [] []
       [Tag "head" [] []
          [Tag "meta" [] [("name", "description");
                          ("content", "Page not found")] []];
        Tag "body" [] []
          [Tag "h4" [] [] [Text "Sorry"]; Tag "p" [] [] [Text "Nothing here"]]]].

(** A detail page whose heading and text are padded with white space that
    is not ASCII, and whose length is written in ARABIC-INDIC digits. *)
Definition padded_page : node :=
  Tag "[document]" [] []
    [Tag "html" [] []
       [Tag "body" [] []
          [Tag "h4" [] []
             [Text (no_break_space ++ "Assessment length" ++ em_space)];
           Tag "p" [] []
             [Text (next_line ++ arabic_four ++ arabic_five ++ " minutes"
                    ++ no_break_space)]]]].

(** Three networks: one that answers, one that times out, one that answers
    404 with an error page. *)
Definition online (url : string) (params : list (string * json))
  : exc response :=
  Ok {| status_code := 200; text := "<html>detail</html>" |}.
Definition timed_out (url : string) (params : list (string * json))
  : exc response :=
  Raise (External "Read timed out. (read timeout=10)").
Definition missing (url : string) (params : list (string * json))
  : exc response :=
  Ok {| status_code := 404; text := "<html>not found</html>" |}.

Definition parser (markup : string) : exc node :=
  if String.eqb markup "<html>not found</html>" then Ok not_found_page
  else Ok detail_page.
Definition padded_parser (markup : string) : exc node := Ok padded_page.

(** ** Products, in the shape the harvester writes *)

Definition entry (name link : string) (remote adaptive : bool)
  (sections : list (string * string)) : json :=
  JObj [("Product Type", JStr "Individual");
        ("Name", JStr name);
        ("Link", JStr link);
        ("Remote Testing", JStr (tick remote));
        ("Adaptive", JStr (tick adaptive));
        ("Test Types", JArr [JStr "K"]);
        ("Description", JStr ("About " ++ name));
        ("Sections", JArr (map section_dict sections));
        ("Job Family", JNull);
        ("Job Level", JNull);
        ("Industry", JNull);
        ("Job Category", JInt 3)].

Definition minutes (n : string) : list (string * string) :=
  [("Description", "A test."); ("Assessment length", "Approximate Completion Time in minutes = " ++ n)].

Definition p1 : json := entry "Java 8 (New)" "https://www.shl.com/java-8-new/" true false (minutes "18").
Definition p2 : json := entry "Python (New)" "https://www.shl.com/python-new/" true false (minutes "11").
Definition p3 : json := entry "SQL (New)" "https://www.shl.com/sql-new/" true true (minutes "9").
Definition p4 : json := entry "Verify G+" "https://www.shl.com/verify-g/" false true [("Description", "Ability.")].
Definition p5 : json := entry "OPQ32" "https://www.shl.com/opq32/" true false [("Assessment length", "Untimed")].


Definition catalog : list json := [p1; p2; p3; p4; p5].

(** ** Replies *)

Definition quoted (s : string) : string := dq ++ s ++ dq.
Definition member (k v : string) : string := quoted k ++ ": " ++ quoted v.

Definition java_item : string :=
  "{" ++ member "name" "Java 8 (New)" ++ ", "
      ++ member "url" "https://www.shl.com/java-8-new/" ++ "}".
Definition python_item : string :=
  "{" ++ member "url" "https://www.shl.com/python-new/" ++ ", "
      ++ member "name" "Python (New)" ++ "}".

(** An array with commentary around it, an item with an extra field and an
    item without a link. *)
Definition array_inside : string :=
  " {" ++ member "name" "Java 8 (New)" ++ ", "
       ++ member "url" "https://www.shl.com/java-8-new/" ++ ", "
       ++ quoted "score" ++ ": 9}, {" ++ member "name" "Untitled" ++ "}, "
       ++ python_item ++ " ".
Definition reply_array : string :=
  "Here are my picks:" ++ nl ++ "[" ++ array_inside ++ "]" ++ nl ++ "Good luck!".

Definition reply_two_items : string := "[" ++ java_item ++ ", " ++ python_item ++ "]".

Definition reply_empty_array : string := "[]".

Definition reply_prose : string := "I could not find a matching assessment.".

Definition reply_broken : string := "[Java 8 (New), Python (New)]".

(** The reply repeats the stand-in of the service, as an array. *)
Definition reply_echo : string :=
  "[{" ++ member "name" "No suitable assessments found" ++ ", "
       ++ member "url" "https://www.shl.com/contact-us/" ++ "}]".

Definition says (reply : string) (prompt : string) : exc string := Ok reply.
Definition unreachable (prompt : string) : exc string :=
  Raise (External "503 The model is overloaded.").

End Sample.

(* ===================================================================== *)
(** * api.py: the HTTP endpoints *)
(* ===================================================================== *)

Module Api.

(** What a route function does: it returns a body, served with status 200,
    or raises an [HTTPException]. *)
Inductive outcome : Type :=
| Returns (body : json)
| HTTPException (status_code : Z) (detail : string).

Section Endpoints.

Variable repr_other : json -> string.
Variable exn_str : exn -> string.
Variable _get_products : exc (list json).
Variable random_sample : list json -> nat -> list json.
Variable llm_invoke : string -> exc string.

Definition health_check : json := JObj [("status", JStr "healthy")].

(** [POST /recommend]; [query] is the field of the validated request. *)
Definition recommend (query : string) : outcome :=
  if (String.eqb query EmptyString
      || String.eqb (strip query) EmptyString)%bool
  then HTTPException 400 "Query cannot be empty"
  else
    try_except
      (result <- recommend_assessment_api_format repr_other exn_str
                   _get_products random_sample llm_invoke query 5 ;;
       Ok (Returns result))%exc
      (fun e => HTTPException 500 ("Error processing request: " ++ exn_str e)).

End Endpoints.

End Api.

(* ===================================================================== *)
(** * scraper.py: the run over the filters *)
(* ===================================================================== *)

Module Harvest.

(** [list(range(a, b))] *)
Definition range_from (a b : Z) : list Z :=
  map (fun i => a + Z.of_nat i) (seq 0 (Z.to_nat (b - a))).

Definition job_families : list Z := range_from 1 7.
Definition job_levels : list Z := range_from 1 11.
Definition industries : list Z := range_from 1 9.
Definition job_categories : list Z := range_from 1 24.

(** [list(product(job_families, job_levels, industries))] *)
Definition combinations : list (Z * Z * Z) :=
  flat_map (fun family =>
    flat_map (fun level =>
      map (fun industry => (family, level, industry)) industries)
      job_levels)
    job_families.

Section Run.

Variable exn_str : exn -> string.
Variable requests_get : string -> list (string * json) -> exc response.
Variable BeautifulSoup : string -> exc Soup.node.

(** The loop over [as_completed(...)]: [completed] lists the tasks in the
    order their futures complete, and the result of each is appended to
    [results].  The scraping functions catch every exception themselves, so
    [future.result()] does not raise. *)
Fixpoint collect {A : Type} (scrape : A -> list json) (completed : list A)
  (results : list json) : list json :=
  match completed with
  | [] => results
  | task :: rest => collect scrape rest (results ++ scrape task)
  end.

(** The two pools, one after the other; the list returned is the one written
    to the two files. *)
Definition run (completed_combos : list (Z * Z * Z))
  (completed_categories : list Z) : list json :=
  let results := [] in
  let results :=
    collect (fun combo : Z * Z * Z =>
               let '(job_family, job_level, industry) := combo in
               scrape_combination exn_str requests_get BeautifulSoup
                 job_family job_level industry)
      completed_combos results in
  collect (scrape_job_category exn_str requests_get BeautifulSoup)
    completed_categories results.

End Run.

End Harvest.

(* ===================================================================== *)
(** * analysis_engine.py: the cache of the dataset *)
(* ===================================================================== *)

Module Dataset.

(** [_get_products()] under its lock.  [_products_data] is the global before
    the call ([JNull] is [None]); [load] is what opening and decoding the
    file gives at the time of the call, which is done only when the global
    is [None].  The result is the global after the call and what the call
    returns or raises. *)
Definition _get_products (_products_data : json) (load : exc json)
  : json * exc json :=
  match _products_data with
  | JNull =>
      match load with
      | Ok data => (data, Ok data)
      | Raise e => (JNull, Raise e)
      end
  | _ => (_products_data, Ok _products_data)
  end.

(** Successive calls, in the order they take the lock; [loads] gives, for
    each, what the file would give then. *)
Fixpoint calls (_products_data : json) (loads : list (exc json))
  : list (exc json) :=
  match loads with
  | [] => []
  | load :: rest =>
      let '(data, outcome) := _get_products _products_data load in
      outcome :: calls data rest
  end.

End Dataset.

(* ===================================================================== *)
(** * json.dumps and json.dump, as the two programs call them *)
(* ===================================================================== *)

Module Dumps.

Import AnalysisEngine.

(** The lower-case hexadecimal digit of a number below 16. *)
Definition hex_digit (n : N) : ascii :=
  ascii_of_N (if n <? 10 then 48 + n else 87 + n)%N.

(** What the encoder writes for a character of a string when
    [ensure_ascii=False]: the quote, the backslash and the control
    characters are escaped, everything else is kept. *)
Definition escape_char (c : ascii) : string :=
  if Ascii.eqb c dquote then String backslash (String dquote EmptyString)
  else if Ascii.eqb c backslash
  then String backslash (String backslash EmptyString)
  else if (code c =? 10)%N then String backslash "n"
  else if (code c =? 13)%N then String backslash "r"
  else if (code c =? 9)%N then String backslash "t"
  else if (code c =? 8)%N then String backslash "b"
  else if (code c =? 12)%N then String backslash "f"
  else if (code c <? 32)%N
  then String backslash
         ("u00" ++ String (hex_digit (code c / 16))
                     (String (hex_digit (code c mod 16)) EmptyString))
  else String c EmptyString.

Fixpoint escape (s : string) : string :=
  match s with
  | EmptyString => EmptyString
  | String c r => escape_char c ++ escape r
  end.

Definition encode_str (s : string) : string := dq ++ escape s ++ dq.

(** [' ' * n] *)
Fixpoint spaces (n : nat) : string :=
  match n with
  | O => EmptyString
  | S m => String " " (spaces m)
  end.

(** ['\n' + ' ' * indent * level] *)
Definition newline_indent (indent level : nat) : string :=
  nl ++ spaces (indent * level).

Section Encoder.

(** What the encoder writes for the float a literal denotes: the [repr] of
    the float, or one of [NaN], [Infinity], [-Infinity]. *)
Variable float_repr : string -> string.

(** [json.dumps(v, ensure_ascii=False)], with the default separators. *)
Fixpoint dumps (v : json) : string :=
  match v with
  | JNull => "null"
  | JBool true => "true"
  | JBool false => "false"
  | JInt n => str_of_int n
  | JFloat lit => float_repr lit
  | JStr s => encode_str s
  | JArr items => "[" ++ join ", " (map dumps items) ++ "]"
  | JObj fields =>
      "{" ++ join ", "
               (map (fun kv => encode_str (fst kv) ++ ": " ++ dumps (snd kv))
                  fields)
          ++ "}"
  end.

(** The text [json.dump(v, f, indent=indent, ensure_ascii=False)] writes to
    [f], [level] being the current level of indentation: the item
    separator is then a comma, and each item of a list or dictionary that
    is not empty starts a line. *)
Fixpoint dump (indent level : nat) (v : json) : string :=
  match v with
  | JNull => "null"
  | JBool true => "true"
  | JBool false => "false"
  | JInt n => str_of_int n
  | JFloat lit => float_repr lit
  | JStr s => encode_str s
  | JArr [] => "[]"
  | JArr items =>
      "[" ++ newline_indent indent (S level)
          ++ join ("," ++ newline_indent indent (S level))
               (map (dump indent (S level)) items)
          ++ newline_indent indent level ++ "]"
  | JObj [] => "{}"
  | JObj fields =>
      "{" ++ newline_indent indent (S level)
          ++ join ("," ++ newline_indent indent (S level))
               (map (fun kv => encode_str (fst kv) ++ ": "
                               ++ dump indent (S level) (snd kv))
                  fields)
          ++ newline_indent indent level ++ "}"
  end.

Variable repr_other : json -> string.
Variable _get_products : exc (list json).
Variable random_sample : list json -> nat -> list json.
Variable llm_invoke : string -> exc string.

(** [recommend_assessment(user_query, k)] as its caller receives it: the
    text [json.dumps] writes for the list.  The two stand-ins are written
    with the default [ensure_ascii=True], which gives the same text, their
    strings being ASCII. *)
Definition recommend_assessment_text (user_query : string) (k : Z)
  : exc string :=
  (v <- recommend_assessment repr_other _get_products random_sample
          llm_invoke user_query k ;;
   Ok (dumps v))%exc.

End Encoder.

End Dumps.

(* ===================================================================== *)
(** * main.py: the page of the recommender *)
(* ===================================================================== *)

Module Main.

Import AnalysisEngine.

(** What the script displays: the calls of [st.title], [st.markdown],
    [st.warning], [st.info], [st.error] and [st.text], in order.  Layout
    contexts (container, spinner, expander) display nothing of their own. *)
Inductive event : Type :=
| Title (s : string)
| Markdown (s : string)
| Warning (s : string)
| Info (s : string)
| Error (s : string)
| Text (s : string).

(** An entry of the conversation history. *)
Record turn : Type := { query : string; results : list json }.

(** [st.session_state], once its four keys are initialised. *)
Record session : Type := {
  conversation_history : list turn;
  current_index : Z;
  last_results : list json;
  reply_round : Z
}.

Definition initial : session :=
  {| conversation_history := [];
     current_index := 0;
     last_results := [];
     reply_round := 0 |}.

(** What the widgets return in one run of the script. *)
Record widgets : Type := {
  user_input : string;
  submit : bool;
  show_more : bool
}.

(** [s.lower()], on ASCII letters.  Of the characters outside ASCII only
    the Kelvin sign becomes an ASCII letter, a k, which none of the phrases
    the page compares with holds: the comparison is decided by the ASCII
    letters. *)
Definition lower_char (c : ascii) : ascii :=
  if between 65 90 c then ascii_of_N (code c + 32) else c.
Fixpoint lower (s : string) : string :=
  match s with
  | EmptyString => EmptyString
  | String c r => String (lower_char c) (lower r)
  end.

(** [l[i:j]] *)
Definition list_slice {A : Type} (l : list A) (i j : Z) : list A :=
  let n := Z.of_nat (length l) in
  let clamp := fun x : Z =>
    Z.to_nat (Z.min n (if x <? 0 then Z.max 0 (n + x) else x)) in
  firstn (clamp j - clamp i) (skipn (clamp i) l).

Definition is_more (s : string) : bool :=
  existsb (String.eqb s) ["more"; "more options"; "more assessments"].

(** A run of the script so far: the session, what was displayed, and the
    exception that stopped it, if any. *)
Definition progress : Type := (session * list event * option exn)%type.

(** The rest of the script runs when nothing was raised. *)
Definition and_then (first : progress) (next : session -> progress)
  : progress :=
  let '(s, shown, stopped) := first in
  match stopped with
  | Some _ => first
  | None =>
      let '(s', shown', stopped') := next s in
      (s', (shown ++ shown')%list, stopped')
  end.

Section Script.

(** [str(v)] of a decoded value that is not a string. *)
Variable repr_other : json -> string.
(** [recommend_assessment(user_input)]: the text it returns, or what it
    raises. *)
Variable recommend_assessment : string -> exc string.

(** An f-string over the name and the link of an assessment. *)
Definition entry_line (before between after : string) (assessment : json)
  : exc string :=
  (name <- getitem assessment "name" ;;
   url <- getitem assessment "url" ;;
   Ok (before ++ fmt repr_other name ++ between ++ fmt repr_other url
       ++ after))%exc.

(** A loop that displays one line per assessment, until one raises. *)
Fixpoint markdown_each (line : json -> exc string) (assessments : list json)
  : list event * option exn :=
  match assessments with
  | [] => ([], None)
  | assessment :: rest =>
      match line assessment with
      | Ok s =>
          let '(shown, stopped) := markdown_each line rest in
          (Markdown s :: shown, stopped)
      | Raise e => ([], Some e)
      end
  end.

Definition view_link : string := "**  " ++ nl ++ " [View Assessment](".

(** The branch of a typed "more". *)
Definition typed_more (s : session) : progress :=
  if 2 <=? reply_round s then
    (s, [Warning " You've reached the maximum number of follow-ups for this query (3 total)."], None)
  else
    match last_results s with
    | [] => (s, [Warning " No previous results found to continue from."], None)
    | _ =>
        let s := {| conversation_history := conversation_history s;
                    current_index := current_index s;
                    last_results := last_results s;
                    reply_round := reply_round s + 1 |} in
        let start := current_index s in
        let end_ := start + 10 in
        let new_results := list_slice (last_results s) start end_ in
        match new_results with
        | [] => (s, [Info " No more assessments found."], None)
        | _ =>
            let s := {| conversation_history := conversation_history s;
                        current_index := end_;
                        last_results := last_results s;
                        reply_round := reply_round s |} in
            let '(shown, stopped) :=
              markdown_each (entry_line "**🔹 " view_link ")") new_results in
            (s, Markdown "### 🔁 More Recommendations" :: shown, stopped)
        end
    end.

(** The branch of a new query. *)
Definition new_query (s : session) (input : string) : progress :=
  let s := {| conversation_history := conversation_history s;
              current_index := 10;
              last_results := last_results s;
              reply_round := 1 |} in
  let asked := [Markdown "---";
                Markdown ("**Your query:** _" ++ input ++ "_")] in
  match recommend_assessment input with
  | Raise e => (s, asked, Some e)
  | Ok response =>
      let '(found, parsed) :=
        match loads response with
        | Ok (JArr l) => (l, [])
        | _ => ([], [Error " Failed to parse response. Please try again.";
                     Text response])
        end in
      match found with
      | [] =>
          (s, (asked ++ parsed
               ++ [Warning "No assessments found for your query."])%list,
           None)
      | _ =>
          let s := {| conversation_history :=
                        (conversation_history s
                         ++ [{| query := input;
                                results := list_prefix found 10 |}])%list;
                      current_index := current_index s;
                      last_results := found;
                      reply_round := reply_round s |} in
          let '(shown, stopped) :=
            markdown_each (entry_line " " ("  " ++ nl ++ " (") ")")
              (list_prefix found 10) in
          (s, (asked ++ parsed
               ++ Markdown "## Recommended Assessments" :: shown)%list,
           stopped)
      end
  end.

(** [if submit and user_input.strip(): ...] *)
Definition submit_block (w : widgets) (s : session) : progress :=
  if (submit w && negb (String.eqb (strip (user_input w)) EmptyString))%bool
  then
    if is_more (strip (lower (user_input w))) then typed_more s
    else new_query s (user_input w)
  else (s, [], None).

(** The "Show More Options" button, offered while results are left to
    follow up. *)
Definition show_more_block (w : widgets) (s : session) : progress :=
  match last_results s with
  | [] => (s, [], None)
  | _ =>
      if ((0 <? reply_round s) && (reply_round s <? 3))%bool then
        if show_more w then
          let s := {| conversation_history := conversation_history s;
                      current_index := current_index s;
                      last_results := last_results s;
                      reply_round := reply_round s + 1 |} in
          let start := current_index s in
          let end_ := start + 10 in
          let more_results := list_slice (last_results s) start end_ in
          match more_results with
          | [] => (s, [Info "No more assessments found."], None)
          | _ =>
              let s := {| conversation_history := conversation_history s;
                          current_index := end_;
                          last_results := last_results s;
                          reply_round := reply_round s |} in
              let '(shown, stopped) :=
                markdown_each (entry_line EmptyString view_link ")")
                  more_results in
              (s, Markdown "### More Recommendations" :: shown, stopped)
          end
        else (s, [], None)
      else (s, [], None)
  end.

(** The loop over the turns of the conversation history. *)
Fixpoint history_turns (turns : list turn) : list event * option exn :=
  match turns with
  | [] => ([], None)
  | t :: rest =>
      let '(shown, stopped) :=
        markdown_each (entry_line "• [" "](" ")") (results t) in
      let head := Markdown ("**Query:** _" ++ query t ++ "_") :: shown in
      match stopped with
      | Some e => (head, Some e)
      | None =>
          let '(shown', stopped') := history_turns rest in
          ((head ++ Markdown "---" :: shown')%list, stopped')
      end
  end.

Definition history_block (s : session) : progress :=
  let '(shown, stopped) := history_turns (conversation_history s) in
  (s, shown, stopped).

(** One run of the script. *)
Definition run (s : session) (w : widgets) : progress :=
  and_then
    (and_then
       (and_then
          (s, [Title "SHL Assessment Recommender";
               Markdown "Ask a question to get recommended SHL assessments based on your needs."],
           None)
          (submit_block w))
       (show_more_block w))
    history_block.

(** The session after successive runs; it outlives a run that was
    stopped. *)
Fixpoint runs (s : session) (ws : list widgets) : session :=
  match ws with
  | [] => s
  | w :: rest => runs (fst (fst (run s w))) rest
  end.

End Script.

(** The bounds the session keeps. *)
Definition in_bounds (s : session) : Prop :=
  0 <= reply_round s <= 3
  /\ (exists pages,
        0 <= pages <= reply_round s /\ current_index s = 10 * pages)
  /\ Forall (fun t => (length (results t) <= 10)%nat) (conversation_history s).

End Main.

(* ===================================================================== *)
(** * More vocabulary *)
(* ===================================================================== *)

Module MoreProps.

Import AnalysisEngine Soup Scraper Props.

(** The item has exactly the two fields of the UI, in this order. *)
Definition name_url_item (v : json) : Prop :=
  exists name url, v = JObj [("name", name); ("url", url)].

Definition yes_or_no (s : string) : Prop := s = "Yes" \/ s = "No".

(** The record has exactly the six fields of the API, in this order, with a
    yes/no for the two facets and an integer for the duration. *)
Definition api_record (v : json) : Prop :=
  exists url adaptive description duration remote test_type,
    v = JObj [("url", url);
              ("adaptive_support", JStr adaptive);
              ("description", description);
              ("duration", JInt duration);
              ("remote_support", JStr remote);
              ("test_type", test_type)]
    /\ yes_or_no adaptive /\ yes_or_no remote.

(** A value that is neither a string nor a container. *)
Definition scalar (v : json) : bool :=
  match v with
  | JNull | JBool _ | JInt _ | JFloat _ => true
  | _ => false
  end.

(** The numbers of the products at [indices], as the prompt prints them,
    separated by a comma and a space. *)
Definition numbered (indices : list Z) : string :=
  join ", " (map (fun idx => str_of_int (idx + 1)) indices).

(** A product as the harvester writes it, as far as the formatter reads
    it. *)
Definition harvested (fields : dict) (name description link : string)
  (sections : list (string * string)) : Prop :=
  lookup "Name" fields = Some (JStr name)
  /\ lookup "Description" fields = Some (JStr description)
  /\ lookup "Link" fields = Some (JStr link)
  /\ lookup "Sections" fields = Some (JArr (map section_dict sections)).

Definition harvested_product (product : json) : Prop :=
  exists fields name description link sections,
    product = JObj fields /\ harvested fields name description link sections.

(** The labels of the test types of a row: the stripped texts of the key
    spans of its third general cell. *)
Definition type_labels (column2 : node) : list json :=
  map (fun span => JStr (strip (get_text span)))
    (find_all column2
       (both (is_tag "span") (has_class "product-catalogue__key"))).

(** A dictionary whose sections, when it has any, are as the harvester
    writes them. *)
Definition sectioned (product : json) : Prop :=
  exists fields sections,
    product = JObj fields
    /\ get product "Sections" (JArr []) = Ok (JArr (map section_dict sections)).

(** The line of a section in the text of a product; none when the heading
    or the text is empty. *)
Definition section_line (p : string * string) : string :=
  if (String.eqb (fst p) EmptyString || String.eqb (snd p) EmptyString)%bool
  then EmptyString
  else fst p ++ ": " ++ snd p ++ nl.

(** The row has its title anchor. *)
Definition anchored (row : node) : bool :=
  match title_anchor row with
  | Some _ => true
  | None => false
  end.

(** The row can be parsed: if it has its title anchor, the anchor has a
    link and the row has three general cells at least. *)
Definition well_formed_row (row : node) : bool :=
  match title_anchor row with
  | Some link_tag =>
      (has_attr "href" link_tag
       && (3 <=? length (general_columns row))%nat)%bool
  | None => true
  end.

(** The parameters of the two listing requests. *)
Definition combination_params (job_family job_level industry : Z)
  : list (string * json) :=
  [("job_family", JInt job_family);
   ("job_level", JInt job_level);
   ("industry", JInt industry);
   ("action_doFilteringForm", JStr "Search");
   ("f", JStr "1")].
Definition category_params (jc : Z) : list (string * json) :=
  [("job_category", JInt jc);
   ("action_doFilteringForm", JStr "Search");
   ("f", JStr "1")].

(** The record is the one of [row], tagged with the filters of the page. *)
Definition record_of_row (row : node)
  (job_family job_level industry job_category product : json) : Prop :=
  exists link_tag href column0 column1 column2 more description sections,
    title_anchor row = Some link_tag
    /\ attr link_tag "href" = Ok href
    /\ general_columns row = column0 :: column1 :: column2 :: more
    /\ product = record_of (product_type_of row) link_tag href
                   column0 column1 column2 description sections
                   job_family job_level industry job_category.

(** Every assessment the session holds exposes a name and a link. *)
Definition displayable (s : Main.session) : Prop :=
  Forall (fun v => exposes_both v = true) (Main.last_results s)
  /\ Forall (fun t => Forall (fun v => exposes_both v = true) (Main.results t))
       (Main.conversation_history s).

(** ** Values that are written and read back *)

(** No float occurs in the value. *)
Fixpoint float_free (v : json) : bool :=
  match v with
  | JFloat _ => false
  | JArr items => forallb float_free items
  | JObj fields => forallb (fun kv => float_free (snd kv)) fields
  | _ => true
  end.

Fixpoint distinct (ks : list string) : bool :=
  match ks with
  | [] => true
  | k :: r => (negb (existsb (String.eqb k) r) && distinct r)%bool
  end.

(** No dictionary of the value has a key twice, as in a Python [dict]. *)
Fixpoint keys_distinct (v : json) : bool :=
  match v with
  | JArr items => forallb keys_distinct items
  | JObj fields =>
      (distinct (keys fields)
       && forallb (fun kv => keys_distinct (snd kv)) fields)%bool
  | _ => true
  end.

(** A bound on the calls of the decoder that nest while it reads the text
    of the value. *)
Fixpoint weight (v : json) : nat :=
  match v with
  | JArr items => S (list_sum (map (fun x => S (weight x)) items))
  | JObj fields => S (list_sum (map (fun kv => S (weight (snd kv))) fields))
  | _ => 1
  end.

(** What comes after a number does not extend it. *)
Definition follows (rest : string) : bool :=
  match rest with
  | EmptyString => true
  | String c _ =>
      negb (is_digit c || Ascii.eqb c "." || Ascii.eqb c "e" || Ascii.eqb c "E")
  end.

(** The characters a written value can start with. *)
Definition opens (c : ascii) : bool :=
  (is_digit c || mem c "-ntf[{" || Ascii.eqb c dquote)%bool.

(** Induction on a value and, with it, on the items of its lists and the
    values of its dictionaries. *)
Section JsonInduction.

Variable P : json -> Prop.
Hypothesis HNull : P JNull.
Hypothesis HBool : forall b, P (JBool b).
Hypothesis HInt : forall n, P (JInt n).
Hypothesis HFloat : forall lit, P (JFloat lit).
Hypothesis HStr : forall s, P (JStr s).
Hypothesis HArr : forall items, Forall P items -> P (JArr items).
Hypothesis HObj :
  forall fields, Forall (fun kv => P (snd kv)) fields -> P (JObj fields).

Fixpoint json_induction (v : json) : P v :=
  match v with
  | JNull => HNull
  | JBool b => HBool b
  | JInt n => HInt n
  | JFloat lit => HFloat lit
  | JStr s => HStr s
  | JArr items =>
      HArr items
        ((fix each (l : list json) : Forall P l :=
            match l with
            | [] => Forall_nil P
            | x :: r => Forall_cons x (json_induction x) (each r)
            end) items)
  | JObj fields =>
      HObj fields
        ((fix each (d : list (string * json))
            : Forall (fun kv => P (snd kv)) d :=
            match d with
            | [] => Forall_nil _
            | kv :: r => Forall_cons kv (json_induction (snd kv)) (each r)
            end) fields)
  end.

End JsonInduction.

(** The white space a writer puts after an opening bracket, after a comma
    and before a closing bracket, at each level of nesting. *)
Record layout : Type := {
  after_open : nat -> string;
  after_comma : nat -> string;
  before_close : nat -> string
}.

(** The layout of [json.dumps] with its default separators. *)
Definition compact : layout :=
  {| after_open := fun _ => EmptyString;
     after_comma := fun _ => " ";
     before_close := fun _ => EmptyString |}.

(** The layout of [json.dump] with [indent]. *)
Definition indented (indent : nat) : layout :=
  {| after_open := fun level => Dumps.newline_indent indent (S level);
     after_comma := fun level => Dumps.newline_indent indent (S level);
     before_close := fun level => Dumps.newline_indent indent level |}.

Definition blank (s : string) : bool := all_chars is_ws s.

Definition blank_layout (g : layout) : Prop :=
  forall level,
    blank (after_open g level) = true
    /\ blank (after_comma g level) = true
    /\ blank (before_close g level) = true.

(** The text of a value in a layout. *)
Fixpoint write (g : layout) (float_repr : string -> string) (level : nat)
  (v : json) : string :=
  match v with
  | JNull => "null"
  | JBool true => "true"
  | JBool false => "false"
  | JInt n => str_of_int n
  | JFloat lit => float_repr lit
  | JStr s => Dumps.encode_str s
  | JArr [] => "[]"
  | JArr items =>
      "[" ++ after_open g level
          ++ join ("," ++ after_comma g level)
               (map (write g float_repr (S level)) items)
          ++ before_close g level ++ "]"
  | JObj [] => "{}"
  | JObj fields =>
      "{" ++ after_open g level
          ++ join ("," ++ after_comma g level)
               (map (fun kv => Dumps.encode_str (fst kv) ++ ": "
                               ++ write g float_repr (S level) (snd kv))
                  fields)
          ++ before_close g level ++ "}"
  end.

(** The decoder reads the text of the value back, whatever follows it. *)
Definition reads_back (g : layout) (float_repr : string -> string)
  (v : json) : Prop :=
  float_free v = true -> keys_distinct v = true ->
  forall (level fuel : nat) (rest : string),
    (weight v <= fuel)%nat -> follows rest = true ->
    scan_once fuel (write g float_repr level v ++ rest) = Some (v, rest).

(** The text of a member_text of a dictionary. *)
Definition member_text (g : layout) (float_repr : string -> string)
  (level : nat) (kv : string * json) : string :=
  Dumps.encode_str (fst kv) ++ ": " ++ write g float_repr level (snd kv).

(** The value can be written and read back: no float, no key twice. *)
Definition plain (v : json) : bool := (float_free v && keys_distinct v)%bool.

(** What the page displays when nothing went wrong: neither [st.error] nor
    [st.text]. *)
Definition ordinary (e : Main.event) : bool :=
  match e with
  | Main.Error _ | Main.Text _ => false
  | _ => true
  end.

End MoreProps.

Module MoreSample.

Import AnalysisEngine Soup Scraper Props Sample.

(** A listing page with two rows; the second has no title cell. *)
Definition listing_page : node :=
  Tag "[document]" [] []
    [Tag "table" [] []
       [java_row;
        Tag "tr" [] [("data-course-id", "12")]
          [Tag "td" ["custom__table-heading__general"] [] []]]].

(** A listing page whose second row has an anchor without a link. *)
Definition broken_page : node :=
  Tag "[document]" [] []
    [Tag "table" [] []
       [java_row;
        Tag "tr" [] [("data-entity-id", "9")]
          [Tag "td" ["custom__table-heading__title"] []
             [Tag "a" [] [] [Text "Nameless"]]]]].

(** A site whose listing is [listing_page] (or [broken_page]) and whose
    other pages are the detail page. *)
Definition site (url : string) (params : list (string * json))
  : exc response :=
  if String.eqb url CATALOG_URL
  then Ok {| status_code := 200; text := "<html>listing</html>" |}
  else Ok {| status_code := 200; text := "<html>detail</html>" |}.

Definition site_parser (markup : string) : exc node :=
  if String.eqb markup "<html>listing</html>" then Ok listing_page
  else Ok detail_page.

Definition broken_parser (markup : string) : exc node :=
  if String.eqb markup "<html>listing</html>" then Ok broken_page
  else Ok detail_page.

(** A product without a name. *)
Definition nameless : json :=
  JObj [("Description", JStr "No name"); ("Link", JStr "https://www.shl.com/x/")].

(** A reading of the dataset that fails. *)
Definition no_file : exc (list json) :=
  Raise (External "[Errno 2] No such file or directory: 'shl_products_detailed.json'").

(** The file is missing at the first call, there at the second and gone
    again at the third. *)
Definition readings : list (exc json) :=
  [Raise (External "[Errno 2] No such file or directory: 'shl_products_detailed.json'");
   Ok (JArr catalog);
   Raise (External "[Errno 2] No such file or directory: 'shl_products_detailed.json'")].

(** A recommender that answers every query with the same two assessments. *)
Definition recommender (user_query : string) : exc string :=
  Ok reply_two_items.

(** A query, then the button, then a typed follow-up. *)
Definition visit : list Main.widgets :=
  [{| Main.user_input := "Java developer, 30 minutes";
      Main.submit := true; Main.show_more := false |};
   {| Main.user_input := "Java developer, 30 minutes";
      Main.submit := false; Main.show_more := true |};
   {| Main.user_input := " More "; Main.submit := true;
      Main.show_more := false |}].

(** An encoder that writes a float as its literal. *)
Definition literal (lit : string) : string := lit.

End MoreSample.

(* ===================================================================== *)
(** * Facts about strings *)
(* ===================================================================== *)

Section StringFacts.

Lemma app_empty_r (s : string) : s ++ EmptyString = s.
Proof. induction s; simpl; congruence. Qed.

Lemma app_assoc (a b c : string) : (a ++ b) ++ c = a ++ b ++ c.
Proof. induction a; simpl; congruence. Qed.

Lemma length_app (a b : string) :
  String.length (a ++ b) = (String.length a + String.length b)%nat.
Proof. induction a; simpl; congruence. Qed.

Lemma mem_app (c : ascii) (a b : string) :
  mem c (a ++ b) = (mem c a || mem c b)%bool.
Proof.
  induction a as [|d a IH]; simpl; [reflexivity|].
  rewrite IH. now rewrite orb_assoc.
Qed.

Lemma find_absent (c : ascii) (s : string) : mem c s = false -> find c s = -1.
Proof.
  induction s as [|d s IH]; simpl; [reflexivity|].
  intros H. apply orb_false_iff in H as [Hd Hs].
  rewrite Hd, (IH Hs). reflexivity.
Qed.

Lemma rfind_absent (c : ascii) (s : string) : mem c s = false -> rfind c s = -1.
Proof.
  induction s as [|d s IH]; simpl; [reflexivity|].
  intros H. apply orb_false_iff in H as [Hd Hs].
  rewrite Hd, (IH Hs). reflexivity.
Qed.

Lemma find_first (c : ascii) (pre r : string) :
  mem c pre = false ->
  find c (pre ++ String c r) = Z.of_nat (String.length pre).
Proof.
  induction pre as [|d pre IH]; simpl.
  - intros _. now rewrite Ascii.eqb_refl.
  - intros H. apply orb_false_iff in H as [Hd Hs].
    rewrite Hd, (IH Hs).
    destruct (Z.ltb_spec (Z.of_nat (String.length pre)) 0); lia.
Qed.

Lemma rfind_last (c : ascii) (pre post : string) :
  mem c post = false ->
  rfind c (pre ++ String c post) = Z.of_nat (String.length pre).
Proof.
  intros H. induction pre as [|d pre IH]; simpl.
  - rewrite (rfind_absent _ _ H). simpl. now rewrite Ascii.eqb_refl.
  - rewrite IH.
    destruct (Z.leb_spec 0 (Z.of_nat (String.length pre))); lia.
Qed.

Lemma find_split (c : ascii) (s : string) :
  0 <= find c s ->
  exists pre r, s = pre ++ String c r /\ mem c pre = false
                /\ find c s = Z.of_nat (String.length pre).
Proof.
  induction s as [|d s IH]; simpl; [lia|].
  destruct (Ascii.eqb_spec d c) as [->|Hne].
  - intros _. exists EmptyString, s. auto.
  - destruct (Z.ltb_spec (find c s) 0) as [Hneg|Hpos]; [lia|].
    intros _. destruct (IH Hpos) as (pre & r & -> & Hm & Hf).
    exists (String d pre), r. simpl. rewrite Hm, Hf.
    apply Ascii.eqb_neq in Hne. rewrite Hne. repeat split; lia.
Qed.

Lemma rfind_split (c : ascii) (s : string) :
  0 <= rfind c s ->
  exists pre post, s = pre ++ String c post /\ mem c post = false
                   /\ rfind c s = Z.of_nat (String.length pre).
Proof.
  induction s as [|d s IH]; simpl; [lia|].
  destruct (Z.leb_spec 0 (rfind c s)) as [Hpos|Hneg].
  - intros _. destruct (IH Hpos) as (pre & post & -> & Hm & Hf).
    exists (String d pre), post. simpl. rewrite Hf. repeat split; auto; lia.
  - destruct (Ascii.eqb_spec d c) as [->|Hne]; [|lia].
    intros _. exists EmptyString, s. repeat split; auto.
    clear IH. induction s as [|e s IHs]; simpl in *; [reflexivity|].
    destruct (Z.leb_spec 0 (rfind c s)); [lia|].
    destruct (Ascii.eqb_spec e c); [lia|]. simpl. apply IHs. lia.
Qed.

Lemma text_of_app (l1 l2 : list string) :
  text_of (l1 ++ l2) = text_of l1 ++ text_of l2.
Proof. induction l1 as [|x l1 IH]; simpl; [reflexivity|]. now rewrite IH, app_assoc. Qed.

(** The decomposition, one character at a time. *)
Lemma chars_step (a : ascii) (r : string) :
  chars (String a r)
  = fst (head_char a r) :: chars (snd (head_char a r)).
Proof.
  destruct r as [|b [|c [|d r3]]]; cbn [chars head_char]; try reflexivity.
  - destruct (two_bytes a b); reflexivity.
  - destruct (two_bytes a b); [reflexivity|].
    destruct (three_bytes a b c); reflexivity.
  - destruct (two_bytes a b); [reflexivity|].
    destruct (three_bytes a b c); [reflexivity|].
    destruct (four_bytes a b c d); reflexivity.
Qed.

Lemma head_char_split (a : ascii) (r : string) :
  String a r = fst (head_char a r) ++ snd (head_char a r)
  /\ (String.length (snd (head_char a r)) <= String.length r)%nat.
Proof.
  destruct r as [|b [|c [|d r3]]]; cbn [head_char];
    repeat match goal with
           | |- context [if ?t then _ else _] => destruct t
           end;
    cbn [fst snd char1 char2 char3 char4 append String.length];
    (split; [reflexivity | lia]).
Qed.

Lemma by_length (P : string -> Prop) :
  (forall s, (forall t, (String.length t < String.length s)%nat -> P t) -> P s) ->
  forall s, P s.
Proof.
  intros H s.
  assert (Hn : forall n t, (String.length t < n)%nat -> P t).
  { induction n as [|n IH]; intros t Ht; [lia|].
    apply H. intros u Hu. apply IH. lia. }
  apply (Hn (S (String.length s))). lia.
Qed.

(** [''.join(list(s)) == s] *)
Lemma text_of_chars (s : string) : text_of (chars s) = s.
Proof.
  induction s as [s IH] using by_length.
  destruct s as [|a r]; [reflexivity|].
  rewrite chars_step. cbn [text_of].
  destruct (head_char_split a r) as [Hs Hlen].
  rewrite IH by (simpl; lia). now rewrite <- Hs.
Qed.

Lemma chars_cons_inv (s x : string) (l : list string) :
  chars s = x :: l -> exists r, s = x ++ r /\ chars r = l.
Proof.
  destruct s as [|a r]; [discriminate|].
  rewrite chars_step. intros H. injection H as Hx Hl.
  exists (snd (head_char a r)). split; [|exact Hl].
  rewrite <- Hx. apply head_char_split.
Qed.

Lemma chars_nonempty (s : string) : Forall (fun ch => ch <> EmptyString) (chars s).
Proof.
  induction s as [s IH] using by_length.
  destruct s as [|a r]; [constructor|].
  rewrite chars_step. constructor.
  - destruct r as [|b [|c [|d r3]]]; cbn [head_char];
      repeat match goal with |- context [if ?t then _ else _] => destruct t end;
      discriminate.
  - apply IH. destruct (head_char_split a r). simpl. lia.
Qed.

Ltac bytes :=
  unfold two_bytes, three_bytes, four_bytes, continuation, between in *;
  repeat match goal with
         | H : (_ && _)%bool = true |- _ => apply andb_true_iff in H; destruct H
         | H : (_ || _)%bool = true |- _ => apply orb_true_iff in H; destruct H
         | H : N.leb _ _ = true |- _ => apply N.leb_le in H
         | H : N.leb _ _ = false |- _ => apply N.leb_gt in H
         | H : N.ltb _ _ = true |- _ => apply N.ltb_lt in H
         | H : N.ltb _ _ = false |- _ => apply N.ltb_ge in H
         | H : (_ && _)%bool = false |- _ => apply andb_false_iff in H; destruct H
         | H : (_ || _)%bool = false |- _ => apply orb_false_iff in H; destruct H
         end.

Lemma not_true_false (b : bool) : (b = true -> False) -> b = false.
Proof. destruct b; [intros H; now destruct H | reflexivity]. Qed.

Lemma two_bytes_continuation (a b : ascii) :
  continuation b = false -> two_bytes a b = false.
Proof. intros H. unfold two_bytes. rewrite H. apply andb_false_r. Qed.

Lemma three_bytes_continuation (a b c : ascii) :
  continuation b = false \/ continuation c = false -> three_bytes a b c = false.
Proof.
  intros H. apply not_true_false. intros Ht.
  assert (continuation b = true /\ continuation c = true)
    by (clear H; split; bytes; repeat (apply andb_true_iff; split); apply N.leb_le; lia).
  destruct H as [H|H]; destruct H0; congruence.
Qed.

Lemma four_bytes_continuation (a b c d : ascii) :
  continuation b = false \/ continuation c = false \/ continuation d = false ->
  four_bytes a b c d = false.
Proof.
  intros H. apply not_true_false. intros Ht.
  assert (continuation b = true /\ continuation c = true /\ continuation d = true)
    by (clear H; repeat split; bytes; repeat (apply andb_true_iff; split); apply N.leb_le; lia).
  destruct H as [H|[H|H]]; destruct H0 as (? & ? & ?); congruence.
Qed.

(** A byte that continues no character starts one: the characters before it
    are those of the text before it. *)
Lemma head_char_app (a c : ascii) (p r : string) :
  continuation c = false ->
  head_char a (p ++ String c r)
  = (fst (head_char a p), snd (head_char a p) ++ String c r).
Proof.
  intros Hc.
  destruct p as [|b [|c' [|d p3]]]; cbn [append head_char].
  - rewrite two_bytes_continuation by exact Hc.
    destruct r as [|x [|y r2]];
      rewrite ?three_bytes_continuation, ?four_bytes_continuation by auto;
      reflexivity.
  - destruct (two_bytes a b); [reflexivity|].
    rewrite three_bytes_continuation by auto.
    destruct r as [|x r1];
      rewrite ?four_bytes_continuation by auto; reflexivity.
  - destruct (two_bytes a b); [reflexivity|].
    destruct (three_bytes a b c'); [reflexivity|].
    rewrite four_bytes_continuation by auto. reflexivity.
  - destruct (two_bytes a b); [reflexivity|].
    destruct (three_bytes a b c'); [reflexivity|].
    destruct (four_bytes a b c' d); reflexivity.
Qed.

Lemma chars_app_lead (c : ascii) (pre r : string) :
  continuation c = false ->
  chars (pre ++ String c r) = (chars pre ++ chars (String c r))%list.
Proof.
  intros Hc. induction pre as [pre IH] using by_length.
  destruct pre as [|a p]; [reflexivity|].
  cbn [append]. rewrite (chars_step a (p ++ String c r)), (chars_step a p).
  rewrite head_char_app by exact Hc. cbn [fst snd].
  rewrite IH by (destruct (head_char_split a p); simpl; lia).
  reflexivity.
Qed.

Lemma chars_wellformed (ch r : string) :
  wellformed ch -> chars (ch ++ r) = ch :: chars r.
Proof.
  unfold wellformed, ord.
  destruct ch as [|a [|b [|c [|d [|e t]]]]]; intros H; try (exfalso; lia).
  - destruct (N.ltb (code a) 128) eqn:Ha; [|exfalso; lia].
    cbn [append]. rewrite chars_step.
    assert (Hh : head_char a r = (char1 a, r)).
    { destruct r as [|x [|y [|z r3]]]; cbn [head_char]; try reflexivity.
      all: assert (H2 : two_bytes a x = false)
        by (apply not_true_false; intros; bytes; lia); rewrite H2; try reflexivity.
      all: assert (H3 : three_bytes a x y = false)
        by (apply not_true_false; intros; bytes; lia); rewrite H3; try reflexivity.
      assert (H4 : four_bytes a x y z = false)
        by (apply not_true_false; intros; bytes; lia). rewrite H4. reflexivity. }
    rewrite Hh. reflexivity.
  - destruct (two_bytes a b) eqn:H2; [|exfalso; lia].
    cbn [append chars]. rewrite H2. reflexivity.
  - destruct (three_bytes a b c) eqn:H3; [|exfalso; lia].
    assert (H2 : two_bytes a b = false)
      by (apply not_true_false; intros; bytes; lia).
    cbn [append chars]. rewrite H2, H3. reflexivity.
  - destruct (four_bytes a b c d) eqn:H4; [|exfalso; lia].
    assert (H2 : two_bytes a b = false)
      by (apply not_true_false; intros; bytes; lia).
    assert (H3 : three_bytes a b c = false)
      by (apply not_true_false; intros; bytes; lia).
    cbn [append chars]. rewrite H2, H3, H4. reflexivity.
Qed.

Lemma chars_text_of (l : list string) :
  Forall wellformed l -> chars (text_of l) = l.
Proof.
  induction 1 as [|ch l Hch _ IH]; [reflexivity|].
  cbn [text_of]. rewrite chars_wellformed by exact Hch. now rewrite IH.
Qed.

Lemma wellformed_lead (ch : string) :
  wellformed ch -> exists c t, ch = String c t /\ continuation c = false.
Proof.
  unfold wellformed, ord.
  destruct ch as [|a [|b [|c [|d [|e t]]]]]; intros H; try (exfalso; lia).
  - destruct (N.ltb (code a) 128) eqn:Ha; [|exfalso; lia].
    eexists _, _. split; [reflexivity|]. apply not_true_false. intros. bytes. lia.
  - destruct (two_bytes a b) eqn:H2; [|exfalso; lia].
    eexists _, _. split; [reflexivity|]. apply not_true_false. intros. bytes. lia.
  - destruct (three_bytes a b c) eqn:H3; [|exfalso; lia].
    eexists _, _. split; [reflexivity|]. apply not_true_false. intros. bytes; lia.
  - destruct (four_bytes a b c d) eqn:H4; [|exfalso; lia].
    eexists _, _. split; [reflexivity|]. apply not_true_false. intros. bytes; lia.
Qed.

Lemma chars_app_wellformed (pre ch r : string) :
  wellformed ch -> chars (pre ++ ch ++ r) = (chars pre ++ ch :: chars r)%list.
Proof.
  intros H. destruct (wellformed_lead ch H) as (c & t & -> & Hc).
  cbn [append]. rewrite chars_app_lead by exact Hc.
  change (String c (t ++ r)) with (String c t ++ r).
  now rewrite chars_wellformed.
Qed.


Lemma in_ranges_below (table : list (N * N)) (b n : N) :
  forallb (fun r => N.ltb (snd r) b) table = true ->
  in_ranges table n = true -> (n < b)%N.
Proof.
  intros Hall Hin. unfold in_ranges in Hin.
  apply existsb_exists in Hin as (r & Hr & Hn).
  rewrite forallb_forall in Hall. specialize (Hall r Hr).
  apply N.ltb_lt in Hall. apply andb_true_iff in Hn as [_ Hn].
  apply N.leb_le in Hn. lia.
Qed.

Lemma decimal_zero (n v : N) :
  decimal n = Some v ->
  exists z, In z decimal_zeros /\ (z <= n <= z + 9)%N /\ v = (n - z)%N.
Proof.
  unfold decimal.
  destruct (List.find _ decimal_zeros) as [z|] eqn:E; [|discriminate].
  intros H. injection H as <-. apply find_some in E as [Hin Hz].
  apply andb_true_iff in Hz as [H1 H2].
  apply N.leb_le in H1. apply N.leb_le in H2. eauto.
Qed.

Lemma space_wellformed (ch : string) : space ch = true -> wellformed ch.
Proof.
  unfold space, isspace, wellformed. apply in_ranges_below.
  vm_compute. reflexivity.
Qed.

Lemma digit_wellformed (ch : string) : digit ch = true -> wellformed ch.
Proof.
  unfold digit, isdecimal, wellformed.
  destruct (decimal (ord ch)) as [v|] eqn:E; [|discriminate]. intros _.
  apply decimal_zero in E as (z & Hz & Hn & _).
  assert (Hall : forallb (fun z => N.ltb (z + 9) no_code_point) decimal_zeros = true)
    by (vm_compute; reflexivity).
  rewrite forallb_forall in Hall. specialize (Hall z Hz).
  apply N.ltb_lt in Hall. lia.
Qed.

Lemma word_wellformed (ch : string) : word ch = true -> wellformed ch.
Proof.
  unfold word, isword, isalnum, wellformed. intros H.
  apply orb_true_iff in H as [H|H].
  - revert H. apply in_ranges_below. vm_compute. reflexivity.
  - apply N.eqb_eq in H. rewrite H. reflexivity.
Qed.

(** Every decimal digit is a word character. *)
Lemma digit_is_word (ch : string) : digit ch = true -> word ch = true.
Proof.
  unfold digit, isdecimal, word, isword, isalnum.
  destruct (decimal (ord ch)) as [v|] eqn:E; [|discriminate]. intros _.
  apply decimal_zero in E as (z & Hz & Hn & _).
  assert (Hall : forallb
                   (fun z => existsb
                               (fun r => (N.leb (fst r) z && N.leb (z + 9) (snd r))%bool)
                               alnum_table)
                   decimal_zeros = true)
    by (vm_compute; reflexivity).
  rewrite forallb_forall in Hall. specialize (Hall z Hz).
  apply existsb_exists in Hall as (r & Hr & Hb).
  apply andb_true_iff in Hb as [H1 H2].
  apply N.leb_le in H1. apply N.leb_le in H2.
  apply orb_true_iff. left. unfold in_ranges. apply existsb_exists.
  exists r. split; [exact Hr|].
  apply andb_true_iff. split; apply N.leb_le; lia.
Qed.


Section Dropwhile.

Context {A : Type} (p : A -> bool).

Lemma dropwhile_split (l : list A) :
  exists a, l = (a ++ dropwhile p l)%list /\ forallb p a = true.
Proof.
  induction l as [|x l (a & Hl & Ha)]; cbn [dropwhile].
  - now exists [].
  - destruct (p x) eqn:E.
    + exists (x :: a). cbn. rewrite E, Ha. split; [congruence | reflexivity].
    + now exists [].
Qed.

Lemma dropwhile_keeps (a b : list A) (x : A) :
  p x = false ->
  dropwhile p (a ++ x :: b) = (dropwhile p a ++ x :: b)%list.
Proof.
  intros Hx. induction a as [|y a IH]; cbn [dropwhile app].
  - now rewrite Hx.
  - destruct (p y); [exact IH | reflexivity].
Qed.

Lemma dropwhile_head (l : list A) :
  dropwhile p l = []
  \/ exists x r, dropwhile p l = x :: r /\ p x = false.
Proof.
  induction l as [|x l IH]; cbn [dropwhile]; [now left|].
  destruct (p x) eqn:E; [exact IH | right; eauto].
Qed.

Lemma dropwhile_all (l : list A) :
  dropwhile p l = [] <-> forallb p l = true.
Proof.
  induction l as [|x l IH]; cbn [dropwhile forallb]; [tauto|].
  destruct (p x); cbn [andb]; [exact IH | split; discriminate].
Qed.

Lemma dropwhile_idempotent (l : list A) :
  dropwhile p (dropwhile p l) = dropwhile p l.
Proof.
  destruct (dropwhile_head l) as [->|(x & r & -> & Hx)]; [reflexivity|].
  cbn [dropwhile]. now rewrite Hx.
Qed.

End Dropwhile.

Lemma strip_chars_split (l : list string) :
  exists a b,
    l = (a ++ strip_chars l ++ b)%list
    /\ forallb space a = true /\ forallb space b = true.
Proof.
  unfold strip_chars.
  destruct (dropwhile_split space l) as (a & Hl & Ha).
  destruct (dropwhile_split space (rev (dropwhile space l))) as (b & Hb & Hbs).
  exists a, (rev b). split; [|split; [exact Ha|]].
  - rewrite Hl at 1. f_equal.
    rewrite <- rev_app_distr, <- Hb. now rewrite rev_involutive.
  - rewrite forallb_forall in *. intros x Hx. apply Hbs. now apply in_rev.
Qed.

Lemma strip_chars_between (a m b : list string) (x y : string) :
  space x = false -> space y = false ->
  strip_chars (a ++ x :: m ++ y :: b)
  = (dropwhile space a ++ x :: m ++ y :: rev (dropwhile space (rev b)))%list.
Proof.
  intros Hx Hy. unfold strip_chars.
  rewrite dropwhile_keeps by exact Hx.
  replace (dropwhile space a ++ x :: m ++ y :: b)%list
    with ((dropwhile space a ++ x :: m) ++ y :: b)%list
    by (rewrite <- List.app_assoc; reflexivity).
  rewrite rev_app_distr. cbn [rev]. rewrite <- List.app_assoc. cbn [app].
  rewrite dropwhile_keeps by exact Hy.
  rewrite rev_app_distr. cbn [rev]. rewrite rev_involutive.
  rewrite <- !List.app_assoc. reflexivity.
Qed.

Lemma strip_chars_all (l : list string) :
  strip_chars l = [] <-> forallb space l = true.
Proof.
  split.
  - intros H. destruct (strip_chars_split l) as (a & b & Hl & Ha & Hb).
    rewrite H in Hl. rewrite Hl. cbn [app]. rewrite forallb_app, Ha, Hb.
    reflexivity.
  - intros H. unfold strip_chars.
    apply (dropwhile_all space) in H. rewrite H. reflexivity.
Qed.

(** What [strip] returns neither starts nor ends with white space. *)
Lemma strip_chars_ends (l : list string) :
  dropwhile space (strip_chars l) = strip_chars l
  /\ dropwhile space (rev (strip_chars l)) = rev (strip_chars l).
Proof.
  unfold strip_chars.
  set (d := dropwhile space l).
  set (e := dropwhile space (rev d)).
  rewrite rev_involutive.
  split; [|apply dropwhile_idempotent].
  destruct (dropwhile_split space (rev d)) as (a & Hsplit & _).
  fold e in Hsplit.
  assert (Hdd : d = (rev e ++ rev a)%list).
  { rewrite <- rev_app_distr, <- Hsplit. now rewrite rev_involutive. }
  destruct (rev e) as [|x t] eqn:Ere; [reflexivity|].
  destruct (dropwhile_head space l) as [Hnil|(y & r & Hy & Hpy)];
    fold d in Hnil || fold d in Hy.
  - rewrite Hnil in Hdd. discriminate Hdd.
  - rewrite Hy in Hdd. injection Hdd as -> _.
    cbn [dropwhile]. now rewrite Hpy.
Qed.

Lemma strip_chars_idempotent (l : list string) :
  strip_chars (strip_chars l) = strip_chars l.
Proof.
  destruct (strip_chars_ends l) as [Hhead Hlast].
  unfold strip_chars at 1. rewrite Hhead, Hlast. apply rev_involutive.
Qed.

(** The text of a string is found again in what [strip] returns. *)
Lemma strip_inside (s : string) : exists l r, s = l ++ strip s ++ r.
Proof.
  destruct (strip_chars_split (chars s)) as (a & b & Hl & _).
  exists (text_of a), (text_of b). unfold strip.
  rewrite <- !text_of_app, <- Hl. now rewrite text_of_chars.
Qed.

Lemma chars_suffix (s : string) (a l : list string) :
  chars s = (a ++ l)%list -> chars (text_of l) = l.
Proof.
  revert s. induction a as [|x a IH]; intros s H.
  - cbn [app] in H. rewrite <- H, text_of_chars. reflexivity.
  - cbn [app] in H. apply chars_cons_inv in H as (r & _ & Hr). eauto.
Qed.

Lemma chars_prefix (m b : list string) :
  Forall wellformed b ->
  chars (text_of (m ++ b)) = (m ++ b)%list -> chars (text_of m) = m.
Proof.
  intros Hb H. destruct b as [|w b].
  - now rewrite app_nil_r in H.
  - inversion Hb as [|? ? Hw Hb']; subst.
    rewrite text_of_app in H. cbn [text_of] in H.
    rewrite chars_app_wellformed in H by exact Hw.
    rewrite (chars_text_of b) in H by exact Hb'.
    now apply app_inv_tail in H.
Qed.

Lemma chars_strip (s : string) : chars (strip s) = strip_chars (chars s).
Proof.
  unfold strip.
  destruct (strip_chars_split (chars s)) as (a & b & Hl & _ & Hb).
  apply (chars_prefix _ b).
  - apply Forall_forall. intros x Hx. apply space_wellformed.
    rewrite forallb_forall in Hb. now apply Hb.
  - now apply (chars_suffix s a).
Qed.

(** [s.strip().strip() == s.strip()] *)
Lemma strip_idempotent (s : string) : strip (strip s) = strip s.
Proof.
  unfold strip at 1. rewrite chars_strip, strip_chars_idempotent. reflexivity.
Qed.

Lemma text_of_empty (l : list string) :
  Forall (fun ch => ch <> EmptyString) l -> text_of l = EmptyString -> l = [].
Proof.
  destruct l as [|x l]; [reflexivity|]. intros H Hc.
  inversion H as [|? ? Hx _]; subst. cbn [text_of] in Hc.
  destruct x; [congruence | discriminate Hc].
Qed.

(** [s.strip() == ''] exactly when every character of [s] is white
    space. *)
Lemma strip_empty_iff (s : string) :
  strip s = EmptyString <-> forallb space (chars s) = true.
Proof.
  rewrite <- strip_chars_all. unfold strip. split.
  - intros H. apply text_of_empty; [|exact H].
    destruct (strip_chars_split (chars s)) as (a & b & Hl & _).
    pose proof (chars_nonempty s) as Hne. rewrite Hl in Hne.
    apply Forall_app in Hne as [_ Hne]. now apply Forall_app in Hne as [Hne _].
  - intros ->. reflexivity.
Qed.


Lemma dropwhile_start (l : list string) :
  dropwhile space l = l -> starts_with_space l = false.
Proof.
  intros H. destruct (dropwhile_head space l) as [E|(x & r & E & Hx)];
    rewrite H in E; rewrite E; [reflexivity | exact Hx].
Qed.

(** What [strip] returns has no white space at either end. *)
Lemma strip_trimmed (s : string) : trimmed (strip s) = true.
Proof.
  unfold trimmed. rewrite chars_strip.
  destruct (strip_chars_ends (chars s)) as [Hhead Hlast].
  now rewrite (dropwhile_start _ Hhead), (dropwhile_start _ Hlast).
Qed.

(** [s.strip()] is [s] without the white space around it. *)
Lemma strip_trimming (s : string) : trimming s (strip s).
Proof.
  destruct (strip_chars_split (chars s)) as (a & b & Hl & Ha & Hb).
  exists a, b. rewrite chars_strip.
  split; [exact Hl|]. split; [exact Ha|]. split; [exact Hb|].
  apply strip_trimmed.
Qed.

Lemma mem_text_of_app (c : ascii) (a b : list string) :
  mem c (text_of (a ++ b)) = false -> mem c (text_of b) = false.
Proof.
  rewrite text_of_app, mem_app. intros H.
  now apply orb_false_iff in H as [_ H].
Qed.

(** Stripping the reply moves neither its first opening bracket nor its
    last closing one. *)
Lemma strip_widest_span (s pre mid post : string) :
  widest_span s pre mid post ->
  exists pre' post', widest_span (strip s) pre' mid post'.
Proof.
  intros (-> & Hpre & Hpost).
  exists (text_of (dropwhile space (chars pre))),
    (text_of (rev (dropwhile space (rev (chars post))))).
  unfold widest_span. split; [|split].
  - unfold strip.
    rewrite (chars_app_wellformed pre "[" (mid ++ "]" ++ post)) by reflexivity.
    rewrite (chars_app_wellformed mid "]" post) by reflexivity.
    rewrite strip_chars_between by reflexivity.
    rewrite text_of_app. cbn [text_of]. rewrite text_of_app. cbn [text_of].
    now rewrite text_of_chars.
  - destruct (dropwhile_split space (chars pre)) as (a & Ha & _).
    apply (mem_text_of_app _ a). rewrite <- Ha. now rewrite text_of_chars.
  - destruct (dropwhile_split space (rev (chars post))) as (b & Hb & _).
    assert (Hp : chars post
                 = (rev (dropwhile space (rev (chars post))) ++ rev b)%list).
    { rewrite <- rev_app_distr, <- Hb. now rewrite rev_involutive. }
    pose proof (text_of_chars post) as Ht. rewrite Hp, text_of_app in Ht.
    rewrite <- Ht, mem_app in Hpost.
    now apply orb_false_iff in Hpost as [Hpost _].
Qed.

Lemma drop_app (a b : string) : drop (String.length a) (a ++ b) = b.
Proof. induction a; simpl; auto. Qed.

Lemma take_app (a b : string) : take (String.length a) (a ++ b) = a.
Proof.
  induction a as [|c a IH]; simpl.
  - now destruct b.
  - now rewrite IH.
Qed.

Lemma slice_middle (pre m post : string) :
  slice (pre ++ m ++ post) (Z.of_nat (String.length pre))
    (Z.of_nat (String.length pre) + Z.of_nat (String.length m)) = m.
Proof.
  unfold slice, clamp. rewrite !length_app.
  destruct (Z.ltb_spec (Z.of_nat (String.length pre)) 0); [lia|].
  destruct (Z.ltb_spec (Z.of_nat (String.length pre)
                        + Z.of_nat (String.length m)) 0); [lia|].
  rewrite !Z.min_r by lia.
  rewrite Nat2Z.id.
  replace (Z.to_nat (Z.of_nat (String.length pre) + Z.of_nat (String.length m))
           - String.length pre)%nat with (String.length m) by lia.
  now rewrite drop_app, take_app.
Qed.

(** The text between the first opening bracket and the last closing one is
    what the service cuts out, and the test that guards the cut holds. *)
Lemma span_found (s pre mid post : string) :
  widest_span s pre mid post ->
  let start_idx := Py.find "[" s in
  let end_idx := Py.rfind "]" s + 1 in
  ((0 <=? start_idx) && (start_idx <? end_idx))%bool = true
  /\ slice s start_idx end_idx = "[" ++ mid ++ "]".
Proof.
  intros (-> & Hpre & Hpost). cbv zeta.
  assert (Hf : Py.find "[" (pre ++ "[" ++ mid ++ "]" ++ post)
               = Z.of_nat (String.length pre))
    by (apply find_first; exact Hpre).
  assert (Hr : Py.rfind "]" (pre ++ "[" ++ mid ++ "]" ++ post)
               = Z.of_nat (String.length (pre ++ "[" ++ mid))).
  { replace (pre ++ "[" ++ mid ++ "]" ++ post)
      with ((pre ++ "[" ++ mid) ++ String "]" post)
      by (now rewrite !app_assoc).
    apply rfind_last. exact Hpost. }
  rewrite Hf, Hr. rewrite !length_app. simpl String.length. split.
  - apply andb_true_iff. split; [apply Z.leb_le | apply Z.ltb_lt]; lia.
  - replace (pre ++ "[" ++ mid ++ "]" ++ post)
      with (pre ++ ("[" ++ mid ++ "]") ++ post)
      by (now rewrite !app_assoc).
    match goal with
    | |- slice _ _ ?e = _ =>
        replace e with (Z.of_nat (String.length pre)
                        + Z.of_nat (String.length ("[" ++ mid ++ "]")))
    end.
    + apply slice_middle.
    + simpl String.length. rewrite length_app. simpl String.length. lia.
Qed.

Lemma split_earlier (c1 c2 : ascii) (pre r a b : string) :
  pre ++ String c1 r = a ++ String c2 b ->
  (String.length pre < String.length a)%nat ->
  exists mid, r = mid ++ String c2 b.
Proof.
  revert a. induction pre as [|d pre IH]; intros a Heq Hlt.
  - destruct a as [|e a]; simpl in *; [lia|].
    injection Heq as _ Heq. now exists a.
  - destruct a as [|e a]; simpl in *; [lia|].
    injection Heq as _ Heq. apply (IH a Heq). lia.
Qed.

(** When the test that guards the cut holds, the text has a bracketed
    span, the widest one. *)
Lemma guard_gives_widest_span (s : string) :
  let start_idx := Py.find "[" s in
  let end_idx := Py.rfind "]" s + 1 in
  ((0 <=? start_idx) && (start_idx <? end_idx))%bool = true ->
  exists pre mid post, widest_span s pre mid post.
Proof.
  cbv zeta. intros H. apply andb_true_iff in H as [H0 H1].
  apply Z.leb_le in H0. apply Z.ltb_lt in H1.
  destruct (find_split _ _ H0) as (pre & r & Hs & Hpre & Hf).
  assert (Hr0 : 0 <= Py.rfind "]" s) by lia.
  destruct (rfind_split _ _ Hr0) as (a & b & Hs' & Hb & Hr).
  assert (Hne : String.length pre <> String.length a).
  { intros Heq. rewrite Hs in Hs'.
    assert (Hd : drop (String.length pre) (pre ++ String "[" r)
                 = drop (String.length a) (a ++ String "]" b))
      by (rewrite Heq at 1; now rewrite Hs').
    rewrite !drop_app in Hd. discriminate. }
  assert (Hlt : (String.length pre < String.length a)%nat) by lia.
  rewrite Hs in Hs'.
  destruct (split_earlier _ _ _ _ _ _ Hs' Hlt) as [mid Hmid].
  exists pre, mid, b. repeat split; auto. rewrite Hs, Hmid. reflexivity.
Qed.

Lemma widest_is_span (s pre mid post : string) :
  widest_span s pre mid post -> bracket_span s.
Proof. intros (Hs & _). now exists pre, mid, post. Qed.

Lemma guard_gives_span (s : string) :
  let start_idx := Py.find "[" s in
  let end_idx := Py.rfind "]" s + 1 in
  ((0 <=? start_idx) && (start_idx <? end_idx))%bool = true ->
  bracket_span s.
Proof.
  cbv zeta. intros H.
  destruct (guard_gives_widest_span s H) as (pre & mid & post & Hw).
  exact (widest_is_span _ _ _ _ Hw).
Qed.

Lemma find_bound (c : ascii) (a b : string) :
  0 <= Py.find c (a ++ String c b) <= Z.of_nat (String.length a).
Proof.
  induction a as [|d a IH]; simpl.
  - rewrite Ascii.eqb_refl. lia.
  - destruct (Ascii.eqb d c); [lia|].
    destruct (Z.ltb_spec (Py.find c (a ++ String c b)) 0); lia.
Qed.

Lemma rfind_bound (c : ascii) (a b : string) :
  Z.of_nat (String.length a) <= Py.rfind c (a ++ String c b).
Proof.
  induction a as [|d a IH]; simpl.
  - rewrite Ascii.eqb_refl. destruct (Z.leb_spec 0 (Py.rfind c b)); lia.
  - destruct (Z.leb_spec 0 (Py.rfind c (a ++ String c b))); lia.
Qed.

(** The test that guards the cut is the test for a bracketed span. *)
Lemma span_gives_guard (s : string) :
  bracket_span s ->
  ((0 <=? Py.find "[" s) && (Py.find "[" s <? Py.rfind "]" s + 1))%bool = true.
Proof.
  intros (pre & mid & post & ->).
  pose proof (find_bound "[" pre (mid ++ "]" ++ post)) as Hf.
  assert (Hr : Z.of_nat (String.length (pre ++ "[" ++ mid))
               <= Py.rfind "]" ((pre ++ "[" ++ mid) ++ String "]" post))
    by apply rfind_bound.
  replace ((pre ++ "[" ++ mid) ++ String "]" post)
    with (pre ++ "[" ++ mid ++ "]" ++ post) in Hr
    by (repeat (first [rewrite app_assoc | progress simpl]); reflexivity).
  rewrite length_app in Hr. simpl String.length in Hr.
  change (String "[" (mid ++ "]" ++ post)) with ("[" ++ mid ++ "]" ++ post) in Hf.
  apply andb_true_iff. split; [apply Z.leb_le | apply Z.ltb_lt]; lia.
Qed.

Lemma no_guard_no_span (s : string) :
  ((0 <=? Py.find "[" s) && (Py.find "[" s <? Py.rfind "]" s + 1))%bool = false ->
  ~ bracket_span s.
Proof.
  intros H Hspan. rewrite (span_gives_guard s Hspan) in H. discriminate.
Qed.

Lemma bracket_span_inside (l s r : string) :
  bracket_span s -> bracket_span (l ++ s ++ r).
Proof.
  intros (pre & mid & post & ->).
  exists (l ++ pre), mid, (post ++ r).
  repeat (first [rewrite app_assoc | progress simpl]). reflexivity.
Qed.

End StringFacts.

(* ===================================================================== *)
(** * Facts about the recommendation service *)
(* ===================================================================== *)

Section ServiceFacts.

Variable repr_other : json -> string.
Variable exn_str : exn -> string.
Variable random_sample : list json -> nat -> list json.
Variable llm_invoke : string -> exc string.

(** Once the dataset is read and rendered, the service is its [try] block. *)
Lemma ui_service_try (products : list json) (products_text q : string) (k : Z) :
  _format_for_llm repr_other
    (random_sample products (Nat.min 50 (length products))) 30
  = Ok products_text ->
  recommend_assessment repr_other (Ok products) random_sample llm_invoke q k
  = Ok (try_except
          (response <- llm_invoke (ui_prompt q k products_text) ;;
           parse_ui_reply (strip response))%exc
          (fun _ => error_retrieving)).
Proof.
  intros H. unfold recommend_assessment. cbn [bind]. rewrite H. reflexivity.
Qed.

Lemma api_service_try (products : list json) (products_text q : string) (k : Z) :
  _format_for_llm repr_other
    (random_sample products (Nat.min 50 (length products))) 30
  = Ok products_text ->
  recommend_assessment_api_format repr_other exn_str (Ok products)
    random_sample llm_invoke q k
  = Ok (try_except
          (response <- llm_invoke (api_prompt q k products_text) ;;
           parse_api_reply
             (random_sample products (Nat.min 50 (length products))) k
             (strip response))%exc
          (api_error exn_str)).
Proof.
  intros H. unfold recommend_assessment_api_format. cbn [bind]. rewrite H.
  reflexivity.
Qed.

(** On objects, the cleaning loop keeps the items with both fields, in
    order, each reduced to them. *)
Lemma clean_items_objects (items acc : list json) :
  forallb is_object items = true ->
  clean_items items acc
  = Ok (acc ++ map stripped (filter exposes_both items))%list.
Proof.
  revert acc. induction items as [|item items IH]; intros acc Hobj; simpl.
  - now rewrite app_nil_r.
  - simpl in Hobj. apply andb_true_iff in Hobj as [Hitem Hrest].
    destruct item as [| | | | |l|d]; try discriminate.
    simpl. destruct (lookup "name" d) as [n|] eqn:Hn; simpl.
    + destruct (lookup "url" d) as [u|] eqn:Hu; simpl.
      * rewrite IH by exact Hrest. unfold stripped. simpl.
        rewrite Hn, Hu. now rewrite <- List.app_assoc.
      * now apply IH.
    + now apply IH.
Qed.

(** The reply from its first opening bracket to its last closing one
    decodes to an array of objects: the [try] block gives the cleaned
    array. *)
Lemma parse_ui_reply_objects (s pre mid post : string) (items : list json) :
  widest_span s pre mid post ->
  loads ("[" ++ mid ++ "]") = Ok (JArr items) ->
  forallb is_object items = true ->
  parse_ui_reply s = Ok (JArr (map stripped (filter exposes_both items))).
Proof.
  intros Hspan Hloads Hobj. unfold parse_ui_reply.
  destruct (span_found _ _ _ _ Hspan) as [Hguard Hslice].
  cbv zeta in Hguard, Hslice. rewrite Hguard, Hslice, Hloads. simpl.
  rewrite (clean_items_objects items [] Hobj). reflexivity.
Qed.

(** The reply has no bracketed span: the [try] block gives the stand-in. *)
Lemma parse_ui_reply_no_span (s : string) :
  ~ bracket_span s -> parse_ui_reply s = Ok no_suitable.
Proof.
  intros Hno. unfold parse_ui_reply.
  destruct ((0 <=? Py.find "[" s) && (Py.find "[" s <? Py.rfind "]" s + 1))%bool
    eqn:Hguard; [|reflexivity].
  exfalso. apply Hno. now apply guard_gives_span.
Qed.

Lemma strip_no_span (s : string) : ~ bracket_span s -> ~ bracket_span (strip s).
Proof.
  intros Hno Hspan. apply Hno.
  destruct (strip_inside s) as (l & r & Hs). rewrite Hs.
  now apply bracket_span_inside.
Qed.

End ServiceFacts.

Section ApiFacts.

Ltac step_bind H :=
  match type of H with
  | bind ?m _ = _ =>
      let E := fresh "E" in
      destruct m eqn:E; cbn [bind] in H; [|discriminate H]
  end.

Lemma list_prefix_length {A : Type} (l : list A) (k : Z) :
  0 <= k -> Z.of_nat (length (list_prefix l k)) <= k.
Proof.
  intros Hk. unfold list_prefix.
  destruct (Z.ltb_spec k 0); [lia|].
  pose proof (firstn_le_length (Z.to_nat k) l). lia.
Qed.

Lemma list_prefix_nonempty {A : Type} (l : list A) (k : Z) :
  1 <= k -> l <> [] -> list_prefix l k <> [].
Proof.
  intros Hk Hl. unfold list_prefix.
  destruct (Z.ltb_spec k 0); [lia|].
  destruct l as [|a l]; [congruence|].
  destruct (Z.to_nat k) as [|n] eqn:E; [lia|]. simpl. discriminate.
Qed.

Lemma range_length (n : Z) : length (range n) = Z.to_nat n.
Proof. unfold range. now rewrite length_map, length_seq. Qed.

Lemma valid_indices_in_range (matches : list string) (n : Z) :
  Forall (fun i => 0 <= i < n) (valid_indices matches n).
Proof.
  induction matches as [|m rest IH]; simpl; [constructor|].
  destruct ((0 <=? int m - 1) && (int m - 1 <? n))%bool eqn:E; [|exact IH].
  apply andb_true_iff in E as [E1 E2].
  apply Z.leb_le in E1. apply Z.ltb_lt in E2. constructor; [lia | exact IH].
Qed.

(** The indices the reply resolves to are at most [k], and there is one at
    least when the sample has a product. *)
Lemma resolve_indices_bounds (response_text : string) (n k : Z) :
  1 <= k ->
  Z.of_nat (length (resolve_indices response_text n k)) <= k
  /\ (1 <= n -> resolve_indices response_text n k <> []).
Proof.
  intros Hk. unfold resolve_indices.
  set (v := valid_indices (re_findall_word_digits response_text) n).
  pose proof (list_prefix_length v k ltac:(lia)) as Hlen.
  destruct (list_prefix v k) as [|i rest] eqn:E.
  - rewrite range_length. split; [lia|].
    intros Hn Hr. apply (f_equal (@length Z)) in Hr.
    rewrite range_length in Hr. simpl in Hr. lia.
  - split; [exact Hlen | discriminate].
Qed.

Lemma assessments_of_length (sampled_products : list json) (indices : list Z)
  (l : list json) :
  assessments_of sampled_products indices = Ok l ->
  length l = length indices.
Proof.
  revert l. induction indices as [|idx rest IH]; intros l H; simpl in H.
  - injection H as <-. reflexivity.
  - repeat step_bind H. injection H as <-. simpl. f_equal. now apply IH.
Qed.

(** The record built in the loop of the service is the one of
    [_extract_product_api_format]. *)
Lemma assessments_of_cons (sampled_products : list json) (idx : Z)
  (rest : list Z) :
  assessments_of sampled_products (idx :: rest)
  = (product <- list_index sampled_products idx ;;
     assessment <- _extract_product_api_format product ;;
     others <- assessments_of sampled_products rest ;;
     Ok (assessment :: others))%exc.
Proof.
  simpl. unfold _extract_product_api_format.
  destruct (list_index sampled_products idx) as [product|]; cbn [bind];
    [|reflexivity].
  repeat match goal with
         | |- bind ?m _ = bind (bind ?m _) _ =>
             destruct m; cbn [bind]; [|reflexivity]
         end.
  reflexivity.
Qed.

End ApiFacts.

Section RegexFacts.

Lemma all_chars_app (p : ascii -> bool) (a b : string) :
  all_chars p (a ++ b) = (all_chars p a && all_chars p b)%bool.
Proof.
  induction a as [|c a IH]; simpl; [reflexivity|].
  now rewrite IH, andb_assoc.
Qed.

Lemma text_of_snoc (cur : list string) (ch : string) :
  text_of (cur ++ [ch]) = text_of cur ++ ch.
Proof. rewrite text_of_app. cbn [text_of]. now rewrite app_empty_r. Qed.

Lemma snoc_not_nil {A : Type} (l : list A) (x : A) : (l ++ [x])%list <> [].
Proof. destruct l; discriminate. Qed.

Lemma forallb_snoc {A : Type} (p : A -> bool) (l : list A) (x : A) :
  forallb p (l ++ [x]) = (forallb p l && p x)%bool.
Proof. rewrite forallb_app. cbn [forallb]. now rewrite andb_true_r. Qed.

(** The three states of the scan, against the words of the text: reading a
    number, reading a word that is not a number, and between words. *)
Lemma findall_scan_words (l : list string) :
  (forall ds prev, ds <> [] -> forallb digit ds = true ->
     findall_scan l prev (Some (text_of ds))
     = map text_of (filter (forallb digit) (runs_from word l ds)))
  /\ (forall cur, cur <> [] -> forallb digit cur = false ->
        findall_scan l true None
        = map text_of (filter (forallb digit) (runs_from word l cur)))
  /\ findall_scan l false None
     = map text_of (filter (forallb digit) (runs_from word l [])).
Proof.
  induction l as [|ch l (IHnum & IHword & IHgap)].
  - repeat split.
    + intros ds prev Hne Hds. destruct ds as [|d ds]; [congruence|].
      cbn [findall_scan runs_from filter]. now rewrite Hds.
    + intros cur Hne Hcur. destruct cur as [|d cur]; [congruence|].
      cbn [findall_scan runs_from filter]. now rewrite Hcur.
  - repeat split.
    + intros ds prev Hne Hds. cbn [findall_scan runs_from].
      destruct (digit ch) eqn:Hd.
      * rewrite (digit_is_word ch Hd), <- text_of_snoc. apply IHnum.
        -- apply snoc_not_nil.
        -- now rewrite forallb_snoc, Hds, Hd.
      * destruct (word ch) eqn:Hw.
        -- apply IHword.
           ++ apply snoc_not_nil.
           ++ rewrite forallb_snoc, Hd. apply andb_false_r.
        -- destruct ds as [|d ds]; [congruence|].
           cbn [filter]. rewrite Hds. cbn [map]. now rewrite IHgap.
    + intros cur Hne Hcur. cbn [findall_scan runs_from].
      destruct (digit ch) eqn:Hd.
      * rewrite (digit_is_word ch Hd). apply IHword.
        -- apply snoc_not_nil.
        -- now rewrite forallb_snoc, Hcur.
      * destruct (word ch) eqn:Hw.
        -- apply IHword.
           ++ apply snoc_not_nil.
           ++ now rewrite forallb_snoc, Hcur.
        -- destruct cur as [|d cur]; [congruence|].
           cbn [filter]. rewrite Hcur. exact IHgap.
    + cbn [findall_scan runs_from]. destruct (digit ch) eqn:Hd.
      * rewrite (digit_is_word ch Hd).
        replace ch with (text_of [ch]) at 1
          by (cbn [text_of]; apply app_empty_r).
        apply IHnum; [discriminate|]. cbn [app forallb]. now rewrite Hd.
      * destruct (word ch) eqn:Hw.
        -- apply IHword; [discriminate|]. cbn [app forallb]. now rewrite Hd.
        -- exact IHgap.
Qed.

(** What the pattern of the service matches: the words of the reply that
    are numbers. *)
Lemma findall_number_words (s : string) :
  re_findall_word_digits s = number_words s.
Proof. apply (findall_scan_words (chars s)). Qed.

End RegexFacts.

(* ===================================================================== *)
(** * The properties of the recommendation service *)
(* ===================================================================== *)

(** C4.  When the reply, from its first opening bracket to its last closing
    bracket, decodes to a JSON array of objects, [recommend_assessment]
    returns exactly the items of that array that have both a [name] and a
    [url] field, in their order, each reduced to these two fields. *)
Theorem ui_returns_stripped_items :
  forall (repr_other : json -> string)
         (random_sample : list json -> nat -> list json)
         (llm_invoke : string -> exc string)
         (products : list json) (products_text user_query : string) (k : Z)
         (reply pre mid post : string) (items : list json),
    _format_for_llm repr_other
      (random_sample products (Nat.min 50 (length products))) 30
    = Ok products_text ->
    llm_invoke (ui_prompt user_query k products_text) = Ok reply ->
    widest_span reply pre mid post ->
    loads ("[" ++ mid ++ "]") = Ok (JArr items) ->
    forallb is_object items = true ->
    recommend_assessment repr_other (Ok products) random_sample llm_invoke
      user_query k
    = Ok (JArr (map stripped (filter exposes_both items))).
Proof.
  intros repr_other random_sample llm_invoke products products_text
    user_query k reply pre mid post items Hfmt Hllm Hspan Hloads Hobj.
  rewrite (ui_service_try _ _ _ _ _ _ _ Hfmt), Hllm. cbn [bind].
  destruct (strip_widest_span _ _ _ _ Hspan) as (pre' & post' & Hstrip).
  rewrite (parse_ui_reply_objects _ _ _ _ _ Hstrip Hloads Hobj).
  reflexivity.
Qed.

Lemma ui_returns_stripped_items_witness :
  recommend_assessment Sample.repr (Ok Sample.catalog) Sample.first_n
    (Sample.says Sample.reply_array) "Java developer, 30 minutes" 5
  = Ok (JArr [name_url (JStr "Java 8 (New)") (JStr "https://www.shl.com/java-8-new/");
              name_url (JStr "Python (New)") (JStr "https://www.shl.com/python-new/")]).
Proof.
  refine (eq_trans
            (ui_returns_stripped_items Sample.repr Sample.first_n
               (Sample.says Sample.reply_array) Sample.catalog
               _ "Java developer, 30 minutes" 5 Sample.reply_array
               ("Here are my picks:" ++ nl) Sample.array_inside
               (nl ++ "Good luck!") _ _ _ _ _ _) _).
  - vm_compute. reflexivity.
  - reflexivity.
  - repeat split; vm_compute; reflexivity.
  - vm_compute. reflexivity.
  - vm_compute. reflexivity.
  - vm_compute. reflexivity.
Defined.

(** C7.  When the reply holds no bracketed span, [recommend_assessment]
    returns the list whose single item is named "No suitable assessments
    found" and carries the contact link. *)
Theorem ui_no_span_gives_stand_in :
  forall (repr_other : json -> string)
         (random_sample : list json -> nat -> list json)
         (llm_invoke : string -> exc string)
         (products : list json) (products_text user_query : string) (k : Z)
         (reply : string),
    _format_for_llm repr_other
      (random_sample products (Nat.min 50 (length products))) 30
    = Ok products_text ->
    llm_invoke (ui_prompt user_query k products_text) = Ok reply ->
    ~ bracket_span reply ->
    recommend_assessment repr_other (Ok products) random_sample llm_invoke
      user_query k
    = Ok (JArr [JObj [("name", JStr "No suitable assessments found");
                      ("url", JStr "https://www.shl.com/contact-us/")]]).
Proof.
  intros repr_other random_sample llm_invoke products products_text
    user_query k reply Hfmt Hllm Hno.
  rewrite (ui_service_try _ _ _ _ _ _ _ Hfmt), Hllm. cbn [bind].
  rewrite (parse_ui_reply_no_span _ (strip_no_span _ Hno)). reflexivity.
Qed.

Lemma ui_no_span_gives_stand_in_witness :
  recommend_assessment Sample.repr (Ok Sample.catalog) Sample.first_n
    (Sample.says Sample.reply_prose) "Java developer, 30 minutes" 5
  = Ok (JArr [JObj [("name", JStr "No suitable assessments found");
                    ("url", JStr "https://www.shl.com/contact-us/")]]).
Proof.
  apply (ui_no_span_gives_stand_in Sample.repr Sample.first_n
           (Sample.says Sample.reply_prose) Sample.catalog
           (match _format_for_llm Sample.repr Sample.catalog 30 with
            | Ok t => t
            | Raise _ => EmptyString
            end)
           "Java developer, 30 minutes" 5 Sample.reply_prose).
  - vm_compute. reflexivity.
  - reflexivity.
  - apply no_guard_no_span. vm_compute. reflexivity.
Defined.

Section UiOutcome.

Variable repr_other : json -> string.
Variable random_sample : list json -> nat -> list json.
Variable llm_invoke : string -> exc string.

(** With a bracketed span, the [try] block is the decoding of the span
    followed by the cleaning loop. *)
Lemma parse_ui_reply_span (s pre mid post : string) :
  widest_span s pre mid post ->
  try_except (parse_ui_reply s) (fun _ => error_retrieving)
  = match (results <- loads ("[" ++ mid ++ "]") ;;
           results <- iter results ;;
           clean_items results [])%exc with
    | Ok items => JArr items
    | Raise _ => error_retrieving
    end.
Proof.
  intros Hspan. unfold parse_ui_reply.
  destruct (span_found _ _ _ _ Hspan) as [Hguard Hslice].
  cbv zeta in Hguard, Hslice. rewrite Hguard, Hslice.
  destruct (loads ("[" ++ mid ++ "]")) as [results|]; cbn [bind try_except];
    [|reflexivity].
  destruct (iter results) as [l|]; cbn [bind try_except]; [|reflexivity].
  destruct (clean_items l []); reflexivity.
Qed.

(** What the [try] block returns is a list, and an empty one only out of a
    bracketed span. *)
Lemma parse_ui_reply_list (s : string) (v : json) :
  parse_ui_reply s = Ok v ->
  exists items, v = JArr items /\ (items = [] -> bracket_span s).
Proof.
  unfold parse_ui_reply.
  destruct ((0 <=? Py.find "[" s) && (Py.find "[" s <? Py.rfind "]" s + 1))%bool
    eqn:Hguard.
  - intros H.
    destruct (loads _) as [results|]; cbn [bind] in H; [|discriminate].
    destruct (iter results) as [l|]; cbn [bind] in H; [|discriminate].
    destruct (clean_items l []) as [items|]; cbn [bind] in H; [|discriminate].
    injection H as <-. exists items. split; [reflexivity|].
    intros _. now apply guard_gives_span.
  - intros H. injection H as <-. eexists. split; [reflexivity|discriminate].
Qed.

(** The loop only adds to the cleaned list, and adds an item for each
    object that has both fields. *)
Lemma clean_items_grows (results acc l : list json) :
  clean_items results acc = Ok l ->
  (length acc <= length l)%nat
  /\ (length l = length acc ->
      Forall (fun item => exposes_both item = false) results).
Proof.
  revert acc. induction results as [|item rest IH]; intros acc H.
  - injection H as <-. split; [lia | constructor].
  - cbn [clean_items] in H.
    destruct (contains "name" item) as [has_name|] eqn:Hn;
      cbn [bind] in H; [|discriminate H].
    destruct (if has_name then contains "url" item else Ok false)
      as [has_url|] eqn:Hu; cbn [bind] in H; [|discriminate H].
    destruct (has_name && has_url)%bool eqn:Hboth.
    + destruct (getitem item "name") as [name|]; cbn [bind] in H;
        [|discriminate H].
      destruct (getitem item "url") as [url|]; cbn [bind] in H;
        [|discriminate H].
      destruct (IH _ H) as [Hlen _]. rewrite List.length_app in Hlen.
      cbn [length] in Hlen. split; [lia | intros Heq; lia].
    + destruct (IH _ H) as [Hlen Hrest]. split; [exact Hlen|].
      intros Heq. constructor; [|exact (Hrest Heq)].
      destruct item as [| | | | |items|d]; try reflexivity.
      cbn [contains] in Hn. injection Hn as <-.
      cbn [exposes_both].
      destruct (lookup "name" d); [|reflexivity].
      cbn [contains] in Hu. injection Hu as <-.
      destruct (lookup "url" d); [discriminate Hboth | reflexivity].
Qed.

(** A text that starts with an opening bracket decodes to a list, if it
    decodes. *)
Lemma loads_bracket (t : string) (v : json) :
  loads ("[" ++ t) = Ok v -> exists items, v = JArr items.
Proof.
  unfold loads.
  change (skip_ws ("[" ++ t)) with (String "[" t).
  replace (2 * String.length ("[" ++ t) + 2)%nat
    with (S (2 * String.length t + 3))%nat by (cbn [append String.length]; lia).
  cbn [scan_once].
  change (Ascii.eqb "[" dquote) with false.
  change (Ascii.eqb "[" "{") with false.
  change (Ascii.eqb "[" "[") with true. cbv iota.
  intros H.
  assert (Hlist : forall l r,
            match skip_ws r with
            | EmptyString => Ok (JArr l)
            | String _ _ => Raise JSONDecodeError
            end = Ok v -> exists items, v = JArr items).
  { intros l r Hr. destruct (skip_ws r); [|discriminate Hr].
    injection Hr as <-. eauto. }
  destruct (skip_ws t) as [|c r0].
  - destruct (array_items _ _) as [[l r]|]; [|discriminate H]. eauto.
  - destruct c as [[] [] [] [] [] [] [] []];
      try (destruct (array_items _ _) as [[l r]|]; [|discriminate H]);
      eauto.
Qed.

(** The [try] block gives the empty list only for a reply whose bracketed
    span decodes to a list that has no item with both fields. *)
Lemma parse_ui_reply_empty (s : string) :
  parse_ui_reply s = Ok (JArr []) ->
  exists pre mid post results,
    widest_span s pre mid post
    /\ loads ("[" ++ mid ++ "]") = Ok (JArr results)
    /\ Forall (fun item => exposes_both item = false) results.
Proof.
  unfold parse_ui_reply.
  destruct ((0 <=? Py.find "[" s) && (Py.find "[" s <? Py.rfind "]" s + 1))%bool
    eqn:Hguard; [|discriminate].
  destruct (guard_gives_widest_span s Hguard) as (pre & mid & post & Hspan).
  destruct (span_found _ _ _ _ Hspan) as [_ Hslice].
  cbv zeta in Hslice. rewrite Hslice. intros H.
  destruct (loads ("[" ++ mid ++ "]")) as [decoded|] eqn:Hloads;
    cbn [bind] in H; [|discriminate H].
  destruct (loads_bracket _ _ Hloads) as [results ->].
  cbn [iter bind] in H.
  destruct (clean_items results []) as [items|] eqn:Hclean;
    cbn [bind] in H; [|discriminate H].
  injection H as ->.
  exists pre, mid, post, results. split; [exact Hspan|].
  split; [exact Hloads|].
  now apply (proj2 (clean_items_grows _ _ _ Hclean)).
Qed.

End UiOutcome.

(** C10 (as amended).  The two stand-ins of [recommend_assessment] differ,
    and which of the three outcomes is returned is settled by disjoint
    conditions: the error item when the call of the model raises, or when
    the bracketed span of the reply does not decode or cannot be cleaned;
    the "no suitable" item when the reply has no bracketed span; the cleaned
    array otherwise. *)
Theorem ui_outcome_by_condition :
  forall (repr_other : json -> string)
         (random_sample : list json -> nat -> list json)
         (llm_invoke : string -> exc string)
         (products : list json) (products_text user_query : string) (k : Z),
    _format_for_llm repr_other
      (random_sample products (Nat.min 50 (length products))) 30
    = Ok products_text ->
    let returned :=
      recommend_assessment repr_other (Ok products) random_sample llm_invoke
        user_query k in
    error_retrieving <> no_suitable
    /\ match llm_invoke (ui_prompt user_query k products_text) with
       | Raise _ => returned = Ok error_retrieving
       | Ok reply =>
           (~ bracket_span reply /\ returned = Ok no_suitable)
           \/ (exists pre mid post,
                 widest_span reply pre mid post
                 /\ returned
                    = Ok match (results <- loads ("[" ++ mid ++ "]") ;;
                                results <- iter results ;;
                                clean_items results [])%exc with
                         | Ok items => JArr items
                         | Raise _ => error_retrieving
                         end)
       end.
Proof.
  intros repr_other random_sample llm_invoke products products_text
    user_query k Hfmt returned.
  split; [discriminate|].
  unfold returned. rewrite (ui_service_try _ _ _ _ _ _ _ Hfmt).
  destruct (llm_invoke (ui_prompt user_query k products_text)) as [reply|e];
    cbn [bind]; [|reflexivity].
  destruct ((0 <=? Py.find "[" reply)
            && (Py.find "[" reply <? Py.rfind "]" reply + 1))%bool eqn:Hguard.
  - right. destruct (guard_gives_widest_span reply Hguard)
      as (pre & mid & post & Hspan).
    exists pre, mid, post. split; [exact Hspan|].
    destruct (strip_widest_span _ _ _ _ Hspan) as (pre' & post' & Hstrip).
    f_equal. now apply parse_ui_reply_span with (pre := pre') (post := post').
  - left. pose proof (no_guard_no_span reply Hguard) as Hno.
    split; [exact Hno|].
    now rewrite (parse_ui_reply_no_span _ (strip_no_span _ Hno)).
Qed.

Lemma ui_outcome_by_condition_witness :
  error_retrieving <> no_suitable
  /\ ((~ bracket_span Sample.reply_broken
       /\ recommend_assessment Sample.repr (Ok Sample.catalog) Sample.first_n
            (Sample.says Sample.reply_broken) "Java developer" 5
          = Ok no_suitable)
      \/ (exists pre mid post,
            widest_span Sample.reply_broken pre mid post
            /\ recommend_assessment Sample.repr (Ok Sample.catalog)
                 Sample.first_n (Sample.says Sample.reply_broken)
                 "Java developer" 5
               = Ok match (results <- loads ("[" ++ mid ++ "]") ;;
                           results <- iter results ;;
                           clean_items results [])%exc with
                    | Ok items => JArr items
                    | Raise _ => error_retrieving
                    end)).
Proof.
  apply (ui_outcome_by_condition Sample.repr Sample.first_n
           (Sample.says Sample.reply_broken) Sample.catalog
           (match _format_for_llm Sample.repr Sample.catalog 30 with
            | Ok t => t
            | Raise _ => EmptyString
            end)
           "Java developer" 5).
  vm_compute. reflexivity.
Defined.

(** The reply that repeats the "no suitable" item as an array: the service
    returns that very item although the reply has a bracketed span. *)
Lemma echoed_stand_in_has_a_span :
  ~ (recommend_assessment Sample.repr (Ok Sample.catalog) Sample.first_n
       (Sample.says Sample.reply_echo) "Java developer" 5
     = Ok no_suitable ->
     ~ bracket_span Sample.reply_echo).
Proof.
  intros H. apply H.
  - vm_compute. reflexivity.
  - exists EmptyString.
    exists ("{" ++ Sample.member "name" "No suitable assessments found" ++ ", "
                ++ Sample.member "url" "https://www.shl.com/contact-us/" ++ "}").
    exists EmptyString. vm_compute. reflexivity.
Qed.

Section ApiOutcome.

Variable exn_str : exn -> string.

(** What the service returns in the shape of the API, whatever the model
    does: a list under the key [recommended_assessments], of [k] items at
    most, and not an empty one when the sample has a product. *)
Lemma api_try_bounds (sampled_products : list json) (k : Z)
  (outcome : exc string) :
  1 <= k ->
  exists l,
    try_except
      (response <- outcome ;;
       parse_api_reply sampled_products k (strip response))%exc
      (api_error exn_str)
    = recommended l
    /\ Z.of_nat (length l) <= k
    /\ (sampled_products <> [] -> l <> []).
Proof.
  intros Hk.
  destruct outcome as [response|e]; cbn [bind try_except].
  - unfold parse_api_reply.
    destruct (resolve_indices_bounds (strip response)
                (Z.of_nat (length sampled_products)) k Hk) as [Hlen Hne].
    destruct (assessments_of sampled_products _) as [l|e] eqn:E;
      cbn [bind try_except].
    + exists l. pose proof (assessments_of_length _ _ _ E) as Hl.
      repeat split; [lia|].
      intros Hs Hnil. subst l. simpl in Hl. apply Hne.
      * destruct sampled_products; [congruence | simpl; lia].
      * symmetry in Hl. now apply length_zero_iff_nil in Hl.
    + eexists. unfold api_error. repeat split; [simpl; lia | discriminate].
  - eexists. unfold api_error. repeat split; [simpl; lia | discriminate].
Qed.

End ApiOutcome.

(** C3 (as amended).  For every query and every [k >= 1], the result in the
    shape of the API holds, under the key [recommended_assessments], a list
    of no more than [k] records.  The list in the shape of the UI is not cut
    to [k]: when the reply holds an array of objects, it has as many items
    as the array has items with both fields. *)
Theorem api_returns_at_most_k :
  forall (repr_other : json -> string) (exn_str : exn -> string)
         (random_sample : list json -> nat -> list json)
         (llm_invoke : string -> exc string)
         (products : list json) (products_text user_query : string) (k : Z),
    1 <= k ->
    _format_for_llm repr_other
      (random_sample products (Nat.min 50 (length products))) 30
    = Ok products_text ->
    (exists l,
       recommend_assessment_api_format repr_other exn_str (Ok products)
         random_sample llm_invoke user_query k
       = Ok (JObj [("recommended_assessments", JArr l)])
       /\ Z.of_nat (length l) <= k)
    /\ (forall reply pre mid post items,
          llm_invoke (ui_prompt user_query k products_text) = Ok reply ->
          widest_span reply pre mid post ->
          loads ("[" ++ mid ++ "]") = Ok (JArr items) ->
          forallb is_object items = true ->
          exists l,
            recommend_assessment repr_other (Ok products) random_sample
              llm_invoke user_query k
            = Ok (JArr l)
            /\ length l = length (filter exposes_both items)).
Proof.
  intros repr_other exn_str random_sample llm_invoke products products_text
    user_query k Hk Hfmt.
  split.
  - rewrite (api_service_try _ _ _ _ _ _ _ _ Hfmt).
    destruct (api_try_bounds exn_str
                (random_sample products (Nat.min 50 (length products))) k
                (llm_invoke (api_prompt user_query k products_text)) Hk)
      as (l & Heq & Hlen & _).
    exists l. rewrite Heq. split; [reflexivity | exact Hlen].
  - intros reply pre mid post items Hllm Hspan Hloads Hobj.
    rewrite (ui_service_try _ _ _ _ _ _ _ Hfmt), Hllm. cbn [bind].
    destruct (strip_widest_span _ _ _ _ Hspan) as (pre' & post' & Hstrip).
    rewrite (parse_ui_reply_objects _ _ _ _ _ Hstrip Hloads Hobj).
    eexists. split; [reflexivity|]. apply length_map.
Qed.

Lemma api_returns_at_most_k_witness :
  exists l,
    recommend_assessment_api_format Sample.repr Sample.message
      (Ok Sample.catalog) Sample.first_n (Sample.says "4, 2, 5, 1")
      "Java developer, 30 minutes" 2
    = Ok (JObj [("recommended_assessments", JArr l)])
    /\ Z.of_nat (length l) <= 2.
Proof.
  apply (api_returns_at_most_k Sample.repr Sample.message Sample.first_n
           (Sample.says "4, 2, 5, 1") Sample.catalog
           (match _format_for_llm Sample.repr Sample.catalog 30 with
            | Ok t => t
            | Raise _ => EmptyString
            end)
           "Java developer, 30 minutes" 2).
  - lia.
  - vm_compute. reflexivity.
Defined.

(** With [k = 1] and a reply that lists two assessments, the list in the
    shape of the UI has two items. *)
Lemma ui_list_longer_than_k :
  ~ (exists items,
       recommend_assessment Sample.repr (Ok Sample.catalog) Sample.first_n
         (Sample.says Sample.reply_two_items) "Java developer" 1
       = Ok (JArr items)
       /\ Z.of_nat (length items) <= 1).
Proof.
  intros (items & H & Hlen). vm_compute in H. injection H as <-.
  simpl in Hlen. lia.
Qed.

(** C2 (as amended).  For every query and every [k >= 1], once the dataset
    is read and rendered into the prompt, both services return normally,
    whatever the call of the model does.  In the shape of the UI the result
    is a list; it is the one-item error list when the call or the decoding
    raises and the one-item "no suitable" list when the reply has no
    bracketed span; it is empty only when the reply has a bracketed span
    whose text decodes to a list that has no item with both fields.  In the
    shape of the API the result is the one-item error record whenever
    something raises in the [try] block (the call of the model, or the
    reading of the records), and its list is not empty as soon as the sample
    has a product. *)
Theorem services_return_normally :
  forall (repr_other : json -> string) (exn_str : exn -> string)
         (random_sample : list json -> nat -> list json)
         (llm_invoke : string -> exc string)
         (products : list json) (products_text user_query : string) (k : Z),
    1 <= k ->
    _format_for_llm repr_other
      (random_sample products (Nat.min 50 (length products))) 30
    = Ok products_text ->
    (exists items,
       recommend_assessment repr_other (Ok products) random_sample llm_invoke
         user_query k
       = Ok (JArr items)
       /\ (forall e, llm_invoke (ui_prompt user_query k products_text) = Raise e ->
           JArr items = error_retrieving)
       /\ (forall reply e,
             llm_invoke (ui_prompt user_query k products_text) = Ok reply ->
             parse_ui_reply (strip reply) = Raise e ->
             JArr items = error_retrieving)
       /\ (forall reply,
             llm_invoke (ui_prompt user_query k products_text) = Ok reply ->
             ~ bracket_span reply ->
             JArr items = no_suitable)
       /\ (items = [] ->
           exists reply pre mid post results,
             llm_invoke (ui_prompt user_query k products_text) = Ok reply
             /\ bracket_span reply
             /\ widest_span (strip reply) pre mid post
             /\ loads ("[" ++ mid ++ "]") = Ok (JArr results)
             /\ Forall (fun item => exposes_both item = false) results))
    /\ (exists l,
          recommend_assessment_api_format repr_other exn_str (Ok products)
            random_sample llm_invoke user_query k
          = Ok (JObj [("recommended_assessments", JArr l)])
          /\ (forall e,
                (response <- llm_invoke (api_prompt user_query k products_text) ;;
                 parse_api_reply
                   (random_sample products (Nat.min 50 (length products)))
                   k (strip response))%exc
                = Raise e ->
                JObj [("recommended_assessments", JArr l)]
                = api_error exn_str e)
          /\ (forall e,
                llm_invoke (api_prompt user_query k products_text) = Raise e ->
                JObj [("recommended_assessments", JArr l)]
                = api_error exn_str e)
          /\ (random_sample products (Nat.min 50 (length products)) <> [] ->
              l <> [])).
Proof.
  intros repr_other exn_str random_sample llm_invoke products products_text
    user_query k Hk Hfmt.
  split.
  - rewrite (ui_service_try _ _ _ _ _ _ _ Hfmt).
    destruct (llm_invoke (ui_prompt user_query k products_text))
      as [reply|e0] eqn:Hllm; cbn [bind].
    + destruct (parse_ui_reply (strip reply)) as [v|e1] eqn:Hparse;
        cbn [try_except].
      * destruct (parse_ui_reply_list _ _ Hparse) as (items & -> & Hempty).
        exists items. split; [reflexivity|].
        split; [discriminate|].
        split; [intros r e Hr; injection Hr as <-; congruence|].
        split.
        -- intros r Hr Hno. injection Hr as <-.
           rewrite (parse_ui_reply_no_span _ (strip_no_span _ Hno)) in Hparse.
           congruence.
        -- intros ->.
           destruct (parse_ui_reply_empty _ Hparse)
             as (pre & mid & post & results & Hspan & Hloads & Hnone).
           exists reply, pre, mid, post, results.
           split; [reflexivity|]. split; [|auto].
           destruct (strip_inside reply) as (a & b & Hs). rewrite Hs.
           apply bracket_span_inside. auto.
      * eexists. split; [reflexivity|].
        split; [discriminate|].
        split; [reflexivity|].
        split.
        -- intros r Hr Hno. injection Hr as <-.
           rewrite (parse_ui_reply_no_span _ (strip_no_span _ Hno)) in Hparse.
           discriminate.
        -- discriminate.
    + eexists. split; [reflexivity|].
      split; [reflexivity|].
      split; [discriminate|].
      split; discriminate.
  - rewrite (api_service_try _ _ _ _ _ _ _ _ Hfmt).
    destruct (api_try_bounds exn_str
                (random_sample products (Nat.min 50 (length products))) k
                (llm_invoke (api_prompt user_query k products_text)) Hk)
      as (l & Heq & _ & Hne).
    exists l. rewrite Heq. split; [reflexivity|].
    assert (Hany : forall e,
              (response <- llm_invoke (api_prompt user_query k products_text) ;;
               parse_api_reply
                 (random_sample products (Nat.min 50 (length products)))
                 k (strip response))%exc
              = Raise e ->
              JObj [("recommended_assessments", JArr l)]
              = api_error exn_str e).
    { intros e He. rewrite He in Heq. cbn [try_except] in Heq.
      symmetry. exact Heq. }
    split; [exact Hany|]. split; [|exact Hne].
    intros e He. apply Hany. rewrite He. reflexivity.
Qed.

Lemma services_return_normally_witness :
  (exists items,
     recommend_assessment Sample.repr (Ok Sample.catalog) Sample.first_n
       Sample.unreachable "Java developer, 30 minutes" 5
     = Ok (JArr items)
     /\ JArr items = error_retrieving)
  /\ (exists l,
        recommend_assessment_api_format Sample.repr Sample.message
          (Ok Sample.catalog) Sample.first_n Sample.unreachable
          "Java developer, 30 minutes" 5
        = Ok (JObj [("recommended_assessments", JArr l)])
        /\ l <> []).
Proof.
  destruct (services_return_normally Sample.repr Sample.message Sample.first_n
              Sample.unreachable Sample.catalog
              (match _format_for_llm Sample.repr Sample.catalog 30 with
               | Ok t => t
               | Raise _ => EmptyString
               end)
              "Java developer, 30 minutes" 5)
    as [(items & Hui & Hraise & _) (l & Hapi & _ & _ & Hne)].
  - lia.
  - vm_compute. reflexivity.
  - split.
    + exists items. split; [exact Hui|]. eapply Hraise. reflexivity.
    + exists l. split; [exact Hapi|]. apply Hne. vm_compute. discriminate.
Defined.

(** The reply is the empty array: the list in the shape of the UI is
    empty. *)
Lemma ui_list_empty_on_empty_array :
  ~ (exists items,
       recommend_assessment Sample.repr (Ok Sample.catalog) Sample.first_n
         (Sample.says Sample.reply_empty_array) "Java developer" 5
       = Ok (JArr items)
       /\ items <> []).
Proof.
  intros (items & H & Hne). vm_compute in H. injection H as <-. now apply Hne.
Qed.

Section NumeralFacts.

Lemma decimal_below_ten (n v : N) : decimal n = Some v -> (v <= 9)%N.
Proof. intros H. apply decimal_zero in H as (z & _ & Hn & ->). lia. Qed.

Lemma numeral_digit_acc (v : N) (d : Decimal.uint) (acc : positive) :
  (v <= 9)%N ->
  Pos.of_uint_acc (numeral_digit v d) acc
  = Pos.of_uint_acc d (Z.to_pos (10 * Z.pos acc + Z.of_N v)).
Proof.
  intros Hv.
  assert (Hcases : (v = 0 \/ v = 1 \/ v = 2 \/ v = 3 \/ v = 4 \/ v = 5
                    \/ v = 6 \/ v = 7 \/ v = 8 \/ v = 9)%N) by lia.
  repeat (destruct Hcases as [->|Hcases]); try subst v;
    cbn [numeral_digit Pos.of_uint_acc]; f_equal; lia.
Qed.

Lemma int_acc_numeral (l : list string) (d : Decimal.uint) (acc : positive) :
  numeral l = Some d ->
  int_acc (Z.pos acc) l = Z.pos (Pos.of_uint_acc d acc).
Proof.
  revert d acc. induction l as [|ch l IH]; intros d acc H; cbn [numeral] in H.
  - injection H as <-. reflexivity.
  - destruct (decimal (ord ch)) as [v|] eqn:Ev; [|discriminate H].
    destruct (numeral l) as [d'|]; [|discriminate H]. injection H as <-.
    pose proof (decimal_below_ten _ _ Ev) as Hv.
    cbn [int_acc]. unfold digit_value. rewrite Ev.
    rewrite numeral_digit_acc by exact Hv.
    rewrite <- (IH d' _ eq_refl). f_equal. lia.
Qed.

(** [int] reads a run of decimal digits as the numeral it writes. *)
Lemma int_acc_zero_numeral (l : list string) (d : Decimal.uint) :
  numeral l = Some d -> int_acc 0 l = Z.of_uint d.
Proof.
  revert d. induction l as [|ch l IH]; intros d H; cbn [numeral] in H.
  - injection H as <-. reflexivity.
  - destruct (decimal (ord ch)) as [v|] eqn:Ev; [|discriminate H].
    destruct (numeral l) as [d'|] eqn:El; [|discriminate H]. injection H as <-.
    pose proof (decimal_below_ten _ _ Ev) as Hv.
    cbn [int_acc]. unfold digit_value. rewrite Ev.
    assert (Hcases : (v = 0 \/ v = 1 \/ v = 2 \/ v = 3 \/ v = 4 \/ v = 5
                      \/ v = 6 \/ v = 7 \/ v = 8 \/ v = 9)%N) by lia.
    repeat (destruct Hcases as [->|Hcases]); try subst v;
      cbn [numeral_digit];
      [exact (IH d' eq_refl)
      | unfold Z.of_uint; cbn [Pos.of_uint Z.of_N];
        exact (int_acc_numeral l d' _ El) ..].
Qed.

Lemma numeral_of_digits (l : list string) :
  forallb digit l = true -> exists d, numeral l = Some d.
Proof.
  induction l as [|ch l IH]; cbn [forallb numeral]; [eauto|].
  intros H. apply andb_true_iff in H as [Hch Hl].
  destruct (IH Hl) as [d ->]. unfold digit, isdecimal in Hch.
  destruct (decimal (ord ch)); [eauto | discriminate Hch].
Qed.

Lemma chars_digits (l : list string) :
  forallb digit l = true -> chars (text_of l) = l.
Proof.
  intros H. apply chars_text_of. apply Forall_forall. intros ch Hch.
  apply digit_wellformed. rewrite forallb_forall in H. now apply H.
Qed.

(** The integer a run of digits is read as. *)
Lemma int_of_run (run : list string) (d : Decimal.uint) :
  numeral run = Some d -> int (text_of run) = Z.of_uint d.
Proof.
  intros H. unfold int. rewrite chars_digits.
  - now apply int_acc_zero_numeral.
  - revert d H.
    induction run as [|ch run IH]; intros d H; [reflexivity|].
    cbn [numeral] in H. cbn [forallb]. unfold digit at 1, isdecimal.
    destruct (decimal (ord ch)); [|discriminate H].
    destruct (numeral run) as [d'|]; [|discriminate H].
    cbn [andb]. exact (IH d' eq_refl).
Qed.

End NumeralFacts.

Section IndexFacts.

Lemma valid_indices_filter (matches : list string) (n : Z) :
  valid_indices matches n
  = filter (fun idx => ((0 <=? idx) && (idx <? n))%bool)
      (map (fun m => int m - 1) matches).
Proof.
  induction matches as [|m rest IH]; simpl; [reflexivity|].
  destruct ((0 <=? int m - 1) && (int m - 1 <? n))%bool; now rewrite IH.
Qed.

Lemma number_words_values (s : string) :
  map int (number_words s) = whole_numbers s.
Proof.
  unfold number_words, whole_numbers. rewrite map_map.
  apply map_ext_in. intros run Hin. apply filter_In in Hin as [_ Hall].
  destruct (numeral_of_digits run Hall) as [d Hd].
  unfold value_of. rewrite Hd. now apply int_of_run.
Qed.

End IndexFacts.

(** C5 (as amended).  In index mode the service takes, from the stripped
    reply, every run of digits that stands as a whole word (a run next to a
    letter, to a number of another kind or to an underscore is not taken),
    reads each by the decimal values of its digits, makes it 0-based, drops
    those outside the sample, keeps the first [k], and falls back to the first
    [min(k, n)] products of the sample when nothing is left; the records of
    the products at these indices are returned in that order.  For the
    reply "3, 1, 99, 2", a sample of five and [k = 5], the indices are
    [2, 0, 1] and the records are those of the third, first and second
    products. *)
Theorem index_reply_resolution :
  forall (repr_other : json -> string) (exn_str : exn -> string)
         (random_sample : list json -> nat -> list json)
         (llm_invoke : string -> exc string)
         (products : list json) (products_text user_query reply : string)
         (k : Z),
    _format_for_llm repr_other
      (random_sample products (Nat.min 50 (length products))) 30
    = Ok products_text ->
    llm_invoke (api_prompt user_query k products_text) = Ok reply ->
    let sampled_products :=
      random_sample products (Nat.min 50 (length products)) in
    let n := Z.of_nat (length sampled_products) in
    let returned :=
      recommend_assessment_api_format repr_other exn_str (Ok products)
        random_sample llm_invoke user_query k in
    resolve_indices (strip reply) n k
    = match list_prefix
              (filter (fun idx => ((0 <=? idx) && (idx <? n))%bool)
                 (map (fun v => v - 1) (whole_numbers (strip reply)))) k
      with
      | [] => range (Z.min k n)
      | kept => kept
      end
    /\ (forall l,
          assessments_of sampled_products (resolve_indices (strip reply) n k)
          = Ok l ->
          returned = Ok (JObj [("recommended_assessments", JArr l)]))
    /\ (forall p1 p2 p3 p4 p5 a1 a2 a3,
          strip reply = "3, 1, 99, 2" -> k = 5 ->
          sampled_products = [p1; p2; p3; p4; p5] ->
          _extract_product_api_format p1 = Ok a1 ->
          _extract_product_api_format p2 = Ok a2 ->
          _extract_product_api_format p3 = Ok a3 ->
          resolve_indices (strip reply) n k = [2; 0; 1]
          /\ returned
             = Ok (JObj [("recommended_assessments", JArr [a3; a1; a2])])).
Proof.
  intros repr_other exn_str random_sample llm_invoke products products_text
    user_query reply k Hfmt Hllm sampled_products n returned.
  assert (Hret : forall l,
            assessments_of sampled_products (resolve_indices (strip reply) n k)
            = Ok l ->
            returned = Ok (JObj [("recommended_assessments", JArr l)])).
  { intros l Hl. unfold returned.
    rewrite (api_service_try _ _ _ _ _ _ _ _ Hfmt), Hllm. cbn [bind].
    unfold parse_api_reply. fold sampled_products. fold n.
    rewrite Hl. reflexivity. }
  split; [|split].
  - unfold resolve_indices. cbv zeta.
    rewrite findall_number_words, valid_indices_filter.
    rewrite <- number_words_values, map_map.
    now destruct (list_prefix _ k).
  - exact Hret.
  - intros p1 p2 p3 p4 p5 a1 a2 a3 Hreply -> Hsample H1 H2 H3.
    assert (Hidx : resolve_indices (strip reply) n 5 = [2; 0; 1]).
    { unfold n. rewrite Hreply, Hsample. vm_compute. reflexivity. }
    split; [exact Hidx|].
    apply Hret. rewrite Hidx, Hsample.
    rewrite !assessments_of_cons.
    change (list_index [p1; p2; p3; p4; p5] 2) with (Ok p3).
    change (list_index [p1; p2; p3; p4; p5] 0) with (Ok p1).
    change (list_index [p1; p2; p3; p4; p5] 1) with (Ok p2).
    cbn [bind]. rewrite H3, H1, H2. reflexivity.
Qed.

Lemma index_reply_resolution_witness :
  resolve_indices (strip "3, 1, 99, 2") 5 5 = [2; 0; 1]
  /\ exists a1 a2 a3,
       (_extract_product_api_format Sample.p1 = Ok a1
        /\ _extract_product_api_format Sample.p2 = Ok a2
        /\ _extract_product_api_format Sample.p3 = Ok a3)
       /\ recommend_assessment_api_format Sample.repr Sample.message
            (Ok Sample.catalog) Sample.first_n (Sample.says "3, 1, 99, 2")
            "Java developer, 30 minutes" 5
          = Ok (JObj [("recommended_assessments", JArr [a3; a1; a2])]).
Proof.
  pose proof (index_reply_resolution Sample.repr Sample.message Sample.first_n
                (Sample.says "3, 1, 99, 2") Sample.catalog
                (match _format_for_llm Sample.repr Sample.catalog 30 with
                 | Ok t => t
                 | Raise _ => EmptyString
                 end)
                "Java developer, 30 minutes" "3, 1, 99, 2" 5
                ltac:(vm_compute; reflexivity) eq_refl) as H.
  cbv zeta in H. destruct H as (_ & _ & H).
  assert (H1 : exists a, _extract_product_api_format Sample.p1 = Ok a)
    by (vm_compute; eexists; reflexivity).
  assert (H2 : exists a, _extract_product_api_format Sample.p2 = Ok a)
    by (vm_compute; eexists; reflexivity).
  assert (H3 : exists a, _extract_product_api_format Sample.p3 = Ok a)
    by (vm_compute; eexists; reflexivity).
  destruct H1 as [a1 H1], H2 as [a2 H2], H3 as [a3 H3].
  destruct (H Sample.p1 Sample.p2 Sample.p3 Sample.p4 Sample.p5 a1 a2 a3
              eq_refl eq_refl eq_refl H1 H2 H3) as [Hidx Hret].
  split; [exact Hidx|].
  exists a1, a2, a3. split; [auto | exact Hret].
Defined.

(** In the reply "2nd, 1" the run "2" is next to a letter: the service takes
    the index of "1" alone, where every run of digits would give two. *)
Lemma digits_next_to_a_letter_are_skipped :
  ~ (exists l,
       assessments_of Sample.catalog
         (indices_of_every_run (strip "2nd, 1") 5 5) = Ok l
       /\ recommend_assessment_api_format Sample.repr Sample.message
            (Ok Sample.catalog) Sample.first_n (Sample.says "2nd, 1")
            "Java developer, 30 minutes" 5
          = Ok (JObj [("recommended_assessments", JArr l)])).
Proof.
  intros (l & Hl & H). vm_compute in Hl. injection Hl as <-.
  vm_compute in H. discriminate H.
Qed.

(** A letter with an accent is a word character like any other: in the
    reply that starts with e acute, "2, 1", the run "2" is skipped. *)
Example accented_letter_is_a_word_character :
  resolve_indices (strip (Sample.e_acute ++ "2, 1")) 5 5 = [0].
Proof. vm_compute. reflexivity. Qed.

(** A digit of another script is read by its value, and white space that is
    not ASCII is stripped: the reply made of a no-break space, the
    ARABIC-INDIC digit four, a comma, a space and "1" gives the fourth and
    the first products. *)
Example digits_of_another_script_are_read :
  resolve_indices
    (strip (Sample.no_break_space ++ Sample.arabic_four ++ ", 1")) 5 5
  = [3; 0].
Proof. vm_compute. reflexivity. Qed.

(* ===================================================================== *)
(** * The properties of the formatter *)
(* ===================================================================== *)

Section DurationFacts.

Lemma search_none_iff (l : list string) :
  search_digits l = None <-> existsb digit l = false.
Proof.
  induction l as [|ch l IH]; cbn [search_digits existsb]; [tauto|].
  destruct (digit ch); cbn [orb]; [split; discriminate | exact IH].
Qed.

Lemma first_run_from (l cur : list string) :
  cur <> [] -> forallb digit cur = true ->
  exists run,
    hd_error (runs_from digit l cur) = Some run
    /\ forallb digit run = true
    /\ text_of run = text_of cur ++ leading_digits l.
Proof.
  revert cur. induction l as [|ch l IH]; intros cur Hne Hcur;
    cbn [runs_from leading_digits].
  - destruct cur; [congruence|]. eexists. cbn [hd_error].
    split; [reflexivity|]. split; [exact Hcur|]. now rewrite app_empty_r.
  - destruct (digit ch) eqn:Hd.
    + destruct (IH (cur ++ [ch])%list) as (run & Hrun & Hall & Htext).
      * apply snoc_not_nil.
      * now rewrite forallb_snoc, Hcur, Hd.
      * exists run. split; [exact Hrun|]. split; [exact Hall|].
        now rewrite Htext, text_of_snoc, app_assoc.
    + destruct cur; [congruence|]. eexists. cbn [hd_error].
      split; [reflexivity|]. split; [exact Hcur|]. now rewrite app_empty_r.
Qed.

(** The pattern of [_extract_duration] finds the first run of digits. *)
Lemma search_is_first_run (l : list string) :
  existsb digit l = true ->
  exists run,
    hd_error (runs_from digit l []) = Some run
    /\ forallb digit run = true
    /\ search_digits l = Some (text_of run).
Proof.
  induction l as [|ch l IH]; cbn [existsb]; [discriminate|].
  cbn [search_digits runs_from leading_digits].
  destruct (digit ch) eqn:Hd; cbn [orb]; [intros _ | exact IH].
  destruct (first_run_from l [ch]) as (run & Hrun & Hall & Htext).
  - discriminate.
  - cbn [forallb]. now rewrite Hd.
  - exists run. split; [exact Hrun|]. split; [exact Hall|].
    rewrite Htext. cbn [text_of app]. now rewrite app_empty_r.
Qed.

Lemma no_digit_no_run (l : list string) :
  existsb digit l = false -> runs_from digit l [] = [].
Proof.
  induction l as [|ch l IH]; cbn [existsb runs_from]; [reflexivity|].
  destruct (digit ch); cbn [orb]; [discriminate | exact IH].
Qed.

Lemma duration_of_sections_step (heading text : string) (rest : list json) :
  duration_of_sections (section_dict (heading, text) :: rest)
  = if String.eqb heading "Assessment length"
    then match re_search_digits text with
         | Some digits => Ok (int digits)
         | None => duration_of_sections rest
         end
    else duration_of_sections rest.
Proof. reflexivity. Qed.

(** The loop over sections as the harvester writes them: the first section
    that gives a length decides, and 60 is returned when there is none. *)
Lemma duration_of_sections_dicts (sections : list (string * string)) :
  duration_of_sections (map section_dict sections)
  = Ok match List.find gives_length sections with
       | Some (_, text) =>
           match first_number text with
           | Some n => n
           | None => 60
           end
       | None => 60
       end.
Proof.
  induction sections as [|[heading text] rest IH]; [reflexivity|].
  cbn [map List.find]. rewrite duration_of_sections_step.
  unfold gives_length. cbn [fst snd].
  destruct (String.eqb heading "Assessment length"); cbn [andb]; [|exact IH].
  unfold re_search_digits, first_number, runs.
  destruct (existsb digit (chars text)) eqn:E.
  - destruct (search_is_first_run _ E) as (run & -> & Hall & ->).
    destruct (numeral_of_digits run Hall) as [d Hnum].
    rewrite Hnum. cbn [option_map]. now rewrite (int_of_run run d Hnum).
  - rewrite (proj2 (search_none_iff _) E). exact IH.
Qed.

End DurationFacts.



(* ===================================================================== *)
(** * The properties of the harvester *)
(* ===================================================================== *)

Section HarvesterFacts.

Variable exn_str : exn -> string.
Variable requests_get : string -> list (string * json) -> exc response.
Variable BeautifulSoup : string -> exc Soup.node.

(** A detail page that answers gives its description and its sections,
    whatever the status of the response. *)
Lemma fetch_details_answer (link : string) (res : response) (soup : Soup.node) :
  requests_get link [] = Ok res ->
  BeautifulSoup (text res) = Ok soup ->
  fetch_details requests_get BeautifulSoup link
  = (description <- page_description soup ;;
     Ok (JObj [("description", JStr description);
               ("sections", JArr (page_sections soup))]))%exc.
Proof.
  intros Hget Hsoup. unfold Scraper.fetch_details.
  rewrite Hget. cbn [bind]. rewrite Hsoup. reflexivity.
Qed.

Lemma fetch_details_shape (link : string) (v : json) :
  fetch_details requests_get BeautifulSoup link = Ok v ->
  exists description sections,
    v = JObj [("description", JStr description); ("sections", JArr sections)].
Proof.
  unfold Scraper.fetch_details. intros H.
  destruct (requests_get link []) as [res|]; cbn [bind] in H; [|discriminate].
  destruct (BeautifulSoup (text res)) as [soup|]; cbn [bind] in H;
    [|discriminate].
  match type of H with
  | bind ?m _ = _ => destruct m as [description|]; cbn [bind] in H;
                     [|discriminate]
  end.
  injection H as <-. eauto.
Qed.

(** What [extract_details_from_link] returns always has a description and a
    list of sections; when the fetch raises they are empty and an error note
    comes with them. *)
Lemma extract_details_fields (link : string) :
  exists description sections,
    get (extract_details_from_link exn_str requests_get BeautifulSoup link) "description" (JStr EmptyString)
    = Ok (JStr description)
    /\ get (extract_details_from_link exn_str requests_get BeautifulSoup link) "sections" (JArr [])
       = Ok (JArr sections)
    /\ (forall e, fetch_details requests_get BeautifulSoup link = Raise e ->
          description = EmptyString /\ sections = []
          /\ extract_details_from_link exn_str requests_get BeautifulSoup link
             = JObj [("description", JStr EmptyString);
                     ("sections", JArr []);
                     ("error", JStr (exn_str e))])
    /\ (forall v, fetch_details requests_get BeautifulSoup link = Ok v ->
          v = JObj [("description", JStr description);
                    ("sections", JArr sections)]).
Proof.
  unfold Scraper.extract_details_from_link.
  destruct (fetch_details requests_get BeautifulSoup link) as [v|e] eqn:E;
    cbn [try_except].
  - destruct (fetch_details_shape _ _ E) as (d & secs & ->).
    exists d, secs.
    split; [reflexivity|]. split; [reflexivity|].
    split; [discriminate|].
    intros v Hv. now injection Hv as <-.
  - exists EmptyString, [].
    split; [reflexivity|]. split; [reflexivity|].
    split; [|discriminate].
    intros e' He'. injection He' as <-. auto.
Qed.

(** A row with its title anchor, the link of the anchor and three general
    cells is emitted, whatever the detail page does. *)
Lemma parse_product_row_emits (row : Soup.node) (product_type : string)
  (job_family job_level industry job_category : json)
  (link_tag : Soup.node) (href : string)
  (column0 column1 column2 : Soup.node) (more : list Soup.node) :
  title_anchor row = Some link_tag ->
  Soup.attr link_tag "href" = Ok href ->
  general_columns row = column0 :: column1 :: column2 :: more ->
  exists description sections,
    get (extract_details_from_link exn_str requests_get BeautifulSoup (get_full_url (strip href)))
      "description" (JStr EmptyString) = Ok description
    /\ get (extract_details_from_link exn_str requests_get BeautifulSoup (get_full_url (strip href)))
         "sections" (JArr []) = Ok sections
    /\ parse_product_row exn_str requests_get BeautifulSoup row product_type
         job_family job_level industry job_category
       = Ok (Some (record_of product_type link_tag href
                     column0 column1 column2 description sections
                     job_family job_level industry job_category)).
Proof.
  intros Hanchor Hhref Hcols.
  destruct (extract_details_fields (get_full_url (strip href)))
    as (d & secs & Hd & Hs & _).
  exists (JStr d), (JArr secs). split; [exact Hd|]. split; [exact Hs|].
  unfold Scraper.parse_product_row. unfold title_anchor in Hanchor.
  destruct (Soup.find row _) as [title_td|]; [|discriminate].
  rewrite Hanchor, Hhref. cbn [bind].
  unfold general_columns in Hcols. rewrite Hcols.
  change (list_index (column0 :: column1 :: column2 :: more) 0)
    with (Ok column0).
  change (list_index (column0 :: column1 :: column2 :: more) 1)
    with (Ok column1).
  change (list_index (column0 :: column1 :: column2 :: more) 2)
    with (Ok column2).
  cbn [bind]. rewrite Hd. cbn [bind]. rewrite Hs. reflexivity.
Qed.

Lemma list_index_three {A : Type} (l : list A) (a b c : A) :
  list_index l 0 = Ok a -> list_index l 1 = Ok b -> list_index l 2 = Ok c ->
  exists more, l = a :: b :: c :: more.
Proof.
  destruct l as [|x [|y [|z more]]]; try discriminate.
  intros Ha Hb Hc. exists more.
  injection Ha as ->. injection Hb as ->. injection Hc as ->. reflexivity.
Qed.

(** An emitted record comes from a row with its title anchor, the link of
    the anchor and three general cells. *)
Lemma parse_product_row_emitted (row : Soup.node) (product_type : string)
  (job_family job_level industry job_category product : json) :
  parse_product_row exn_str requests_get BeautifulSoup row product_type job_family job_level industry job_category
  = Ok (Some product) ->
  exists link_tag href column0 column1 column2 more description sections,
    title_anchor row = Some link_tag
    /\ Soup.attr link_tag "href" = Ok href
    /\ general_columns row = column0 :: column1 :: column2 :: more
    /\ product = record_of product_type link_tag href
                   column0 column1 column2 description sections
                   job_family job_level industry job_category.
Proof.
  unfold Scraper.parse_product_row, title_anchor, general_columns.
  destruct (Soup.find row _) as [title_td|]; [|discriminate].
  destruct (Soup.find title_td _) as [link_tag|]; [|discriminate].
  intros H.
  destruct (Soup.attr link_tag "href") as [href|] eqn:Hhref; cbn [bind] in H;
    [|discriminate].
  destruct (list_index _ 0) as [c0|] eqn:H0; cbn [bind] in H; [|discriminate].
  destruct (list_index _ 1) as [c1|] eqn:H1; cbn [bind] in H; [|discriminate].
  destruct (list_index _ 2) as [c2|] eqn:H2; cbn [bind] in H; [|discriminate].
  destruct (get _ "description" _) as [d|]; cbn [bind] in H; [|discriminate].
  destruct (get _ "sections" _) as [secs|]; cbn [bind] in H; [|discriminate].
  injection H as <-.
  destruct (list_index_three _ _ _ _ H0 H1 H2) as [more Hcols].
  exists link_tag, href, c0, c1, c2, more, d, secs. auto.
Qed.

(** No record is returned exactly when the title cell or its anchor is
    missing. *)
Lemma parse_product_row_skips (row : Soup.node) (product_type : string)
  (job_family job_level industry job_category : json) :
  parse_product_row exn_str requests_get BeautifulSoup row product_type job_family job_level industry job_category
  = Ok None
  <-> title_anchor row = None.
Proof.
  unfold Scraper.parse_product_row, title_anchor.
  destruct (Soup.find row _) as [title_td|]; [|tauto].
  destruct (Soup.find title_td _) as [link_tag|]; [|tauto].
  split; [|discriminate]. intros H. exfalso.
  destruct (Soup.attr link_tag "href"); cbn [bind] in H; [|discriminate].
  destruct (list_index _ 0); cbn [bind] in H; [|discriminate].
  destruct (list_index _ 1); cbn [bind] in H; [|discriminate].
  destruct (list_index _ 2); cbn [bind] in H; [|discriminate].
  destruct (get _ "description" _); cbn [bind] in H; [|discriminate].
  destruct (get _ "sections" _); cbn [bind] in H; discriminate.
Qed.

(** In the loop over the rows of a page, a row without its title anchor is
    passed over. *)
Lemma parse_rows_skips (row : Soup.node) (rest : list Soup.node)
  (job_family job_level industry job_category : json) :
  title_anchor row = None ->
  parse_rows exn_str requests_get BeautifulSoup (row :: rest)
    job_family job_level industry job_category
  = parse_rows exn_str requests_get BeautifulSoup rest
      job_family job_level industry job_category.
Proof.
  intros Hnone. cbn [parse_rows].
  rewrite (proj2 (parse_product_row_skips row (product_type_of row)
                    job_family job_level industry job_category) Hnone).
  cbn [bind]. now destruct (parse_rows _ _ _ rest _ _ _ _).
Qed.

(** The sections read on a page: one for each heading followed by a
    paragraph, in the order of the page, with the two texts without the
    white space around them. *)
Lemma sections_of_trimmings (headings : list (Soup.node * list Soup.node)) :
  exists pairs,
    sections_of headings = map section_dict pairs
    /\ Forall2 (fun raw p => trimming (fst raw) (fst p)
                             /\ trimming (snd raw) (snd p))
         (headed_texts headings) pairs.
Proof.
  induction headings as [|[h4_tag siblings] rest (pairs & Heq & Hall)].
  - exists []. split; [reflexivity | constructor].
  - cbn [sections_of headed_texts].
    destruct (hd_error (filter (Soup.is_tag "p") siblings)) as [next_p|].
    + exists ((strip (Soup.get_text h4_tag), strip (Soup.get_text next_p))
              :: pairs).
      split; [cbn [map]; now rewrite Heq|].
      constructor; [|exact Hall].
      cbn [fst snd]. split; apply strip_trimming.
    + now exists pairs.
Qed.

End HarvesterFacts.

(** C8 (as amended).  A row yields no record, without raising, exactly when
    its title cell or the anchor of that cell is missing, and the loop over
    the rows of the page passes over it.  Every emitted record carries, as
    its Name, the text of the anchor without the white space around it
    (which may leave nothing) and, as its Link, the [href] of the anchor
    without the white space around it: prefixed with the address of the
    site, hence absolute, when it starts with a slash, and left as it is
    otherwise. *)
Theorem emitted_rows_have_name_and_link :
  forall (exn_str : exn -> string)
         (requests_get : string -> list (string * json) -> exc response)
         (BeautifulSoup : string -> exc Soup.node)
         (row : Soup.node) (product_type : string)
         (job_family job_level industry job_category : json),
    let parsed :=
      parse_product_row exn_str requests_get BeautifulSoup row product_type
        job_family job_level industry job_category in
    (parsed = Ok None <-> title_anchor row = None)
    /\ (title_anchor row = None ->
        forall rest,
          parse_rows exn_str requests_get BeautifulSoup (row :: rest)
            job_family job_level industry job_category
          = parse_rows exn_str requests_get BeautifulSoup rest
              job_family job_level industry job_category)
    /\ (forall product,
          parsed = Ok (Some product) ->
          exists link_tag href,
            title_anchor row = Some link_tag
            /\ Soup.attr link_tag "href" = Ok href
            /\ field "Name" product = JStr (strip (Soup.get_text link_tag))
            /\ trimming (Soup.get_text link_tag)
                 (strip (Soup.get_text link_tag))
            /\ field "Link" product = JStr (get_full_url (strip href))
            /\ trimming href (strip href)
            /\ (startswith (strip href) "/" = true ->
                get_full_url (strip href) = "https://www.shl.com" ++ strip href
                /\ absolute_url (get_full_url (strip href)) = true)
            /\ (startswith (strip href) "/" = false ->
                get_full_url (strip href) = strip href)).
Proof.
  intros exn_str requests_get BeautifulSoup row product_type
    job_family job_level industry job_category parsed.
  split; [apply parse_product_row_skips|].
  split; [intros Hnone rest; now apply parse_rows_skips|].
  intros product H.
  destruct (parse_product_row_emitted _ _ _ _ _ _ _ _ _ _ H)
    as (link_tag & href & c0 & c1 & c2 & more & d & secs
        & Hanchor & Hhref & _ & ->).
  exists link_tag, href.
  split; [exact Hanchor|]. split; [exact Hhref|].
  split; [reflexivity|]. split; [apply strip_trimming|].
  split; [reflexivity|]. split; [apply strip_trimming|].
  unfold get_full_url. split; intros Hs; rewrite Hs; [|reflexivity].
  split; reflexivity.
Qed.

Lemma emitted_rows_have_name_and_link_witness :
  exists product,
    parse_product_row Sample.message Sample.online Sample.parser
      Sample.padded_row "Individual" JNull JNull JNull (JInt 3)
    = Ok (Some product)
    /\ field "Name" product = JStr "Java 8 (New)"
    /\ field "Link" product
       = JStr "https://www.shl.com/products/product-catalog/view/java-8-new/".
Proof.
  eexists. split; [vm_compute; reflexivity|].
  destruct (proj2 (proj2 (emitted_rows_have_name_and_link Sample.message
                            Sample.online Sample.parser Sample.padded_row
                            "Individual" JNull JNull JNull (JInt 3)))
              _ eq_refl)
    as (link_tag & href & Hanchor & Hhref & Hname & _ & Hlink & _).
  vm_compute in Hanchor. injection Hanchor as <-.
  vm_compute in Hhref. injection Hhref as <-.
  vm_compute in Hname. vm_compute in Hlink.
  split; vm_compute; [exact Hname | exact Hlink].
Defined.

(** A row whose link is "view/java-8-new/" is emitted with that link, which
    is not an absolute address. *)
Lemma relative_link_is_emitted_as_it_is :
  ~ (forall product,
       parse_product_row Sample.message Sample.online Sample.parser
         Sample.relative_row "Individual" JNull JNull JNull (JInt 3)
       = Ok (Some product) ->
       exists name link,
         field "Name" product = JStr name
         /\ field "Link" product = JStr link
         /\ absolute_url link = true).
Proof.
  intros H.
  destruct (H _ eq_refl) as (name & link & _ & Hlink & Habs).
  vm_compute in Hlink. injection Hlink as <-.
  vm_compute in Habs. discriminate Habs.
Qed.

(** C9 (as amended).  A row with its title anchor, the link of the anchor
    and three general cells is emitted whatever the fetch of its detail page
    does.  When the fetch raises (time-out, connection error, parse error),
    the emitted record has an empty description and an empty list of
    sections; the error note is attached to the result of
    [extract_details_from_link] and is not copied into the emitted record.
    A response with any status, 200 or not, is not a failure: the
    description and the sections are read from its markup, one section for
    each heading followed by a paragraph, with the two texts without the
    white space around them. *)
Theorem detail_failure_keeps_the_row :
  forall (exn_str : exn -> string)
         (requests_get : string -> list (string * json) -> exc response)
         (BeautifulSoup : string -> exc Soup.node)
         (row : Soup.node) (product_type : string)
         (job_family job_level industry job_category : json)
         (link_tag : Soup.node) (href : string)
         (column0 column1 column2 : Soup.node) (more : list Soup.node),
    title_anchor row = Some link_tag ->
    Soup.attr link_tag "href" = Ok href ->
    general_columns row = column0 :: column1 :: column2 :: more ->
    let link := get_full_url (strip href) in
    let parsed :=
      parse_product_row exn_str requests_get BeautifulSoup row product_type
        job_family job_level industry job_category in
    (exists product, parsed = Ok (Some product))
    /\ (forall e,
          fetch_details requests_get BeautifulSoup link = Raise e ->
          exists product,
            parsed = Ok (Some (JObj product))
            /\ lookup "Description" product = Some (JStr EmptyString)
            /\ lookup "Sections" product = Some (JArr [])
            /\ lookup "error" product = None
            /\ field "error"
                 (extract_details_from_link exn_str requests_get BeautifulSoup
                    link)
               = JStr (exn_str e))
    /\ (forall res soup description,
          requests_get link [] = Ok res ->
          BeautifulSoup (text res) = Ok soup ->
          page_description soup = Ok description ->
          exists product pairs,
            parsed = Ok (Some (JObj product))
            /\ lookup "Description" product = Some (JStr description)
            /\ lookup "Sections" product = Some (JArr (page_sections soup))
            /\ page_sections soup = map section_dict pairs
            /\ Forall2 (fun raw p => trimming (fst raw) (fst p)
                                    /\ trimming (snd raw) (snd p))
                 (page_headings soup) pairs).
Proof.
  intros exn_str requests_get BeautifulSoup row product_type
    job_family job_level industry job_category link_tag href
    column0 column1 column2 more Hanchor Hhref Hcols link parsed.
  destruct (parse_product_row_emits exn_str requests_get BeautifulSoup
              row product_type job_family job_level industry job_category
              link_tag href column0 column1 column2 more Hanchor Hhref Hcols)
    as (d & secs & Hd & Hs & Hparsed).
  fold link in Hd, Hs. fold parsed in Hparsed.
  destruct (extract_details_fields exn_str requests_get BeautifulSoup link)
    as (d' & secs' & Hd' & Hs' & Hraise & Hok).
  rewrite Hd in Hd'. injection Hd' as ->.
  rewrite Hs in Hs'. injection Hs' as ->.
  split; [eauto|]. split.
  - intros e He. destruct (Hraise e He) as (-> & -> & Hdetail).
    eexists. split; [exact Hparsed|].
    repeat split. rewrite Hdetail. reflexivity.
  - intros res soup description Hget Hsoup Hdesc.
    pose proof (fetch_details_answer requests_get BeautifulSoup
                  link res soup Hget Hsoup) as Hfetch.
    rewrite Hdesc in Hfetch. cbn [bind] in Hfetch.
    pose proof (Hok _ Hfetch) as Heq. injection Heq as <- <-.
    destruct (sections_of_trimmings
                (filter (fun x => Soup.is_tag "h4" (fst x)) (Soup.below soup)))
      as (pairs & Hpairs & Htrim).
    eexists. exists pairs. split; [exact Hparsed|].
    split; [reflexivity|]. split; [reflexivity|].
    split; [exact Hpairs | exact Htrim].
Qed.

Lemma detail_failure_keeps_the_row_witness :
  (exists product,
     parse_product_row Sample.message Sample.timed_out Sample.parser
       Sample.java_row "Individual" JNull JNull JNull (JInt 3)
     = Ok (Some (JObj product))
     /\ lookup "Description" product = Some (JStr EmptyString)
     /\ lookup "Sections" product = Some (JArr [])
     /\ lookup "error" product = None)
  /\ (exists product,
        parse_product_row Sample.message Sample.online Sample.padded_parser
          Sample.padded_row "Individual" JNull JNull JNull (JInt 3)
        = Ok (Some (JObj product))
        /\ lookup "Sections" product
           = Some (JArr [section_dict
                           ("Assessment length",
                            Sample.arabic_four ++ Sample.arabic_five
                            ++ " minutes")])).
Proof.
  split.
  - destruct (detail_failure_keeps_the_row Sample.message Sample.timed_out
                Sample.parser Sample.java_row "Individual"
                JNull JNull JNull (JInt 3)
                (Soup.Tag "a" []
                   [("href", "/products/product-catalog/view/java-8-new/")]
                   [Soup.Text " Java 8 (New) "])
                "/products/product-catalog/view/java-8-new/"
                (Sample.general_cell true) (Sample.general_cell true)
                (Sample.keys_cell ["K"]) []
                eq_refl eq_refl eq_refl)
      as (_ & Hraise & _).
    destruct (Hraise (External "Read timed out. (read timeout=10)") eq_refl)
      as (product & Hparsed & Hd & Hs & He & _).
    exists product. auto.
  - destruct (detail_failure_keeps_the_row Sample.message Sample.online
                Sample.padded_parser Sample.padded_row "Individual"
                JNull JNull JNull (JInt 3)
                (Soup.Tag "a" []
                   [("href",
                     Sample.no_break_space
                     ++ "/products/product-catalog/view/java-8-new/"
                     ++ Sample.next_line)]
                   [Soup.Text (Sample.em_space ++ "Java 8 (New)"
                               ++ Sample.no_break_space)])
                (Sample.no_break_space
                 ++ "/products/product-catalog/view/java-8-new/"
                 ++ Sample.next_line)
                (Sample.general_cell true) (Sample.general_cell true)
                (Sample.keys_cell
                   [Sample.no_break_space ++ "K" ++ Sample.em_space]) []
                eq_refl eq_refl eq_refl)
      as (_ & _ & Hpage).
    destruct (Hpage {| status_code := 200; text := "<html>detail</html>" |}
                Sample.padded_page EmptyString eq_refl eq_refl eq_refl)
      as (product & pairs & Hparsed & _ & Hsections & _).
    exists product. split; [exact Hparsed|].
    rewrite Hsections. vm_compute. reflexivity.
Defined.

(** The detail page times out: the emitted record has no error note. *)
Lemma emitted_record_has_no_error_note :
  ~ (exists product,
       parse_product_row Sample.message Sample.timed_out Sample.parser
         Sample.java_row "Individual" JNull JNull JNull (JInt 3)
       = Ok (Some (JObj product))
       /\ lookup "Description" product = Some (JStr EmptyString)
       /\ lookup "Sections" product = Some (JArr [])
       /\ lookup "error" product <> None).
Proof.
  intros (product & H & _ & _ & Herr). vm_compute in H.
  injection H as <-. apply Herr. reflexivity.
Qed.

(** C1 (the code at a failing input).  The row of "Java 8 (New)" has both
    flags set; the harvester writes them as check marks, the service
    compares them with "Yes", and the record in the shape of the API says
    "No" for both. *)
Theorem harvested_flags_read_as_no :
  exists product record,
    parse_product_row Sample.message Sample.online Sample.parser
      Sample.java_row "Individual" JNull JNull JNull (JInt 3)
    = Ok (Some product)
    /\ has_yes (Sample.general_cell true) = true
    /\ field "Remote Testing" product = JStr (tick true)
    /\ field "Adaptive" product = JStr (tick true)
    /\ recommend_assessment_api_format Sample.repr Sample.message
         (Ok [product]) Sample.first_n (Sample.says "1")
         "Java developer, 30 minutes" 5
       = Ok (JObj [("recommended_assessments", JArr [record])])
    /\ _extract_product_api_format product = Ok record
    /\ field "adaptive_support" record = JStr "No"
    /\ field "remote_support" record = JStr "No".
Proof.
  eexists. eexists.
  split; [vm_compute; reflexivity|].
  split; [reflexivity|].
  split; [reflexivity|].
  split; [reflexivity|].
  split; [vm_compute; reflexivity|].
  split; [vm_compute; reflexivity|].
  split; reflexivity.
Qed.

(** The same holds of every record the harvester emits: whatever the flags
    of the row, the record in the shape of the API says "No" for both. *)
Lemma emitted_flags_never_read_as_yes :
  forall (exn_str : exn -> string)
         (requests_get : string -> list (string * json) -> exc response)
         (BeautifulSoup : string -> exc Soup.node)
         (row : Soup.node) (product_type : string)
         (job_family job_level industry job_category product record : json),
    parse_product_row exn_str requests_get BeautifulSoup row product_type
      job_family job_level industry job_category
    = Ok (Some product) ->
    _extract_product_api_format product = Ok record ->
    field "adaptive_support" record = JStr "No"
    /\ field "remote_support" record = JStr "No".
Proof.
  intros exn_str requests_get BeautifulSoup row product_type
    job_family job_level industry job_category product record Hrow Hrec.
  destruct (parse_product_row_emitted _ _ _ _ _ _ _ _ _ _ Hrow)
    as (link_tag & href & c0 & c1 & c2 & more & d & secs & _ & _ & _ & ->).
  unfold _extract_product_api_format, record_of in Hrec.
  cbn [get lookup bind] in Hrec.
  repeat match type of Hrec with
         | context [String.eqb ?a ?b] =>
             let v := eval vm_compute in (String.eqb a b) in
             change (String.eqb a b) with v in Hrec; cbv iota in Hrec
         end.
  cbn [bind] in Hrec.
  destruct (_extract_duration _) as [duration|]; cbn [bind] in Hrec;
    [|discriminate].
  destruct (_extract_test_types _) as [types|]; cbn [bind] in Hrec;
    [|discriminate].
  injection Hrec as <-.
  destruct (has_yes c0), (has_yes c1); split; reflexivity.
Qed.

(** A detail page answered with status 404: its markup is read like any
    other. *)
Example not_found_page_is_harvested :
  exists product,
    parse_product_row Sample.message Sample.missing Sample.parser
      Sample.java_row "Individual" JNull JNull JNull (JInt 3)
    = Ok (Some (JObj product))
    /\ lookup "Description" product = Some (JStr "Page not found")
    /\ lookup "Sections" product
       = Some (JArr [section_dict ("Sorry", "Nothing here")]).
Proof. eexists. split; [vm_compute; reflexivity|]. split; reflexivity. Qed.

(** White space that is not ASCII is stripped like any other, and digits of
    another script are digits: the row and the page padded with no-break
    spaces, em spaces and NEL give a record whose section is headed
    "Assessment length", and its length, written with the ARABIC-INDIC
    digits four and five, is read as 45. *)
Example padded_page_is_harvested :
  exists product,
    parse_product_row Sample.message Sample.online Sample.padded_parser
      Sample.padded_row "Individual" JNull JNull JNull (JInt 3)
    = Ok (Some product)
    /\ field "Name" product = JStr "Java 8 (New)"
    /\ field "Sections" product
       = JArr [section_dict
                 ("Assessment length",
                  Sample.arabic_four ++ Sample.arabic_five ++ " minutes")]
    /\ _extract_duration product = Ok 45.
Proof.
  eexists. split; [vm_compute; reflexivity|].
  repeat split; vm_compute; reflexivity.
Qed.

(* ===================================================================== *)
(** * Further properties of the recommendation service *)
(* ===================================================================== *)

Import MoreProps.

Section DecimalFacts.

Lemma digits_of_uint (d : Decimal.uint) :
  all_chars is_digit (NilEmpty.string_of_uint d) = true.
Proof. induction d; simpl; auto. Qed.

(** The characters of a numeral in ASCII digits write that numeral. *)
Lemma numeral_of_uint (d : Decimal.uint) :
  numeral (chars (NilEmpty.string_of_uint d)) = Some d.
Proof.
  induction d; cbn [NilEmpty.string_of_uint]; [reflexivity | ..];
    match goal with
    | |- context [String ?c (NilEmpty.string_of_uint ?d)] =>
        change (String c (NilEmpty.string_of_uint d))
          with (String c EmptyString ++ NilEmpty.string_of_uint d);
        rewrite (chars_wellformed (String c EmptyString)) by reflexivity
    end;
    cbn [numeral];
    match goal with
    | |- context [decimal (ord ?ch)] =>
        let v := eval vm_compute in (decimal (ord ch)) in
        change (decimal (ord ch)) with v
    end;
    rewrite IHd; reflexivity.
Qed.

Lemma numeral_digits (l : list string) (d : Decimal.uint) :
  numeral l = Some d -> forallb digit l = true.
Proof.
  revert d. induction l as [|ch l IH]; intros d H; [reflexivity|].
  cbn [numeral] in H. cbn [forallb]. unfold digit at 1, isdecimal.
  destruct (decimal (ord ch)); [|discriminate H].
  destruct (numeral l) as [d'|]; [|discriminate H].
  cbn [andb]. exact (IH d' eq_refl).
Qed.

Lemma str_of_int_pos (p : positive) :
  str_of_int (Z.pos p) = NilEmpty.string_of_uint (Pos.to_uint p).
Proof.
  unfold str_of_int. cbn [Z.to_int NilZero.string_of_int].
  unfold NilZero.string_of_uint.
  pose proof (Unsigned.to_uint_nonnil p) as Hnn.
  destruct (Pos.to_uint p); [congruence | reflexivity ..].
Qed.

(** [int(str(n)) == n] for a natural number. *)
Lemma int_str_of_int (n : Z) : 0 <= n -> int (str_of_int n) = n.
Proof.
  intros Hn. destruct n as [|p|p]; [reflexivity | | lia].
  rewrite str_of_int_pos. unfold int.
  rewrite (int_acc_zero_numeral _ _ (numeral_of_uint (Pos.to_uint p))).
  unfold Z.of_uint. now rewrite DecimalPos.Unsigned.of_to.
Qed.

(** [str(n)] of a natural number is a non-empty run of digits. *)
Lemma str_of_int_digits (n : Z) :
  0 <= n ->
  forallb digit (chars (str_of_int n)) = true /\ str_of_int n <> EmptyString.
Proof.
  intros Hn. destruct n as [|p|p]; [split; [reflexivity|discriminate] | | lia].
  rewrite str_of_int_pos.
  split; [exact (numeral_digits _ _ (numeral_of_uint (Pos.to_uint p)))|].
  pose proof (Unsigned.to_uint_nonnil p) as Hnn.
  destruct (Pos.to_uint p); [congruence | discriminate ..].
Qed.

End DecimalFacts.

Section IndexProtocol.

Lemma run_ignores_prev (l : list string) (cur : string) (p q : bool) :
  findall_scan l p (Some cur) = findall_scan l q (Some cur).
Proof. destruct l; reflexivity. Qed.

Lemma scan_through_digits (ds rest : list string) (cur : string)
  (prev : bool) :
  forallb digit ds = true ->
  findall_scan (ds ++ rest) prev (Some cur)
  = findall_scan rest true (Some (cur ++ text_of ds)).
Proof.
  revert cur prev. induction ds as [|ch ds IH]; intros cur prev Hds.
  - cbn [app text_of]. rewrite app_empty_r. apply run_ignores_prev.
  - cbn [forallb] in Hds. apply andb_true_iff in Hds as [Hc Hds].
    cbn [app findall_scan text_of]. rewrite Hc, IH by exact Hds.
    now rewrite app_assoc.
Qed.

Lemma scan_number (ds rest : list string) :
  forallb digit ds = true -> ds <> [] ->
  findall_scan (ds ++ rest) false None
  = findall_scan rest true (Some (text_of ds)).
Proof.
  intros Hds Hne. destruct ds as [|ch ds]; [congruence|].
  cbn [forallb] in Hds. apply andb_true_iff in Hds as [Hc Hds].
  cbn [app findall_scan text_of]. rewrite Hc.
  now rewrite scan_through_digits by exact Hds.
Qed.

Lemma chars_not_nil (s : string) : s <> EmptyString -> chars s <> [].
Proof.
  intros Hne H. apply Hne. rewrite <- (text_of_chars s), H. reflexivity.
Qed.

(** Numerals separated by a comma and a space are matched one by one. *)
Lemma findall_joined_numbers (numerals : list string) :
  Forall (fun ds => forallb digit (chars ds) = true /\ ds <> EmptyString)
    numerals ->
  re_findall_word_digits (join ", " numerals) = numerals.
Proof.
  unfold re_findall_word_digits.
  induction numerals as [|x rest IH]; intros Hall; [reflexivity|].
  inversion Hall as [|? ? [Hx Hne] Hrest]; subst.
  destruct rest as [|y rest].
  - cbn [join]. rewrite <- (app_nil_r (chars x)).
    rewrite scan_number by (auto using chars_not_nil).
    cbn [findall_scan]. now rewrite text_of_chars.
  - change (join ", " (x :: y :: rest))
      with (x ++ "," ++ " " ++ join ", " (y :: rest)).
    rewrite (chars_app_wellformed x ",") by reflexivity.
    rewrite (chars_wellformed " ") by reflexivity.
    rewrite scan_number by (auto using chars_not_nil).
    cbn [findall_scan].
    change (digit ",") with false. change (word ",") with false.
    change (digit " ") with false. change (word " ") with false.
    cbv iota. rewrite text_of_chars. f_equal. now apply IH.
Qed.

Lemma valid_indices_of_numerals (indices : list Z) (n : Z) :
  Forall (fun idx => 0 <= idx < n) indices ->
  valid_indices (map (fun idx => str_of_int (idx + 1)) indices) n = indices.
Proof.
  induction indices as [|idx rest IH]; intros Hall; [reflexivity|].
  inversion Hall as [|? ? Hidx Hrest]; subst.
  cbn [map valid_indices]. rewrite int_str_of_int by lia.
  replace (idx + 1 - 1) with idx by lia.
  destruct (Z.leb_spec 0 idx); [|lia].
  destruct (Z.ltb_spec idx n); [|lia].
  cbn [andb]. now rewrite IH.
Qed.

Lemma forall_firstn {A : Type} (P : A -> Prop) (l : list A) (m : nat) :
  Forall P l -> Forall P (firstn m l).
Proof.
  revert m. induction l as [|a l IH]; intros m H; destruct m; simpl;
    try constructor.
  - now inversion H.
  - apply IH. now inversion H.
Qed.

Lemma forall_list_prefix {A : Type} (P : A -> Prop) (l : list A) (k : Z) :
  Forall P l -> Forall P (list_prefix l k).
Proof.
  intros H. unfold list_prefix. destruct (k <? 0); now apply forall_firstn.
Qed.

Lemma range_bounds (m : Z) : Forall (fun idx => 0 <= idx < m) (range m).
Proof.
  unfold range. apply Forall_forall. intros x Hx.
  apply in_map_iff in Hx as (i & <- & Hi). apply in_seq in Hi. lia.
Qed.

(** Every index the service resolves lies in the sample, for every reply
    and every [k]. *)
Lemma resolve_indices_in_sample (response_text : string) (n k : Z) :
  Forall (fun idx => 0 <= idx < n) (resolve_indices response_text n k).
Proof.
  unfold resolve_indices. cbv zeta.
  pose proof (forall_list_prefix _ _ k
                (valid_indices_in_range
                   (re_findall_word_digits response_text) n)) as Hkept.
  destruct (list_prefix _ k) as [|i rest]; [|exact Hkept].
  eapply Forall_impl; [|apply range_bounds]. simpl. lia.
Qed.

Lemma list_index_in_range {A : Type} (l : list A) (idx : Z) :
  0 <= idx < Z.of_nat (length l) ->
  exists a, list_index l idx = Ok a /\ In a l.
Proof.
  intros H. unfold list_index.
  destruct (Z.ltb_spec idx 0); [lia|].
  destruct (Z.ltb_spec idx 0); [lia|].
  destruct (nth_error l (Z.to_nat idx)) as [a|] eqn:E.
  - exists a. split; [reflexivity|]. eapply nth_error_In; eauto.
  - apply nth_error_None in E. lia.
Qed.

End IndexProtocol.

Section RecordFacts.

Ltac next_bind H :=
  match type of H with
  | bind ?m _ = _ =>
      let E := fresh "E" in
      destruct m eqn:E; cbn [bind] in H; [|discriminate H]
  end.

Lemma yes_no_is_yes_or_no (b : bool) :
  exists s, yes_no b = JStr s /\ yes_or_no s.
Proof. destruct b; eexists; (split; [reflexivity|]); [left|right]; reflexivity. Qed.

(** Each record the loop of the service builds has the six fields. *)
Lemma assessments_of_records (sampled_products : list json)
  (indices : list Z) (l : list json) :
  assessments_of sampled_products indices = Ok l -> Forall api_record l.
Proof.
  revert l. induction indices as [|idx rest IH]; intros l H; simpl in H.
  - injection H as <-. constructor.
  - repeat next_bind H. injection H as <-. constructor; [|now apply IH].
    destruct (yes_no_is_yes_or_no (eq_str a1 "Yes")) as (x & -> & Hx).
    destruct (yes_no_is_yes_or_no (eq_str a4 "Yes")) as (y & -> & Hy).
    unfold api_record. do 6 eexists. split; [reflexivity|]. split; assumption.
Qed.

Lemma test_types_of_dict (fields : dict) :
  _extract_test_types (JObj fields)
  = Ok match lookup "Test Types" fields with
       | Some types => if truthy types then types
                       else JArr [JStr "Knowledge & Skills"]
       | None => JArr [JStr "Knowledge & Skills"]
       end.
Proof.
  unfold _extract_test_types. cbn [contains getitem].
  destruct (lookup "Test Types" fields) as [types|]; cbn [bind]; [|reflexivity].
  now destruct (truthy types).
Qed.

(** The record of a dictionary with sections of the harvester is always
    built. *)
Lemma record_of_sectioned (product : json) :
  sectioned product ->
  exists record, _extract_product_api_format product = Ok record.
Proof.
  intros (fields & sections & -> & Hsec).
  unfold _extract_product_api_format, _extract_duration.
  rewrite Hsec. cbn [get bind iter].
  rewrite duration_of_sections_dicts, test_types_of_dict. cbn [bind].
  eexists. reflexivity.
Qed.

Lemma assessments_of_sectioned (sampled_products : list json)
  (indices : list Z) :
  Forall sectioned sampled_products ->
  Forall (fun idx => 0 <= idx < Z.of_nat (length sampled_products)) indices ->
  exists l, assessments_of sampled_products indices = Ok l.
Proof.
  intros Hs. induction indices as [|idx rest IH]; intros Hin.
  - now exists [].
  - inversion Hin as [|? ? Hidx Hrest]; subst.
    destruct (IH Hrest) as [others Ho].
    destruct (list_index_in_range sampled_products idx Hidx)
      as (product & Hp & Hmem).
    destruct (record_of_sectioned product) as [record Hr].
    { eapply Forall_forall; eauto. }
    exists (record :: others).
    rewrite assessments_of_cons, Hp. cbn [bind]. rewrite Hr. cbn [bind].
    now rewrite Ho.
Qed.

(** The cleaning loop only adds items with the two fields. *)
Lemma clean_items_two_fields (results acc l : list json) :
  Forall name_url_item acc ->
  clean_items results acc = Ok l ->
  Forall name_url_item l.
Proof.
  revert acc l. induction results as [|item rest IH]; intros acc l Hacc H;
    simpl in H.
  - now injection H as <-.
  - next_bind H. next_bind H.
    destruct (a && a0)%bool.
    + next_bind H. next_bind H. eapply IH; [|exact H].
      apply Forall_app. split; [exact Hacc|].
      constructor; [|constructor]. now exists a1, a2.
    + eapply IH; eauto.
Qed.

(** The cleaning loop raises as soon as an item is not a container. *)
Lemma clean_items_scalar (results acc : list json) (item : json) :
  In item results -> scalar item = true ->
  exists e, clean_items results acc = Raise e.
Proof.
  revert acc. induction results as [|head rest IH]; intros acc Hin Hsc;
    [contradiction|].
  cbn [clean_items].
  destruct (contains "name" head) as [has_name|e] eqn:Hname; cbn [bind];
    [|eauto].
  destruct Hin as [->|Hin].
  { destruct item; discriminate. }
  destruct (if has_name then contains "url" head else Ok false)
    as [has_url|e]; cbn [bind]; [|eauto].
  destruct (has_name && has_url)%bool; [|now apply IH].
  destruct (getitem head "name") as [n|e]; cbn [bind]; [|eauto].
  destruct (getitem head "url") as [u|e]; cbn [bind]; [|eauto].
  now apply IH.
Qed.

End RecordFacts.

Section UiFacts.

Lemma parse_ui_reply_two_fields (s : string) (v : json) :
  parse_ui_reply s = Ok v ->
  exists items, v = JArr items /\ Forall name_url_item items.
Proof.
  unfold parse_ui_reply.
  destruct ((0 <=? Py.find "[" s) && (Py.find "[" s <? Py.rfind "]" s + 1))%bool.
  - intros H.
    destruct (loads _) as [results|]; cbn [bind] in H; [|discriminate].
    destruct (iter results) as [l|]; cbn [bind] in H; [|discriminate].
    destruct (clean_items l []) as [items|] eqn:E; cbn [bind] in H;
      [|discriminate].
    injection H as <-. exists items. split; [reflexivity|].
    eapply clean_items_two_fields; [constructor | exact E].
  - intros H. injection H as <-. eexists. split; [reflexivity|].
    constructor; [|constructor]. unfold name_url_item, name_url. eauto.
Qed.

End UiFacts.

(** X1.  Whatever the model replies or raises, every item of the list
    [recommend_assessment] returns is a dictionary with exactly the two
    fields [name] and [url], in this order. *)
Theorem ui_items_have_two_fields :
  forall (repr_other : json -> string)
         (random_sample : list json -> nat -> list json)
         (llm_invoke : string -> exc string)
         (products : list json) (products_text user_query : string) (k : Z),
    _format_for_llm repr_other
      (random_sample products (Nat.min 50 (length products))) 30
    = Ok products_text ->
    exists items,
      recommend_assessment repr_other (Ok products) random_sample llm_invoke
        user_query k
      = Ok (JArr items)
      /\ Forall name_url_item items.
Proof.
  intros repr_other random_sample llm_invoke products products_text
    user_query k Hfmt.
  rewrite (ui_service_try _ _ _ _ _ _ _ Hfmt).
  assert (Herr : exists items,
             error_retrieving = JArr items /\ Forall name_url_item items).
  { eexists. split; [reflexivity|]. constructor; [|constructor].
    unfold name_url_item, name_url. eauto. }
  destruct (llm_invoke (ui_prompt user_query k products_text)) as [reply|e];
    cbn [bind try_except].
  - destruct (parse_ui_reply (strip reply)) as [v|e] eqn:E; cbn [try_except].
    + destruct (parse_ui_reply_two_fields _ _ E) as (items & -> & Hitems).
      now exists items.
    + destruct Herr as (items & -> & Hitems). now exists items.
  - destruct Herr as (items & -> & Hitems). now exists items.
Qed.

Lemma ui_items_have_two_fields_witness :
  exists items,
    recommend_assessment Sample.repr (Ok Sample.catalog) Sample.first_n
      (Sample.says Sample.reply_array) "Java developer, 30 minutes" 5
    = Ok (JArr items)
    /\ Forall name_url_item items.
Proof.
  apply (ui_items_have_two_fields Sample.repr Sample.first_n
           (Sample.says Sample.reply_array) Sample.catalog
           (match _format_for_llm Sample.repr Sample.catalog 30 with
            | Ok t => t
            | Raise _ => EmptyString
            end)
           "Java developer, 30 minutes" 5).
  vm_compute. reflexivity.
Defined.

(** X2.  When the array of the reply holds an item that is null, a boolean
    or a number, at any place, [recommend_assessment] returns the one-item
    error list: the items cleaned before it are lost. *)
Theorem ui_scalar_item_gives_error :
  forall (repr_other : json -> string)
         (random_sample : list json -> nat -> list json)
         (llm_invoke : string -> exc string)
         (products : list json) (products_text user_query : string) (k : Z)
         (reply pre mid post : string) (items : list json) (item : json),
    _format_for_llm repr_other
      (random_sample products (Nat.min 50 (length products))) 30
    = Ok products_text ->
    llm_invoke (ui_prompt user_query k products_text) = Ok reply ->
    widest_span reply pre mid post ->
    loads ("[" ++ mid ++ "]") = Ok (JArr items) ->
    In item items -> scalar item = true ->
    recommend_assessment repr_other (Ok products) random_sample llm_invoke
      user_query k
    = Ok error_retrieving.
Proof.
  intros repr_other random_sample llm_invoke products products_text
    user_query k reply pre mid post items item Hfmt Hllm Hspan Hloads Hin Hsc.
  rewrite (ui_service_try _ _ _ _ _ _ _ Hfmt), Hllm. cbn [bind].
  destruct (strip_widest_span _ _ _ _ Hspan) as (pre' & post' & Hstrip).
  rewrite (parse_ui_reply_span _ _ _ _ Hstrip).
  rewrite Hloads. cbn [bind iter].
  destruct (clean_items_scalar items [] item Hin Hsc) as [e He].
  now rewrite He.
Qed.

Lemma ui_scalar_item_gives_error_witness :
  recommend_assessment Sample.repr (Ok Sample.catalog) Sample.first_n
    (Sample.says ("[" ++ Sample.java_item ++ ", 7]"))
    "Java developer, 30 minutes" 5
  = Ok error_retrieving.
Proof.
  apply (ui_scalar_item_gives_error Sample.repr Sample.first_n
           (Sample.says ("[" ++ Sample.java_item ++ ", 7]")) Sample.catalog
           (match _format_for_llm Sample.repr Sample.catalog 30 with
            | Ok t => t
            | Raise _ => EmptyString
            end)
           "Java developer, 30 minutes" 5
           ("[" ++ Sample.java_item ++ ", 7]") EmptyString
           (Sample.java_item ++ ", 7") EmptyString
           [name_url (JStr "Java 8 (New)")
              (JStr "https://www.shl.com/java-8-new/");
            JInt 7]
           (JInt 7)).
  - vm_compute. reflexivity.
  - reflexivity.
  - repeat split; vm_compute; reflexivity.
  - vm_compute. reflexivity.
  - right. left. reflexivity.
  - reflexivity.
Defined.

(** X3.  Whatever the model replies or raises, and for every [k], every
    record of the list [recommend_assessment_api_format] returns has exactly
    the six fields [url], [adaptive_support], [description], [duration],
    [remote_support] and [test_type], in this order, with "Yes" or "No" for
    the two facets and an integer for the duration. *)
Theorem api_records_have_six_fields :
  forall (repr_other : json -> string) (exn_str : exn -> string)
         (random_sample : list json -> nat -> list json)
         (llm_invoke : string -> exc string)
         (products : list json) (products_text user_query : string) (k : Z),
    _format_for_llm repr_other
      (random_sample products (Nat.min 50 (length products))) 30
    = Ok products_text ->
    exists l,
      recommend_assessment_api_format repr_other exn_str (Ok products)
        random_sample llm_invoke user_query k
      = Ok (JObj [("recommended_assessments", JArr l)])
      /\ Forall api_record l.
Proof.
  intros repr_other exn_str random_sample llm_invoke products products_text
    user_query k Hfmt.
  rewrite (api_service_try _ _ _ _ _ _ _ _ Hfmt).
  assert (Herr : forall e, exists l,
             Ok (api_error exn_str e)
             = Ok (JObj [("recommended_assessments", JArr l)])
             /\ Forall api_record l).
  { intros e. eexists. split; [reflexivity|]. constructor; [|constructor].
    unfold api_record. do 6 eexists. split; [reflexivity|].
    split; [right | left]; reflexivity. }
  destruct (llm_invoke (api_prompt user_query k products_text)) as [reply|e];
    cbn [bind try_except]; [|apply Herr].
  unfold parse_api_reply.
  destruct (assessments_of _ _) as [l|e] eqn:E; cbn [bind try_except];
    [|apply Herr].
  exists l. split; [reflexivity|]. eapply assessments_of_records; eauto.
Qed.

Lemma api_records_have_six_fields_witness :
  exists l,
    recommend_assessment_api_format Sample.repr Sample.message
      (Ok Sample.catalog) Sample.first_n (Sample.says "4, 2, 5, 1")
      "Java developer, 30 minutes" 5
    = Ok (JObj [("recommended_assessments", JArr l)])
    /\ Forall api_record l.
Proof.
  apply (api_records_have_six_fields Sample.repr Sample.message
           Sample.first_n (Sample.says "4, 2, 5, 1") Sample.catalog
           (match _format_for_llm Sample.repr Sample.catalog 30 with
            | Ok t => t
            | Raise _ => EmptyString
            end)
           "Java developer, 30 minutes" 5).
  vm_compute. reflexivity.
Defined.

Section PromptFacts.

Variable repr_other : json -> string.

Lemma concat_cons (x : string) (xs : list string) :
  String.concat EmptyString (x :: xs) = x ++ String.concat EmptyString xs.
Proof.
  destruct xs as [|y ys]; simpl; [now rewrite app_empty_r | reflexivity].
Qed.

(** The loop of [_get_product_text] over sections of the harvester adds a
    line for each section whose heading and text are both non-empty. *)
Lemma product_text_sections_dicts (sections : list (string * string))
  (text : string) :
  product_text_sections repr_other (map section_dict sections) text
  = Ok (text ++ String.concat EmptyString (map section_line sections)).
Proof.
  revert text. induction sections as [|[heading content] rest IH];
    intros text.
  - simpl. now rewrite app_empty_r.
  - cbn [map]. rewrite concat_cons.
    change (product_text_sections repr_other
              (section_dict (heading, content) :: map section_dict rest) text)
      with (if (negb (String.eqb heading EmptyString)
                && negb (String.eqb content EmptyString))%bool
            then product_text_sections repr_other (map section_dict rest)
                   (text ++ heading ++ ": " ++ content ++ nl)
            else product_text_sections repr_other (map section_dict rest) text).
    unfold section_line. cbn [fst snd].
    destruct (String.eqb heading EmptyString),
             (String.eqb content EmptyString); cbn [negb andb orb];
      rewrite IH; try reflexivity.
    now rewrite !app_assoc.
Qed.

Lemma product_text_of_fields (fields : dict) (name description link : string)
  (sections : list (string * string)) :
  harvested fields name description link sections ->
  _get_product_text repr_other (JObj fields)
  = Ok ("Name: " ++ name ++ nl ++ "Description: " ++ description ++ nl
        ++ String.concat EmptyString (map section_line sections)).
Proof.
  intros (Hname & Hdesc & _ & Hsec).
  unfold _get_product_text. cbn [getitem get].
  rewrite Hname, Hdesc, Hsec. cbn [bind iter fmt].
  rewrite product_text_sections_dicts.
  now repeat (first [rewrite app_assoc | progress cbn [append]]).
Qed.

Lemma formatted_products_harvested (products : list json) (i : Z) :
  Forall harvested_product products ->
  exists entries, formatted_products repr_other i products = Ok entries.
Proof.
  revert i. induction products as [|product rest IH]; intros i Hall.
  - now exists [].
  - inversion Hall as [|? ? Hp Hrest]; subst.
    destruct Hp as (fields & name & description & link & sections & -> & Hh).
    destruct (IH (i + 1) Hrest) as [others Ho].
    cbn [formatted_products].
    rewrite (product_text_of_fields _ _ _ _ _ Hh). cbn [bind getitem].
    destruct Hh as (_ & _ & Hlink & _). rewrite Hlink. cbn [bind].
    rewrite Ho. cbn [bind]. eauto.
Qed.

(** A product that cannot be rendered stops the rendering of the list, when
    those before it can be rendered. *)
Lemma formatted_products_stops (before after : list json) (product : json)
  (i : Z) (e : exn) :
  Forall harvested_product before ->
  _get_product_text repr_other product = Raise e ->
  formatted_products repr_other i (before ++ product :: after) = Raise e.
Proof.
  revert i. induction before as [|p before IH]; intros i Hall Hraise.
  - cbn [app formatted_products]. now rewrite Hraise.
  - inversion Hall as [|? ? Hp Hrest]; subst.
    destruct Hp as (fields & name & description & link & sections & -> & Hh).
    cbn [app formatted_products].
    rewrite (product_text_of_fields _ _ _ _ _ Hh). cbn [bind getitem].
    destruct Hh as (_ & _ & Hlink & _). rewrite Hlink. cbn [bind].
    now rewrite (IH (i + 1) Hrest Hraise).
Qed.

Lemma list_prefix_thirty_app (shown hidden : list json) :
  length shown = 30%nat -> list_prefix (shown ++ hidden) 30 = shown.
Proof.
  intros Hlen. unfold list_prefix. cbn [Z.ltb Z.compare].
  change (Z.to_nat 30) with 30%nat. rewrite <- Hlen.
  rewrite firstn_app, Nat.sub_diag, firstn_all. cbn [firstn].
  apply app_nil_r.
Qed.

Lemma list_prefix_thirty_split (before after : list json) (product : json) :
  (length before < 30)%nat ->
  exists rest,
    list_prefix (before ++ product :: after) 30
    = (before ++ product :: rest)%list.
Proof.
  intros Hlen. unfold list_prefix. cbn [Z.ltb Z.compare].
  change (Z.to_nat 30) with 30%nat.
  rewrite firstn_app, firstn_all2 by lia.
  destruct (30 - length before)%nat as [|m] eqn:E; [lia|].
  cbn [firstn]. eauto.
Qed.

End PromptFacts.

Section SampleFacts.

Lemma entry_harvested (name link : string) (remote adaptive : bool)
  (sections : list (string * string)) :
  harvested_product (Sample.entry name link remote adaptive sections).
Proof.
  unfold harvested_product, Sample.entry. do 5 eexists.
  split; [reflexivity|]. repeat split; reflexivity.
Qed.

Lemma entry_sectioned (name link : string) (remote adaptive : bool)
  (sections : list (string * string)) :
  sectioned (Sample.entry name link remote adaptive sections).
Proof.
  unfold sectioned, Sample.entry. exists
    [("Product Type", JStr "Individual"); ("Name", JStr name);
     ("Link", JStr link); ("Remote Testing", JStr (tick remote));
     ("Adaptive", JStr (tick adaptive)); ("Test Types", JArr [JStr "K"]);
     ("Description", JStr ("About " ++ name));
     ("Sections", JArr (map section_dict sections));
     ("Job Family", JNull); ("Job Level", JNull); ("Industry", JNull);
     ("Job Category", JInt 3)], sections.
  split; reflexivity.
Qed.

Lemma catalog_sectioned : Forall sectioned Sample.catalog.
Proof. repeat constructor; apply entry_sectioned. Qed.

End SampleFacts.

(** X4.  The numbering of the prompt is read back: when the stripped reply
    lists the numbers of sampled products (each the 0-based index plus one,
    in decimal, as the prompt prints them), separated by a comma and a
    space, the service resolves exactly these indices, in the order of the
    reply, cut to the first [k], and returns the records of these
    products. *)
Theorem listed_numbers_are_served :
  forall (repr_other : json -> string) (exn_str : exn -> string)
         (random_sample : list json -> nat -> list json)
         (llm_invoke : string -> exc string)
         (products : list json) (products_text user_query reply : string)
         (k : Z) (indices : list Z),
    _format_for_llm repr_other
      (random_sample products (Nat.min 50 (length products))) 30
    = Ok products_text ->
    llm_invoke (api_prompt user_query k products_text) = Ok reply ->
    strip reply = numbered indices ->
    let sampled_products :=
      random_sample products (Nat.min 50 (length products)) in
    let n := Z.of_nat (length sampled_products) in
    Forall (fun idx => 0 <= idx < n) indices ->
    indices <> [] ->
    1 <= k ->
    resolve_indices (strip reply) n k = list_prefix indices k
    /\ (forall l,
          assessments_of sampled_products (list_prefix indices k) = Ok l ->
          recommend_assessment_api_format repr_other exn_str (Ok products)
            random_sample llm_invoke user_query k
          = Ok (JObj [("recommended_assessments", JArr l)])).
Proof.
  intros repr_other exn_str random_sample llm_invoke products products_text
    user_query reply k indices Hfmt Hllm Hreply sampled_products n
    Hin Hne Hk.
  assert (Hres : resolve_indices (strip reply) n k = list_prefix indices k).
  { rewrite Hreply. unfold resolve_indices, numbered. cbv zeta.
    rewrite findall_joined_numbers.
    - rewrite valid_indices_of_numerals by exact Hin.
      pose proof (list_prefix_nonempty indices k Hk Hne) as Hp.
      now destruct (list_prefix indices k).
    - apply Forall_forall. intros ds Hds.
      apply in_map_iff in Hds as (idx & <- & Hidx).
      apply str_of_int_digits.
      rewrite Forall_forall in Hin. specialize (Hin idx Hidx). lia. }
  split; [exact Hres|].
  intros l Hl.
  rewrite (api_service_try _ _ _ _ _ _ _ _ Hfmt), Hllm. cbn [bind].
  unfold parse_api_reply. fold sampled_products. fold n.
  rewrite Hres, Hl. reflexivity.
Qed.

Lemma listed_numbers_are_served_witness :
  resolve_indices (strip ("  5, 2, 4" ++ nl)) 5 2 = [4; 1].
Proof.
  refine (eq_trans
            (proj1 (listed_numbers_are_served Sample.repr Sample.message
                      Sample.first_n (Sample.says ("  5, 2, 4" ++ nl))
                      Sample.catalog
                      (match _format_for_llm Sample.repr Sample.catalog 30 with
                       | Ok t => t
                       | Raise _ => EmptyString
                       end)
                      "Java developer, 30 minutes" ("  5, 2, 4" ++ nl) 2
                      [4; 1; 3] _ _ _ _ _ _)) _).
  - vm_compute. reflexivity.
  - reflexivity.
  - vm_compute. reflexivity.
  - repeat constructor; vm_compute; congruence.
  - discriminate.
  - lia.
  - reflexivity.
Defined.

(** X5.  For every reply and every [k], every index the service resolves
    lies in the sample; and when the sampled products are dictionaries
    whose sections are as the harvester writes them, a reply of the model is
    always served with the records of the products at these indices, never
    with the error record. *)
Theorem harvested_sample_is_served :
  forall (repr_other : json -> string) (exn_str : exn -> string)
         (random_sample : list json -> nat -> list json)
         (llm_invoke : string -> exc string)
         (products : list json) (products_text user_query reply : string)
         (k : Z),
    _format_for_llm repr_other
      (random_sample products (Nat.min 50 (length products))) 30
    = Ok products_text ->
    llm_invoke (api_prompt user_query k products_text) = Ok reply ->
    let sampled_products :=
      random_sample products (Nat.min 50 (length products)) in
    let n := Z.of_nat (length sampled_products) in
    Forall sectioned sampled_products ->
    Forall (fun idx => 0 <= idx < n) (resolve_indices (strip reply) n k)
    /\ exists l,
         assessments_of sampled_products (resolve_indices (strip reply) n k)
         = Ok l
         /\ length l = length (resolve_indices (strip reply) n k)
         /\ recommend_assessment_api_format repr_other exn_str (Ok products)
              random_sample llm_invoke user_query k
            = Ok (JObj [("recommended_assessments", JArr l)]).
Proof.
  intros repr_other exn_str random_sample llm_invoke products products_text
    user_query reply k Hfmt Hllm sampled_products n Hsec.
  pose proof (resolve_indices_in_sample (strip reply) n k) as Hin.
  split; [exact Hin|].
  destruct (assessments_of_sectioned sampled_products _ Hsec Hin) as [l Hl].
  exists l. split; [exact Hl|].
  split; [eapply assessments_of_length; eauto|].
  rewrite (api_service_try _ _ _ _ _ _ _ _ Hfmt), Hllm. cbn [bind].
  unfold parse_api_reply. fold sampled_products. fold n.
  rewrite Hl. reflexivity.
Qed.

Lemma harvested_sample_is_served_witness :
  exists l,
    length l = 1%nat
    /\ recommend_assessment_api_format Sample.repr Sample.message
         (Ok Sample.catalog) Sample.first_n
         (Sample.says (Sample.e_acute ++ "2, 1" ++ Sample.no_break_space))
         "Java developer, 30 minutes" 5
       = Ok (JObj [("recommended_assessments", JArr l)]).
Proof.
  destruct (proj2 (harvested_sample_is_served Sample.repr Sample.message
                     Sample.first_n
                     (Sample.says
                        (Sample.e_acute ++ "2, 1" ++ Sample.no_break_space))
                     Sample.catalog
                     (match _format_for_llm Sample.repr Sample.catalog 30 with
                      | Ok t => t
                      | Raise _ => EmptyString
                      end)
                     "Java developer, 30 minutes"
                     (Sample.e_acute ++ "2, 1" ++ Sample.no_break_space) 5
                     ltac:(vm_compute; reflexivity) eq_refl
                     catalog_sectioned))
    as (l & _ & Hlen & Hret).
  exists l. split; [exact Hlen | exact Hret].
Defined.

(** X6.  The prompt is rendered before the [try] block: when one of the
    first thirty sampled products is a dictionary without a [Name] (those
    before it being as the harvester writes them), both services raise
    [KeyError('Name')] to their caller, whatever the model would reply. *)
Theorem unnamed_product_raises :
  forall (repr_other : json -> string) (exn_str : exn -> string)
         (random_sample : list json -> nat -> list json)
         (llm_invoke : string -> exc string)
         (products before after : list json) (fields : dict)
         (user_query : string) (k : Z),
    random_sample products (Nat.min 50 (length products))
    = (before ++ JObj fields :: after)%list ->
    (length before < 30)%nat ->
    Forall harvested_product before ->
    lookup "Name" fields = None ->
    recommend_assessment repr_other (Ok products) random_sample llm_invoke
      user_query k
    = Raise (KeyError "Name")
    /\ recommend_assessment_api_format repr_other exn_str (Ok products)
         random_sample llm_invoke user_query k
       = Raise (KeyError "Name").
Proof.
  intros repr_other exn_str random_sample llm_invoke products before after
    fields user_query k Hsample Hlen Hbefore Hname.
  assert (Hfmt : _format_for_llm repr_other
                   (random_sample products (Nat.min 50 (length products))) 30
                 = Raise (KeyError "Name")).
  { rewrite Hsample. unfold _format_for_llm.
    destruct (list_prefix_thirty_split before after (JObj fields) Hlen)
      as [rest ->].
    rewrite (formatted_products_stops repr_other before rest (JObj fields) 0
               (KeyError "Name") Hbefore); [reflexivity|].
    unfold _get_product_text. cbn [getitem]. now rewrite Hname. }
  unfold recommend_assessment, recommend_assessment_api_format.
  cbn [bind]. rewrite Hfmt. split; reflexivity.
Qed.

Lemma unnamed_product_raises_witness :
  recommend_assessment Sample.repr (Ok [Sample.p1; MoreSample.nameless])
    Sample.first_n (Sample.says "1") "Java developer" 5
  = Raise (KeyError "Name")
  /\ recommend_assessment_api_format Sample.repr Sample.message
       (Ok [Sample.p1; MoreSample.nameless]) Sample.first_n (Sample.says "1")
       "Java developer" 5
     = Raise (KeyError "Name").
Proof.
  apply (unnamed_product_raises Sample.repr Sample.message Sample.first_n
           (Sample.says "1") [Sample.p1; MoreSample.nameless]
           [Sample.p1] []
           [("Description", JStr "No name");
            ("Link", JStr "https://www.shl.com/x/")]).
  - reflexivity.
  - simpl. lia.
  - constructor; [apply entry_harvested | constructor].
  - reflexivity.
Defined.

(** X7.  For a product as the harvester writes it, the entry of the prompt
    is the number line, the name line, the description line, one line
    "heading: text" for each section whose heading and text are both
    non-empty (the other sections are left out), a blank line and the link
    line. *)
Theorem prompt_entry_of_harvested :
  forall (repr_other : json -> string) (fields : dict)
         (name description link : string)
         (sections : list (string * string)),
    harvested fields name description link sections ->
    _format_for_llm repr_other [JObj fields] 30
    = Ok ("PRODUCT 1:" ++ nl
          ++ "Name: " ++ name ++ nl
          ++ "Description: " ++ description ++ nl
          ++ String.concat EmptyString (map section_line sections)
          ++ nl ++ "Link: " ++ link ++ nl).
Proof.
  intros repr_other fields name description link sections Hh.
  unfold _format_for_llm.
  change (list_prefix [JObj fields] 30) with [JObj fields].
  cbn [formatted_products].
  rewrite (product_text_of_fields repr_other _ _ _ _ _ Hh).
  destruct Hh as (_ & _ & Hlink & _).
  cbn [bind getitem]. rewrite Hlink. cbn [bind join fmt].
  f_equal. change (str_of_int (0 + 1)) with "1".
  now repeat (first [rewrite app_assoc | progress cbn [append]]).
Qed.

Lemma prompt_entry_of_harvested_witness :
  _format_for_llm Sample.repr
    [Sample.entry "OPQ32" "https://www.shl.com/opq32/" true false
       [("Assessment length", "Untimed"); ("Languages", EmptyString)]] 30
  = Ok ("PRODUCT 1:" ++ nl
        ++ "Name: OPQ32" ++ nl
        ++ "Description: About OPQ32" ++ nl
        ++ "Assessment length: Untimed" ++ nl
        ++ nl ++ "Link: https://www.shl.com/opq32/" ++ nl).
Proof.
  refine (eq_trans
            (prompt_entry_of_harvested Sample.repr _ "OPQ32" "About OPQ32"
               "https://www.shl.com/opq32/"
               [("Assessment length", "Untimed"); ("Languages", EmptyString)]
               _) _).
  - repeat split; reflexivity.
  - reflexivity.
Defined.

(** X8.  Only the first thirty sampled products are rendered: when they are
    as the harvester writes them, the rendering succeeds and is the one of
    these thirty alone, whatever the sample holds after them. *)
Theorem prompt_shows_first_thirty :
  forall (repr_other : json -> string) (shown hidden : list json),
    length shown = 30%nat ->
    Forall harvested_product shown ->
    exists products_text,
      _format_for_llm repr_other shown 30 = Ok products_text
      /\ _format_for_llm repr_other (shown ++ hidden) 30 = Ok products_text.
Proof.
  intros repr_other shown hidden Hlen Hshown.
  unfold _format_for_llm.
  rewrite (list_prefix_thirty_app shown hidden Hlen).
  pose proof (list_prefix_thirty_app shown [] Hlen) as Hshow.
  rewrite app_nil_r in Hshow. rewrite Hshow.
  destruct (formatted_products_harvested repr_other shown 0 Hshown)
    as [entries ->].
  cbn [bind]. eauto.
Qed.

Lemma prompt_shows_first_thirty_witness :
  exists products_text,
    _format_for_llm Sample.repr (repeat Sample.p1 30) 30 = Ok products_text
    /\ _format_for_llm Sample.repr
         (repeat Sample.p1 30 ++ [JNull; MoreSample.nameless]) 30
       = Ok products_text.
Proof.
  apply (prompt_shows_first_thirty Sample.repr (repeat Sample.p1 30)
           [JNull; MoreSample.nameless]).
  - reflexivity.
  - apply Forall_forall. intros p Hp. apply repeat_spec in Hp. subst p.
    apply entry_harvested.
Defined.

(* ===================================================================== *)
(** * Further properties of the harvester *)
(* ===================================================================== *)

Section PageFacts.

Variable exn_str : exn -> string.
Variable requests_get : string -> list (string * json) -> exc response.
Variable BeautifulSoup : string -> exc Soup.node.

Lemma has_attr_attr (n : Soup.node) (k : string) :
  Soup.has_attr k n = true -> exists v, Soup.attr n k = Ok v.
Proof.
  destruct n as [t|name classes attrs children]; [discriminate|].
  simpl. destruct (Soup.assoc k attrs); [eauto | discriminate].
Qed.

Lemma no_attr_raises (n : Soup.node) (k : string) :
  Soup.has_attr k n = false -> exists e, Soup.attr n k = Raise e.
Proof.
  destruct n as [t|name classes attrs children]; simpl; [eauto|].
  destruct (Soup.assoc k attrs); [discriminate | eauto].
Qed.

Lemma three_columns {A : Type} (l : list A) :
  (3 <= length l)%nat -> exists a b c more, l = a :: b :: c :: more.
Proof.
  destruct l as [|a [|b [|c more]]]; simpl; try lia. eauto.
Qed.

Lemma short_columns_raise {A : Type} (l : list A) :
  (length l < 3)%nat ->
  (exists e, list_index l 0 = Raise e)
  \/ (exists a e, list_index l 0 = Ok a /\ list_index l 1 = Raise e)
  \/ (exists a b e, list_index l 0 = Ok a /\ list_index l 1 = Ok b
                    /\ list_index l 2 = Raise e).
Proof.
  destruct l as [|a [|b [|c more]]]; simpl; try lia; intros _.
  - left. eexists. reflexivity.
  - right. left. do 2 eexists. split; reflexivity.
  - right. right. do 3 eexists. repeat split; reflexivity.
Qed.

(** A well-formed row with its title anchor gives its record. *)
Lemma well_formed_row_parsed (row : Soup.node)
  (job_family job_level industry job_category : json) :
  well_formed_row row = true -> anchored row = true ->
  exists product,
    parse_product_row exn_str requests_get BeautifulSoup row
      (product_type_of row) job_family job_level industry job_category
    = Ok (Some product)
    /\ truthy product = true
    /\ record_of_row row job_family job_level industry job_category product.
Proof.
  unfold well_formed_row, anchored.
  destruct (title_anchor row) as [link_tag|] eqn:Hanchor; [|discriminate].
  intros Hwf _. apply andb_true_iff in Hwf as [Hhref Hcols].
  apply Nat.leb_le in Hcols.
  destruct (has_attr_attr _ _ Hhref) as [href Hattr].
  destruct (three_columns _ Hcols) as (c0 & c1 & c2 & more & Hcs).
  destruct (parse_product_row_emits exn_str requests_get BeautifulSoup row
              (product_type_of row) job_family job_level industry job_category
              link_tag href c0 c1 c2 more Hanchor Hattr Hcs)
    as (d & secs & _ & _ & Hparsed).
  eexists. split; [exact Hparsed|]. split; [reflexivity|].
  unfold record_of_row. do 8 eexists. repeat split; eauto.
Qed.

(** A row that is not well formed makes the parsing raise. *)
Lemma ill_formed_row_raises (row : Soup.node) (product_type : string)
  (job_family job_level industry job_category : json) :
  well_formed_row row = false ->
  exists e,
    parse_product_row exn_str requests_get BeautifulSoup row product_type
      job_family job_level industry job_category
    = Raise e.
Proof.
  unfold well_formed_row, Scraper.parse_product_row, title_anchor,
    general_columns.
  destruct (Soup.find row _) as [title_td|]; [|discriminate].
  destruct (Soup.find title_td _) as [link_tag|]; [|discriminate].
  intros Hwf. apply andb_false_iff in Hwf as [Hhref|Hcols].
  - destruct (no_attr_raises _ _ Hhref) as [e ->]. cbn [bind]. eauto.
  - destruct (Soup.attr link_tag "href") as [href|e]; cbn [bind]; [|eauto].
    apply Nat.leb_gt in Hcols.
    destruct (short_columns_raise _ Hcols)
      as [[e ->]|[(a & e & -> & ->)|(a & b & e & -> & -> & ->)]];
      cbn [bind]; eauto.
Qed.

(** The loop over the rows of a page: the records of the rows with a title
    anchor, in order, when every row is well formed; an exception
    otherwise. *)
Lemma parse_rows_well_formed (rows : list Soup.node)
  (job_family job_level industry job_category : json) :
  forallb well_formed_row rows = true ->
  exists l,
    parse_rows exn_str requests_get BeautifulSoup rows
      job_family job_level industry job_category = Ok l
    /\ Forall2 (fun row product =>
                  record_of_row row job_family job_level industry
                    job_category product)
         (filter anchored rows) l.
Proof.
  induction rows as [|row rest IH]; intros Hwf.
  - exists []. split; [reflexivity | constructor].
  - simpl in Hwf. apply andb_true_iff in Hwf as [Hrow Hrest].
    destruct (IH Hrest) as (others & Ho & Hall).
    cbn [parse_rows filter].
    destruct (anchored row) eqn:Ha.
    + destruct (well_formed_row_parsed row job_family job_level industry
                  job_category Hrow Ha) as (product & Hp & Ht & Hrec).
      rewrite Hp. cbn [bind]. rewrite Ho. cbn [bind]. rewrite Ht.
      exists (product :: others). split; [reflexivity|]. now constructor.
    + assert (Hnone : title_anchor row = None).
      { unfold anchored in Ha. now destruct (title_anchor row). }
      rewrite (proj2 (parse_product_row_skips exn_str requests_get
                        BeautifulSoup row (product_type_of row)
                        job_family job_level industry job_category) Hnone).
      cbn [bind]. rewrite Ho. cbn [bind]. eauto.
Qed.

Lemma parse_rows_ill_formed (rows : list Soup.node)
  (job_family job_level industry job_category : json) :
  forallb well_formed_row rows = false ->
  exists e,
    parse_rows exn_str requests_get BeautifulSoup rows
      job_family job_level industry job_category = Raise e.
Proof.
  induction rows as [|row rest IH]; intros Hwf; [discriminate|].
  simpl in Hwf. cbn [parse_rows].
  destruct (well_formed_row row) eqn:Hrow.
  - destruct (IH Hwf) as [e He].
    destruct (parse_product_row _ _ _ row _ _ _ _ _) as [parsed|e'];
      cbn [bind]; [|eauto].
    rewrite He. cbn [bind]. eauto.
  - destruct (ill_formed_row_raises row (product_type_of row)
                job_family job_level industry job_category Hrow) as [e ->].
    cbn [bind]. eauto.
Qed.

End PageFacts.

Section RunFacts.

Lemma collect_flat_map {A : Type} (scrape : A -> list json)
  (completed : list A) (results : list json) :
  Harvest.collect scrape completed results
  = (results ++ flat_map scrape completed)%list.
Proof.
  revert results. induction completed as [|task rest IH]; intros results;
    simpl.
  - now rewrite app_nil_r.
  - now rewrite IH, <- List.app_assoc.
Qed.

Lemma flat_map_all_nil {A B : Type} (f : A -> list B) (l : list A) :
  (forall a, f a = []) -> flat_map f l = [].
Proof. intros H. induction l as [|a l IH]; simpl; [|rewrite H]; auto. Qed.

End RunFacts.

(** X9.  When the listing request answers, its markup is parsed and every
    row of the page is well formed, the page contributes one record for each
    row that has its title anchor, in the order of the rows (those with a
    course identifier first), and no other; each record is the one of its
    row, typed "Pre-packaged" or "Individual" by the identifier of the row
    and tagged with the filters of the page: the three filters of a
    combination and no job category, or the job category and none of the
    three. *)
Theorem page_records_are_tagged :
  forall (exn_str : exn -> string)
         (requests_get : string -> list (string * json) -> exc response)
         (BeautifulSoup : string -> exc Soup.node)
         (res : response) (soup : Soup.node),
    BeautifulSoup (text res) = Ok soup ->
    forallb well_formed_row (listing_rows soup) = true ->
    (forall job_family job_level industry,
       requests_get CATALOG_URL
         (combination_params job_family job_level industry) = Ok res ->
       Forall2 (fun row product =>
                  record_of_row row (JInt job_family) (JInt job_level)
                    (JInt industry) JNull product)
         (filter anchored (listing_rows soup))
         (scrape_combination exn_str requests_get BeautifulSoup
            job_family job_level industry))
    /\ (forall jc,
          requests_get CATALOG_URL (category_params jc) = Ok res ->
          Forall2 (fun row product =>
                     record_of_row row JNull JNull JNull (JInt jc) product)
            (filter anchored (listing_rows soup))
            (scrape_job_category exn_str requests_get BeautifulSoup jc)).
Proof.
  intros exn_str requests_get BeautifulSoup res soup Hsoup Hwf. split.
  - intros job_family job_level industry Hget.
    destruct (parse_rows_well_formed exn_str requests_get BeautifulSoup
                (listing_rows soup) (JInt job_family) (JInt job_level)
                (JInt industry) JNull Hwf) as (l & Hl & Hall).
    unfold scrape_combination. cbv zeta.
    fold (combination_params job_family job_level industry).
    rewrite Hget. cbn [bind]. rewrite Hsoup. cbn [bind]. rewrite Hl.
    exact Hall.
  - intros jc Hget.
    destruct (parse_rows_well_formed exn_str requests_get BeautifulSoup
                (listing_rows soup) JNull JNull JNull (JInt jc) Hwf)
      as (l & Hl & Hall).
    unfold scrape_job_category. cbv zeta. fold (category_params jc).
    rewrite Hget. cbn [bind]. rewrite Hsoup. cbn [bind]. rewrite Hl.
    exact Hall.
Qed.

Lemma page_records_are_tagged_witness :
  Forall2 (fun row product =>
             record_of_row row (JInt 2) (JInt 7) (JInt 4) JNull product)
    [Sample.java_row]
    (scrape_combination Sample.message MoreSample.site MoreSample.site_parser
       2 7 4).
Proof.
  exact (proj1 (page_records_are_tagged Sample.message MoreSample.site
                  MoreSample.site_parser
                  {| status_code := 200; text := "<html>listing</html>" |}
                  MoreSample.listing_page eq_refl eq_refl)
           2 7 4 eq_refl).
Defined.

(** X10.  A page contributes nothing, and nothing is raised, when its
    listing request raises, when its markup cannot be parsed, or when one of
    its rows is not well formed (a title anchor without a link, or fewer
    than three general cells): the well-formed rows of that page are lost
    with it. *)
Theorem page_is_lost_on_any_failure :
  forall (exn_str : exn -> string)
         (requests_get : string -> list (string * json) -> exc response)
         (BeautifulSoup : string -> exc Soup.node)
         (params : list (string * json)),
    (exists e, requests_get CATALOG_URL params = Raise e)
    \/ (exists res e,
          requests_get CATALOG_URL params = Ok res
          /\ BeautifulSoup (text res) = Raise e)
    \/ (exists res soup,
          requests_get CATALOG_URL params = Ok res
          /\ BeautifulSoup (text res) = Ok soup
          /\ forallb well_formed_row (listing_rows soup) = false) ->
    (forall job_family job_level industry,
       params = combination_params job_family job_level industry ->
       scrape_combination exn_str requests_get BeautifulSoup
         job_family job_level industry = [])
    /\ (forall jc,
          params = category_params jc ->
          scrape_job_category exn_str requests_get BeautifulSoup jc = []).
Proof.
  intros exn_str requests_get BeautifulSoup params Hfail.
  assert (Hbody : forall job_family job_level industry job_category,
            try_except
              (res <- requests_get CATALOG_URL params ;;
               soup <- BeautifulSoup (text res) ;;
               parse_rows exn_str requests_get BeautifulSoup
                 (listing_rows soup) job_family job_level industry
                 job_category)%exc
              (fun _ => []) = []).
  { intros jf jl ind jc.
    destruct Hfail as [[e ->]|[(res & e & -> & Hsoup)|(res & soup & -> & Hsoup & Hwf)]];
      cbn [bind try_except]; [reflexivity | now rewrite Hsoup |].
    rewrite Hsoup. cbn [bind].
    destruct (parse_rows_ill_formed exn_str requests_get BeautifulSoup
                (listing_rows soup) jf jl ind jc Hwf) as [e ->].
    reflexivity. }
  split.
  - intros job_family job_level industry ->. apply Hbody.
  - intros jc ->. apply Hbody.
Qed.

Lemma page_is_lost_on_any_failure_witness :
  scrape_combination Sample.message MoreSample.site MoreSample.broken_parser
    2 7 4 = [].
Proof.
  apply (proj1 (page_is_lost_on_any_failure Sample.message MoreSample.site
                  MoreSample.broken_parser (combination_params 2 7 4)
                  (or_intror (or_intror
                     (ex_intro _ {| status_code := 200;
                                    text := "<html>listing</html>" |}
                        (ex_intro _ MoreSample.broken_page
                           (conj eq_refl (conj eq_refl eq_refl)))))))
           2 7 4 eq_refl).
Defined.

(** X11.  The run appends what each task returns, in the order the tasks
    complete, without removing duplicates; whatever that order, the list
    written holds the same records the same number of times as the run in
    the order of submission; and when every listing request raises, the run
    ends with an empty list. *)
Theorem harvest_is_order_independent :
  forall (exn_str : exn -> string)
         (requests_get : string -> list (string * json) -> exc response)
         (BeautifulSoup : string -> exc Soup.node)
         (completed_combos : list (Z * Z * Z)) (completed_categories : list Z),
    Permutation completed_combos Harvest.combinations ->
    Permutation completed_categories Harvest.job_categories ->
    let scrape := fun combo : Z * Z * Z =>
      scrape_combination exn_str requests_get BeautifulSoup
        (fst (fst combo)) (snd (fst combo)) (snd combo) in
    Harvest.run exn_str requests_get BeautifulSoup
      completed_combos completed_categories
    = (flat_map scrape completed_combos
       ++ flat_map (scrape_job_category exn_str requests_get BeautifulSoup)
            completed_categories)%list
    /\ Permutation
         (Harvest.run exn_str requests_get BeautifulSoup
            completed_combos completed_categories)
         (Harvest.run exn_str requests_get BeautifulSoup
            Harvest.combinations Harvest.job_categories)
    /\ ((forall params, exists e, requests_get CATALOG_URL params = Raise e) ->
        Harvest.run exn_str requests_get BeautifulSoup
          completed_combos completed_categories = []).
Proof.
  intros exn_str requests_get BeautifulSoup completed_combos
    completed_categories Hcombos Hcats scrape.
  assert (Hrun : forall cc cj,
            Harvest.run exn_str requests_get BeautifulSoup cc cj
            = (flat_map scrape cc
               ++ flat_map (scrape_job_category exn_str requests_get
                              BeautifulSoup) cj)%list).
  { intros cc cj. unfold Harvest.run. cbv zeta.
    rewrite !collect_flat_map. cbn [app]. f_equal.
    apply flat_map_ext. intros [[f l] i]. reflexivity. }
  split; [apply Hrun|]. split.
  - rewrite !Hrun. apply Permutation_app; now apply Permutation_flat_map.
  - intros Hdown. rewrite Hrun.
    rewrite (flat_map_all_nil scrape), flat_map_all_nil; [reflexivity| |].
    + intros jc. unfold scrape_job_category. cbv zeta.
      destruct (Hdown (category_params jc)) as [e He].
      unfold category_params in He. now rewrite He.
    + intros [[f l] i]. unfold scrape, scrape_combination. cbv zeta.
      destruct (Hdown (combination_params f l i)) as [e He].
      unfold combination_params in He. cbn [fst snd]. now rewrite He.
Qed.

Lemma harvest_is_order_independent_witness :
  Permutation
    (Harvest.run Sample.message MoreSample.site MoreSample.site_parser
       (rev Harvest.combinations) (rev Harvest.job_categories))
    (Harvest.run Sample.message MoreSample.site MoreSample.site_parser
       Harvest.combinations Harvest.job_categories).
Proof.
  apply (harvest_is_order_independent Sample.message MoreSample.site
           MoreSample.site_parser (rev Harvest.combinations)
           (rev Harvest.job_categories)).
  - apply Permutation_sym, Permutation_rev.
  - apply Permutation_sym, Permutation_rev.
Defined.

Section EmittedFacts.

Variable exn_str : exn -> string.
Variable requests_get : string -> list (string * json) -> exc response.
Variable BeautifulSoup : string -> exc Soup.node.

(** The sections read on a page are heading/text dictionaries, stripped. *)
Lemma sections_of_dicts (headings : list (Soup.node * list Soup.node)) :
  exists pairs,
    sections_of headings = map section_dict pairs
    /\ Forall (fun p => strip (fst p) = fst p /\ strip (snd p) = snd p) pairs.
Proof.
  induction headings as [|[h4_tag siblings] rest (pairs & Heq & Hall)].
  - exists []. split; [reflexivity | constructor].
  - cbn [sections_of].
    destruct (hd_error (filter (Soup.is_tag "p") siblings)) as [next_p|].
    + exists ((strip (Soup.get_text h4_tag), strip (Soup.get_text next_p))
              :: pairs).
      split; [cbn [map]; now rewrite Heq|].
      constructor; [|exact Hall].
      cbn [fst snd]. split; apply strip_idempotent.
    + now exists pairs.
Qed.

Lemma detail_fields_shape (link : string) :
  exists description pairs,
    get (extract_details_from_link exn_str requests_get BeautifulSoup link)
      "description" (JStr EmptyString) = Ok (JStr description)
    /\ get (extract_details_from_link exn_str requests_get BeautifulSoup link)
         "sections" (JArr []) = Ok (JArr (map section_dict pairs))
    /\ Forall (fun p => strip (fst p) = fst p /\ strip (snd p) = snd p) pairs.
Proof.
  unfold Scraper.extract_details_from_link, Scraper.fetch_details.
  destruct (requests_get link []) as [res|]; cbn [bind try_except].
  - destruct (BeautifulSoup (text res)) as [soup|]; cbn [bind try_except].
    + destruct (sections_of_dicts
                  (filter (fun x => Soup.is_tag "h4" (fst x)) (Soup.below soup)))
        as (pairs & Heq & Hall).
      rewrite Heq.
      match goal with
      | |- context [bind ?m _] => destruct m as [description|]
      end; cbn [bind try_except].
      * exists description, pairs. repeat split; auto.
      * exists EmptyString, []. repeat split; constructor.
    + exists EmptyString, []. repeat split; constructor.
  - exists EmptyString, []. repeat split; constructor.
Qed.

(** An emitted record, with the shape of what the detail page gave. *)
Lemma emitted_record_shape (row : Soup.node) (product_type : string)
  (job_family job_level industry job_category product : json) :
  parse_product_row exn_str requests_get BeautifulSoup row product_type
    job_family job_level industry job_category = Ok (Some product) ->
  exists link_tag href column0 column1 column2 more description pairs,
    title_anchor row = Some link_tag
    /\ Soup.attr link_tag "href" = Ok href
    /\ general_columns row = column0 :: column1 :: column2 :: more
    /\ Forall (fun p => strip (fst p) = fst p /\ strip (snd p) = snd p) pairs
    /\ product = record_of product_type link_tag href
                   column0 column1 column2 (JStr description)
                   (JArr (map section_dict pairs))
                   job_family job_level industry job_category.
Proof.
  intros H.
  destruct (parse_product_row_emitted _ _ _ _ _ _ _ _ _ _ H)
    as (link_tag & href & c0 & c1 & c2 & more & d & secs
        & Hanchor & Hhref & Hcols & _).
  destruct (parse_product_row_emits exn_str requests_get BeautifulSoup row
              product_type job_family job_level industry job_category
              link_tag href c0 c1 c2 more Hanchor Hhref Hcols)
    as (d' & secs' & Hd & Hs & Hparsed).
  destruct (detail_fields_shape (get_full_url (strip href)))
    as (description & pairs & Hd' & Hs' & Hall).
  rewrite Hd in Hd'. injection Hd' as ->.
  rewrite Hs in Hs'. injection Hs' as ->.
  rewrite H in Hparsed. injection Hparsed as ->.
  exists link_tag, href, c0, c1, c2, more, description, pairs. auto.
Qed.

End EmittedFacts.

(** X12.  Every record the harvester emits has the shape the formatter and
    the service read: a dictionary whose Name, Description and Link are
    strings and whose Sections is a list of heading/text dictionaries.  So
    its duration is always extracted: the integer of its first section
    headed "Assessment length" with a digit in its text, or 60. *)
Theorem emitted_record_is_well_shaped :
  forall (exn_str : exn -> string)
         (requests_get : string -> list (string * json) -> exc response)
         (BeautifulSoup : string -> exc Soup.node)
         (row : Soup.node) (product_type : string)
         (job_family job_level industry job_category product : json),
    parse_product_row exn_str requests_get BeautifulSoup row product_type
      job_family job_level industry job_category = Ok (Some product) ->
    harvested_product product
    /\ sectioned product
    /\ exists sections,
         field "Sections" product = JArr (map section_dict sections)
         /\ _extract_duration product
            = Ok match List.find gives_length sections with
                 | Some (_, text) =>
                     match first_number text with
                     | Some n => n
                     | None => 60
                     end
                 | None => 60
                 end.
Proof.
  intros exn_str requests_get BeautifulSoup row product_type
    job_family job_level industry job_category product H.
  destruct (emitted_record_shape _ _ _ _ _ _ _ _ _ _ H)
    as (link_tag & href & c0 & c1 & c2 & more & description & pairs
        & _ & _ & _ & _ & ->).
  split; [|split].
  - unfold harvested_product, record_of. do 5 eexists.
    split; [reflexivity|]. repeat split; reflexivity.
  - unfold sectioned, record_of. do 2 eexists. split; reflexivity.
  - exists pairs. split; [reflexivity|].
    unfold _extract_duration, record_of.
    change (get (JObj _) "Sections" (JArr []))
      with (Ok (JArr (map section_dict pairs))).
    cbn [bind iter]. apply duration_of_sections_dicts.
Qed.

Lemma emitted_record_is_well_shaped_witness :
  exists product,
    parse_product_row Sample.message Sample.online Sample.parser
      Sample.java_row "Individual" JNull JNull JNull (JInt 3)
    = Ok (Some product)
    /\ harvested_product product
    /\ _extract_duration product = Ok 18.
Proof.
  eexists. split; [vm_compute; reflexivity|].
  destruct (emitted_record_is_well_shaped Sample.message Sample.online
              Sample.parser Sample.java_row "Individual"
              JNull JNull JNull (JInt 3) _ eq_refl)
    as (Hh & _ & _).
  split; [exact Hh | reflexivity].
Defined.

(** X13.  In every emitted record the Name and each label of the test types
    are free of surrounding white space (no white space, ASCII or not,
    starts or ends them, and stripping them again changes nothing), and so
    are the heading and the text of each section. *)
Theorem emitted_texts_are_stripped :
  forall (exn_str : exn -> string)
         (requests_get : string -> list (string * json) -> exc response)
         (BeautifulSoup : string -> exc Soup.node)
         (row : Soup.node) (product_type : string)
         (job_family job_level industry job_category product : json),
    parse_product_row exn_str requests_get BeautifulSoup row product_type
      job_family job_level industry job_category = Ok (Some product) ->
    exists name labels sections,
      field "Name" product = JStr name
      /\ (strip name = name /\ trimmed name = true)
      /\ field "Test Types" product = JArr (map JStr labels)
      /\ Forall (fun label => strip label = label /\ trimmed label = true)
           labels
      /\ field "Sections" product = JArr (map section_dict sections)
      /\ Forall (fun p => (strip (fst p) = fst p /\ trimmed (fst p) = true)
                          /\ (strip (snd p) = snd p /\ trimmed (snd p) = true))
           sections.
Proof.
  intros exn_str requests_get BeautifulSoup row product_type
    job_family job_level industry job_category product H.
  destruct (emitted_record_shape _ _ _ _ _ _ _ _ _ _ H)
    as (link_tag & href & c0 & c1 & c2 & more & description & pairs
        & _ & _ & _ & Hall & ->).
  assert (Hstripped : forall s, strip (strip s) = strip s
                                /\ trimmed (strip s) = true)
    by (intros s; split; [apply strip_idempotent | apply strip_trimmed]).
  assert (Hfixed : forall s, strip s = s ->
                             strip s = s /\ trimmed s = true)
    by (intros s Hs; split; [exact Hs | rewrite <- Hs; apply strip_trimmed]).
  exists (strip (Soup.get_text link_tag)),
    (map (fun span => strip (Soup.get_text span))
       (Soup.find_all c2
          (both (Soup.is_tag "span")
             (Soup.has_class "product-catalogue__key")))),
    pairs.
  split; [reflexivity|]. split; [apply Hstripped|].
  split; [unfold field, record_of; cbn; now rewrite map_map|].
  split; [|split; [reflexivity|]].
  - apply Forall_forall. intros label Hl.
    apply in_map_iff in Hl as (span & <- & _). apply Hstripped.
  - eapply Forall_impl; [|exact Hall]. cbv beta.
    intros p [Hh Ht]. split; now apply Hfixed.
Qed.

Lemma emitted_texts_are_stripped_witness :
  exists product,
    parse_product_row Sample.message Sample.online Sample.parser
      Sample.padded_row "Individual" JNull JNull JNull (JInt 3)
    = Ok (Some product)
    /\ field "Name" product = JStr "Java 8 (New)"
    /\ trimmed "Java 8 (New)" = true
    /\ field "Test Types" product = JArr [JStr "K"].
Proof.
  eexists. split; [vm_compute; reflexivity|].
  destruct (emitted_texts_are_stripped Sample.message Sample.online
              Sample.parser Sample.padded_row "Individual"
              JNull JNull JNull (JInt 3) _ eq_refl)
    as (name & labels & sections & Hname & [_ Htrimmed] & _).
  vm_compute in Hname. injection Hname as <-.
  split; [vm_compute; reflexivity|].
  split; [exact Htrimmed | vm_compute; reflexivity].
Defined.

(** X14.  [get_full_url] never returns a link that starts with a slash, and
    applying it twice is applying it once. *)
Theorem full_url_is_stable :
  forall relative_link : string,
    startswith (get_full_url relative_link) "/" = false
    /\ get_full_url (get_full_url relative_link) = get_full_url relative_link.
Proof.
  intros s.
  assert (H : startswith (get_full_url s) "/" = false).
  { unfold get_full_url. destruct (startswith s "/") eqn:E; [reflexivity|].
    exact E. }
  split; [exact H|].
  unfold get_full_url at 1. now rewrite H.
Qed.

(** X15.  The test types of a harvested row reach the API unchanged: for
    every emitted record, [_extract_test_types] returns the stripped labels
    of the key spans of the third general cell of the row, and the single
    label "Knowledge & Skills" when the cell has no key span. *)
Theorem harvested_test_types_are_kept :
  forall (exn_str : exn -> string)
         (requests_get : string -> list (string * json) -> exc response)
         (BeautifulSoup : string -> exc Soup.node)
         (row : Soup.node) (product_type : string)
         (job_family job_level industry job_category product : json),
    parse_product_row exn_str requests_get BeautifulSoup row product_type
      job_family job_level industry job_category = Ok (Some product) ->
    exists column0 column1 column2 more,
      general_columns row = column0 :: column1 :: column2 :: more
      /\ _extract_test_types product
         = Ok (JArr match type_labels column2 with
                    | [] => [JStr "Knowledge & Skills"]
                    | labels => labels
                    end).
Proof.
  intros exn_str requests_get BeautifulSoup row product_type
    job_family job_level industry job_category product H.
  destruct (parse_product_row_emitted _ _ _ _ _ _ _ _ _ _ H)
    as (link_tag & href & c0 & c1 & c2 & more & d & secs
        & _ & _ & Hcols & ->).
  exists c0, c1, c2, more. split; [exact Hcols|].
  unfold record_of. rewrite test_types_of_dict.
  change (lookup "Test Types" _) with (Some (JArr (type_labels c2))).
  cbn [truthy]. now destruct (type_labels c2).
Qed.

Lemma harvested_test_types_are_kept_witness :
  _extract_test_types
    match parse_product_row Sample.message Sample.online Sample.parser
            Sample.padded_row "Individual" JNull JNull JNull (JInt 3) with
    | Ok (Some product) => product
    | _ => JNull
    end
  = Ok (JArr [JStr "K"]).
Proof.
  destruct (harvested_test_types_are_kept Sample.message Sample.online
              Sample.parser Sample.padded_row "Individual"
              JNull JNull JNull (JInt 3) _ eq_refl)
    as (c0 & c1 & c2 & more & Hcols & Htypes).
  vm_compute in Hcols. injection Hcols as <- <- <- <-.
  exact Htypes.
Defined.

(* ===================================================================== *)
(** * Properties of the HTTP endpoint *)
(* ===================================================================== *)

Section EndpointFacts.

Variable exn_str : exn -> string.

Lemma api_try_records (sampled_products : list json) (k : Z)
  (outcome : exc string) :
  exists l,
    try_except
      (response <- outcome ;;
       parse_api_reply sampled_products k (strip response))%exc
      (api_error exn_str)
    = recommended l
    /\ Forall api_record l.
Proof.
  assert (Herr : forall e, exists l,
             api_error exn_str e = recommended l /\ Forall api_record l).
  { intros e. eexists. split; [reflexivity|]. constructor; [|constructor].
    unfold api_record. do 6 eexists. split; [reflexivity|].
    split; [right | left]; reflexivity. }
  destruct outcome as [response|e]; cbn [bind try_except]; [|apply Herr].
  unfold parse_api_reply.
  destruct (assessments_of _ _) as [l|e] eqn:E; cbn [bind try_except];
    [|apply Herr].
  exists l. split; [reflexivity|]. eapply assessments_of_records; eauto.
Qed.

Lemma blank_test (query : string) :
  (String.eqb query EmptyString || String.eqb (strip query) EmptyString)%bool
  = only_space query.
Proof.
  unfold only_space. destruct (forallb space (chars query)) eqn:E.
  - apply (proj2 (strip_empty_iff query)) in E. rewrite E.
    apply orb_true_r.
  - apply orb_false_iff. split.
    + apply String.eqb_neq. intros ->. discriminate.
    + apply String.eqb_neq. intros Hs.
      apply strip_empty_iff in Hs. congruence.
Qed.

End EndpointFacts.

(** X16.  [POST /recommend] answers 400 "Query cannot be empty" exactly when
    the query is empty or holds white space only; the dataset and the model
    are then not consulted. *)
Theorem blank_query_is_rejected :
  forall (repr_other : json -> string) (exn_str : exn -> string)
         (_get_products : exc (list json))
         (random_sample : list json -> nat -> list json)
         (llm_invoke : string -> exc string) (query : string),
    Api.recommend repr_other exn_str _get_products random_sample llm_invoke
      query
    = Api.HTTPException 400 "Query cannot be empty"
    <-> only_space query = true.
Proof.
  intros repr_other exn_str _get_products random_sample llm_invoke query.
  unfold Api.recommend. rewrite blank_test.
  destruct (only_space query); split; auto; try discriminate.
  intros H.
  destruct (recommend_assessment_api_format _ _ _ _ _ _ _);
    cbn [bind try_except] in H; discriminate.
Qed.

Lemma blank_query_is_rejected_witness :
  Api.recommend Sample.repr Sample.message (Ok Sample.catalog) Sample.first_n
    (Sample.says "1")
    (" " ++ Sample.no_break_space ++ nl ++ Sample.em_space
     ++ Sample.next_line)
  = Api.HTTPException 400 "Query cannot be empty".
Proof.
  apply (proj2 (blank_query_is_rejected Sample.repr Sample.message
                  (Ok Sample.catalog) Sample.first_n (Sample.says "1")
                  (" " ++ Sample.no_break_space ++ nl
                   ++ Sample.em_space ++ Sample.next_line))).
  vm_compute. reflexivity.
Defined.

(** X17.  For a query that is not blank, [POST /recommend] answers 500 with
    the text of the exception when the dataset cannot be read or the prompt
    cannot be rendered, and otherwise returns, under the key
    [recommended_assessments], a list of at most five records with the six
    fields, not empty as soon as the sample has a product: a failure of the
    model or of its reply never gives a 500. *)
Theorem endpoint_outcomes :
  forall (repr_other : json -> string) (exn_str : exn -> string)
         (random_sample : list json -> nat -> list json)
         (llm_invoke : string -> exc string) (query : string),
    only_space query = false ->
    (forall e,
       Api.recommend repr_other exn_str (Raise e) random_sample llm_invoke
         query
       = Api.HTTPException 500 ("Error processing request: " ++ exn_str e))
    /\ (forall products e,
          _format_for_llm repr_other
            (random_sample products (Nat.min 50 (length products))) 30
          = Raise e ->
          Api.recommend repr_other exn_str (Ok products) random_sample
            llm_invoke query
          = Api.HTTPException 500 ("Error processing request: " ++ exn_str e))
    /\ (forall products products_text,
          _format_for_llm repr_other
            (random_sample products (Nat.min 50 (length products))) 30
          = Ok products_text ->
          exists l,
            Api.recommend repr_other exn_str (Ok products) random_sample
              llm_invoke query
            = Api.Returns (JObj [("recommended_assessments", JArr l)])
            /\ (length l <= 5)%nat
            /\ Forall api_record l
            /\ (random_sample products (Nat.min 50 (length products)) <> [] ->
                l <> [])).
Proof.
  intros repr_other exn_str random_sample llm_invoke query Hq.
  unfold Api.recommend. rewrite blank_test, Hq.
  split; [reflexivity|]. split.
  - intros products e Hfmt.
    unfold recommend_assessment_api_format. cbn [bind]. now rewrite Hfmt.
  - intros products products_text Hfmt.
    rewrite (api_service_try _ _ _ _ _ _ _ _ Hfmt). cbn [bind try_except].
    destruct (api_try_bounds exn_str
                (random_sample products (Nat.min 50 (length products))) 5
                (llm_invoke (api_prompt query 5 products_text))
                ltac:(lia))
      as (l & Heq & Hlen & Hne).
    destruct (api_try_records exn_str
                (random_sample products (Nat.min 50 (length products))) 5
                (llm_invoke (api_prompt query 5 products_text)))
      as (l' & Heq' & Hrec).
    rewrite Heq in Heq'. injection Heq' as <-.
    exists l. rewrite Heq. split; [reflexivity|].
    split; [lia|]. split; assumption.
Qed.

Lemma endpoint_outcomes_witness :
  Api.recommend Sample.repr Sample.message MoreSample.no_file Sample.first_n
    Sample.unreachable "Java developer, 30 minutes"
  = Api.HTTPException 500
      ("Error processing request: "
       ++ "[Errno 2] No such file or directory: 'shl_products_detailed.json'")
  /\ exists l,
       Api.recommend Sample.repr Sample.message (Ok Sample.catalog)
         Sample.first_n Sample.unreachable "Java developer, 30 minutes"
       = Api.Returns (JObj [("recommended_assessments", JArr l)])
       /\ (length l <= 5)%nat.
Proof.
  destruct (endpoint_outcomes Sample.repr Sample.message Sample.first_n
              Sample.unreachable "Java developer, 30 minutes" eq_refl)
    as (Hfile & _ & Hserved).
  split; [apply Hfile|].
  destruct (Hserved Sample.catalog
              (match _format_for_llm Sample.repr Sample.catalog 30 with
               | Ok t => t
               | Raise _ => EmptyString
               end)
              ltac:(vm_compute; reflexivity))
    as (l & Hret & Hlen & _).
  exists l. split; [exact Hret | exact Hlen].
Defined.

(* ===================================================================== *)
(** * The cache of the dataset *)
(* ===================================================================== *)

Section CacheFacts.

Lemma calls_cached (data : json) (reads : list (exc json)) :
  data <> JNull ->
  Dataset.calls data reads = map (fun _ => Ok data) reads.
Proof.
  intros Hdata. induction reads as [|r rest IH]; [reflexivity|].
  cbn [Dataset.calls map].
  destruct data; try contradiction; cbn [Dataset._get_products];
    now rewrite IH.
Qed.

Lemma nth_error_map_const {A B : Type} (b : B) (l : list A) (j : nat) :
  (j < length l)%nat -> nth_error (map (fun _ => b) l) j = Some b.
Proof.
  revert j. induction l as [|a l IH]; intros j Hj; simpl in Hj; [lia|].
  destruct j as [|j]; [reflexivity|]. simpl. apply IH. lia.
Qed.

Lemma nth_error_map_const_inv {A B : Type} (b c : B) (l : list A) (i : nat) :
  nth_error (map (fun _ => b) l) i = Some c -> c = b.
Proof.
  revert i. induction l as [|a l IH]; intros i H; destruct i; simpl in H;
    try discriminate.
  - now injection H.
  - now apply (IH i).
Qed.

Lemma calls_sticky (reads : list (exc json)) :
  forall (cached : json) (i j : nat) (data : json),
    (i < j)%nat -> (j < length reads)%nat ->
    nth_error (Dataset.calls cached reads) i = Some (Ok data) ->
    data <> JNull ->
    nth_error (Dataset.calls cached reads) j = Some (Ok data).
Proof.
  induction reads as [|r rest IH]; intros cached i j data Hij Hj Hi Hdata;
    simpl in Hj; [lia|].
  destruct j as [|j]; [lia|].
  assert (Hcached : forall d, d <> JNull ->
            nth_error (Dataset.calls d (r :: rest)) i = Some (Ok data) ->
            nth_error (Dataset.calls d (r :: rest)) (S j) = Some (Ok data)).
  { intros d Hd Hnth. rewrite (calls_cached d _ Hd) in Hnth |- *.
    apply nth_error_map_const_inv in Hnth. injection Hnth as ->.
    apply nth_error_map_const. simpl. lia. }
  destruct cached; try (apply Hcached; [discriminate | exact Hi]).
  cbn [Dataset.calls Dataset._get_products] in Hi |- *.
  destruct r as [d|e].
  - destruct i as [|i].
    + cbn in Hi. injection Hi as ->. cbn [nth_error].
      rewrite (calls_cached data _ Hdata). apply nth_error_map_const. lia.
    + cbn [nth_error] in Hi |- *. apply (IH d i j data); try assumption; lia.
  - destruct i as [|i]; [discriminate|].
    cbn [nth_error] in Hi |- *. apply (IH JNull i j data); try assumption; lia.
Qed.

Lemma calls_retry (reads : list (exc json)) :
  forall i : nat,
    (forall m, (m < i)%nat -> exists e, nth_error reads m = Some (Raise e)) ->
    nth_error (Dataset.calls JNull reads) i = nth_error reads i.
Proof.
  induction reads as [|r rest IH]; intros i Hfailed.
  - now destruct i.
  - destruct i as [|i].
    + cbn [Dataset.calls Dataset._get_products]. now destruct r.
    + destruct (Hfailed 0%nat ltac:(lia)) as (e & He).
      cbn in He. injection He as ->.
      cbn [Dataset.calls Dataset._get_products nth_error].
      apply IH. intros m Hm. apply (Hfailed (S m)). lia.
Qed.

End CacheFacts.

(** X18. The dataset is read until a reading succeeds and never after:
    starting with an empty cache, a call made after failed readings only
    returns or raises what the file gives at that time, and once a call has
    returned a dataset other than None every later call returns that same
    dataset, whatever has become of the file. *)
Theorem dataset_is_read_once :
  forall (reads : list (exc json)) (i j : nat) (data : json),
    (i < j)%nat -> (j < length reads)%nat ->
    nth_error (Dataset.calls JNull reads) i = Some (Ok data) ->
    data <> JNull ->
    nth_error (Dataset.calls JNull reads) j = Some (Ok data)
    /\ ((forall m, (m < i)%nat -> exists e, nth_error reads m = Some (Raise e)) ->
        nth_error reads i = Some (Ok data)).
Proof.
  intros reads i j data Hij Hj Hi Hdata. split.
  - exact (calls_sticky reads JNull i j data Hij Hj Hi Hdata).
  - intros Hfailed. now rewrite <- (calls_retry reads i Hfailed).
Qed.

Lemma dataset_is_read_once_witness :
  nth_error (Dataset.calls JNull MoreSample.readings) 0
  = Some (Raise (External "[Errno 2] No such file or directory: 'shl_products_detailed.json'"))
  /\ nth_error (Dataset.calls JNull MoreSample.readings) 2
     = Some (Ok (JArr Sample.catalog)).
Proof.
  split; [reflexivity|].
  refine (proj1 (dataset_is_read_once MoreSample.readings 1 2
                   (JArr Sample.catalog) _ _ _ _)).
  - lia.
  - simpl. lia.
  - reflexivity.
  - discriminate.
Defined.

(* ===================================================================== *)
(** * The page *)
(* ===================================================================== *)

Section PageSession.

Variable repr_other : json -> string.
Variable recommend : string -> exc string.

Lemma and_then_state (P : Main.session -> Prop) (first : Main.progress)
    (next : Main.session -> Main.progress) :
  P (fst (fst first)) ->
  (forall s, P s -> P (fst (fst (next s)))) ->
  P (fst (fst (Main.and_then first next))).
Proof.
  intros Hfirst Hnext. destruct first as [[s shown] [e|]]; cbn in *.
  - exact Hfirst.
  - specialize (Hnext s Hfirst). destruct (next s) as [[s' shown'] stopped'].
    exact Hnext.
Qed.

Lemma and_then_runs_on (first : Main.progress)
    (next : Main.session -> Main.progress) :
  snd first = None ->
  snd (next (fst (fst first))) = None ->
  snd (Main.and_then first next) = None.
Proof.
  intros Hfirst Hnext. destruct first as [[s shown] stopped]. cbn in *.
  subst stopped. now destruct (next s) as [[s' shown'] stopped'].
Qed.

Lemma list_slice_length {A : Type} (l : list A) (i : Z) :
  (length (Main.list_slice l i (i + 10)) <= 10)%nat.
Proof.
  unfold Main.list_slice. rewrite length_firstn.
  set (n := Z.of_nat (length l)).
  destruct (i <? 0) eqn:Hi; destruct (i + 10 <? 0) eqn:Hj; lia.
Qed.

Ltac session_fields :=
  cbn [fst snd Main.reply_round Main.current_index Main.last_results
       Main.conversation_history].

Ltac bounds_at pages :=
  unfold Main.in_bounds; session_fields;
  split; [lia | split; [exists pages; lia | try assumption]].

Lemma typed_more_bounds (s : Main.session) :
  Main.in_bounds s ->
  Main.in_bounds (fst (fst (Main.typed_more repr_other s))).
Proof.
  intros (Hround & (pages & Hpages & Hindex) & Hhistory).
  unfold Main.typed_more.
  destruct (2 <=? Main.reply_round s) eqn:Hmax; [bounds_at pages|].
  apply Z.leb_gt in Hmax.
  destruct (Main.last_results s) as [|r0 rs] eqn:Hlast; [bounds_at pages|].
  session_fields.
  destruct (Main.list_slice (r0 :: rs) (Main.current_index s)
              (Main.current_index s + 10)) as [|n0 ns]; [bounds_at pages|].
  destruct (Main.markdown_each _ _) as [shown stopped].
  bounds_at (pages + 1).
Qed.

Lemma new_query_bounds (s : Main.session) (input : string) :
  Main.in_bounds s ->
  Main.in_bounds (fst (fst (Main.new_query repr_other recommend s input))).
Proof.
  intros (Hround & _ & Hhistory).
  unfold Main.new_query.
  destruct (recommend input) as [response|e]; [|bounds_at 1].
  destruct (match loads response with
            | Ok (JArr l) => (l, [])
            | _ => ([], [Main.Error " Failed to parse response. Please try again.";
                         Main.Text response])
            end) as [found parsed].
  destruct found as [|r0 rs]; [bounds_at 1|].
  session_fields.
  destruct (Main.markdown_each _ _) as [shown stopped].
  bounds_at 1.
  apply Forall_app. split; [exact Hhistory|].
  constructor; [|constructor]. cbn [Main.results].
  pose proof (list_prefix_length (r0 :: rs) 10 ltac:(lia)). lia.
Qed.

Lemma submit_bounds (w : Main.widgets) (s : Main.session) :
  Main.in_bounds s ->
  Main.in_bounds (fst (fst (Main.submit_block repr_other recommend w s))).
Proof.
  intros Hs. unfold Main.submit_block.
  destruct (_ && _)%bool; [|exact Hs].
  destruct (Main.is_more _);
    [now apply typed_more_bounds | now apply new_query_bounds].
Qed.

Lemma show_more_bounds (w : Main.widgets) (s : Main.session) :
  Main.in_bounds s ->
  Main.in_bounds (fst (fst (Main.show_more_block repr_other w s))).
Proof.
  intros Hs. pose proof Hs as (Hround & (pages & Hpages & Hindex) & Hhistory).
  unfold Main.show_more_block.
  destruct (Main.last_results s) as [|r0 rs] eqn:Hlast; [exact Hs|].
  destruct ((0 <? Main.reply_round s) && (Main.reply_round s <? 3))%bool
    eqn:Hoffered; [|exact Hs].
  apply andb_prop in Hoffered as [_ Hmax]. apply Z.ltb_lt in Hmax.
  destruct (Main.show_more w); [|exact Hs].
  session_fields.
  destruct (Main.list_slice (r0 :: rs) (Main.current_index s)
              (Main.current_index s + 10)) as [|n0 ns]; [bounds_at pages|].
  destruct (Main.markdown_each _ _) as [shown stopped].
  bounds_at (pages + 1).
Qed.

Lemma history_state (s : Main.session) :
  fst (fst (Main.history_block repr_other s)) = s.
Proof.
  unfold Main.history_block. now destruct (Main.history_turns _ _).
Qed.

Lemma run_bounds (s : Main.session) (w : Main.widgets) :
  Main.in_bounds s ->
  Main.in_bounds (fst (fst (Main.run repr_other recommend s w))).
Proof.
  intros Hs. unfold Main.run.
  apply and_then_state; [|intros s' Hs'; now rewrite history_state].
  apply and_then_state; [|intros s' Hs'; now apply show_more_bounds].
  apply and_then_state; [exact Hs|intros s' Hs'; now apply submit_bounds].
Qed.

(** ** Displaying *)

Lemma entry_line_exposed (before between after : string) (v : json) :
  exposes_both v = true ->
  exists line, Main.entry_line repr_other before between after v = Ok line.
Proof.
  intros Hv. destruct v; try discriminate. cbn in Hv.
  unfold Main.entry_line. cbn [getitem].
  destruct (lookup "name" fields); [|discriminate].
  destruct (lookup "url" fields); [|discriminate].
  cbn [bind]. eexists. reflexivity.
Qed.

Lemma markdown_each_exposed (before between after : string) (l : list json) :
  Forall (fun v => exposes_both v = true) l ->
  snd (Main.markdown_each
         (Main.entry_line repr_other before between after) l) = None.
Proof.
  induction 1 as [|v l Hv Hl IH]; [reflexivity|].
  cbn [Main.markdown_each].
  destruct (entry_line_exposed before between after v Hv) as (line & ->).
  now destruct (Main.markdown_each _ l) as [shown stopped].
Qed.

Lemma forall_skipn {A : Type} (P : A -> Prop) (l : list A) (m : nat) :
  Forall P l -> Forall P (skipn m l).
Proof.
  revert m. induction l as [|a l IH]; intros m H; destruct m; simpl;
    try assumption.
  apply IH. now inversion H.
Qed.

Lemma forall_list_slice {A : Type} (P : A -> Prop) (l : list A) (i j : Z) :
  Forall P l -> Forall P (Main.list_slice l i j).
Proof.
  intros H. unfold Main.list_slice. now apply forall_firstn, forall_skipn.
Qed.

Lemma history_turns_exposed (turns : list Main.turn) :
  Forall (fun t => Forall (fun v => exposes_both v = true) (Main.results t))
    turns ->
  snd (Main.history_turns repr_other turns) = None.
Proof.
  induction 1 as [|t turns Ht Hturns IH]; [reflexivity|].
  cbn [Main.history_turns].
  pose proof (markdown_each_exposed "• [" "](" ")" _ Ht) as Hshown.
  destruct (Main.markdown_each _ (Main.results t)) as [shown stopped].
  cbn in Hshown. subst stopped.
  now destruct (Main.history_turns repr_other turns) as [shown' stopped'].
Qed.

Hypothesis recommend_returns : forall q, exists response, recommend q = Ok response.
Hypothesis recommend_items :
  forall q response l,
    recommend q = Ok response -> loads response = Ok (JArr l) ->
    Forall (fun v => exposes_both v = true) l.

Lemma typed_more_displays (s : Main.session) :
  displayable s ->
  snd (Main.typed_more repr_other s) = None
  /\ displayable (fst (fst (Main.typed_more repr_other s))).
Proof.
  intros Hs. pose proof Hs as (Hlast & Hhistory). unfold Main.typed_more.
  destruct (2 <=? Main.reply_round s); [now split|].
  destruct (Main.last_results s) as [|r0 rs] eqn:Elast; [now split|].
  cbn [Main.current_index Main.last_results Main.reply_round
       Main.conversation_history].
  pose proof (forall_list_slice _ _ (Main.current_index s)
                (Main.current_index s + 10) Hlast) as Hpage.
  destruct (Main.list_slice (r0 :: rs) (Main.current_index s)
              (Main.current_index s + 10)) as [|n0 ns];
    [now split|].
  pose proof (markdown_each_exposed "**🔹 " Main.view_link ")" _ Hpage)
    as Hshown.
  destruct (Main.markdown_each _ _) as [shown stopped].
  cbn in Hshown |- *. split; [exact Hshown|]. now split.
Qed.

Lemma new_query_displays (s : Main.session) (input : string) :
  displayable s ->
  snd (Main.new_query repr_other recommend s input) = None
  /\ displayable (fst (fst (Main.new_query repr_other recommend s input))).
Proof.
  intros (Hlast & Hhistory). unfold Main.new_query.
  destruct (recommend_returns input) as (response & Hresponse).
  rewrite Hresponse.
  assert (Hfound : forall l, loads response = Ok (JArr l) ->
                     Forall (fun v => exposes_both v = true) l)
    by (intros l; apply (recommend_items input response l Hresponse)).
  destruct (loads response) as [[| | | | |l|]|e];
    try (cbn; split; [reflexivity | now split]).
  specialize (Hfound l eq_refl).
  destruct l as [|r0 rs]; [cbn; split; [reflexivity | now split]|].
  pose proof (forall_list_prefix _ _ 10 Hfound) as Hpage.
  pose proof (markdown_each_exposed " " ("  " ++ nl ++ " (") ")" _ Hpage)
    as Hshown.
  destruct (Main.markdown_each _ _) as [shown stopped].
  cbn in Hshown |- *. split; [exact Hshown|]. split; [exact Hfound|].
  apply Forall_app. split; [exact Hhistory|].
  constructor; [exact Hpage | constructor].
Qed.

Lemma submit_displays (w : Main.widgets) (s : Main.session) :
  displayable s ->
  snd (Main.submit_block repr_other recommend w s) = None
  /\ displayable (fst (fst (Main.submit_block repr_other recommend w s))).
Proof.
  intros Hs. unfold Main.submit_block.
  destruct (_ && _)%bool; [|now split].
  destruct (Main.is_more _);
    [now apply typed_more_displays | now apply new_query_displays].
Qed.

Lemma show_more_displays (w : Main.widgets) (s : Main.session) :
  displayable s ->
  snd (Main.show_more_block repr_other w s) = None
  /\ displayable (fst (fst (Main.show_more_block repr_other w s))).
Proof.
  intros Hs. pose proof Hs as (Hlast & Hhistory). unfold Main.show_more_block.
  destruct (Main.last_results s) as [|r0 rs] eqn:Elast; [now split|].
  destruct ((0 <? Main.reply_round s) && (Main.reply_round s <? 3))%bool;
    [|now split].
  destruct (Main.show_more w); [|now split].
  cbn [Main.current_index Main.last_results Main.reply_round
       Main.conversation_history].
  pose proof (forall_list_slice _ _ (Main.current_index s)
                (Main.current_index s + 10) Hlast) as Hpage.
  destruct (Main.list_slice (r0 :: rs) (Main.current_index s)
              (Main.current_index s + 10)) as [|n0 ns];
    [now split|].
  pose proof (markdown_each_exposed EmptyString Main.view_link ")" _ Hpage)
    as Hshown.
  destruct (Main.markdown_each _ _) as [shown stopped].
  cbn in Hshown |- *. split; [exact Hshown|]. now split.
Qed.

Lemma run_displays (s : Main.session) (w : Main.widgets) :
  displayable s ->
  snd (Main.run repr_other recommend s w) = None
  /\ displayable (fst (fst (Main.run repr_other recommend s w))).
Proof.
  intros Hs. unfold Main.run.
  set (header := (s, _, None) : Main.progress).
  assert (H1 : snd (Main.and_then header
                      (Main.submit_block repr_other recommend w)) = None
               /\ displayable
                    (fst (fst (Main.and_then header
                                 (Main.submit_block repr_other recommend w))))).
  { split.
    - apply and_then_runs_on; [reflexivity|]. now apply submit_displays.
    - apply (and_then_state displayable); [exact Hs|].
      intros s' Hs'. now apply submit_displays. }
  destruct H1 as [Hrun1 Hs1].
  set (first := Main.and_then header _) in *.
  assert (H2 : snd (Main.and_then first (Main.show_more_block repr_other w))
               = None
               /\ displayable
                    (fst (fst (Main.and_then first
                                 (Main.show_more_block repr_other w))))).
  { split.
    - apply and_then_runs_on; [exact Hrun1|]. now apply show_more_displays.
    - apply (and_then_state displayable); [exact Hs1|].
      intros s' Hs'. now apply show_more_displays. }
  destruct H2 as [Hrun2 Hs2].
  set (second := Main.and_then first _) in *.
  split.
  - apply and_then_runs_on; [exact Hrun2|].
    unfold Main.history_block.
    pose proof (history_turns_exposed _ (proj2 Hs2)) as Hhist.
    destruct (Main.history_turns _ _) as [shown stopped]. exact Hhist.
  - apply (and_then_state displayable); [exact Hs2|].
    intros s' Hs'. now rewrite history_state.
Qed.

Lemma runs_displayable (ws : list Main.widgets) :
  forall s, displayable s ->
    displayable (Main.runs repr_other recommend s ws).
Proof.
  induction ws as [|w ws IH]; intros s Hs; [exact Hs|].
  cbn [Main.runs]. apply IH. now apply run_displays.
Qed.

End PageSession.

(** X19. Whatever is typed and clicked, and whatever the recommender
    returns or raises, the session of the page stays in bounds: the round
    of replies is between 0 and 3, the paging index is ten times a number
    of pages between 0 and the round (so at most 30), and every turn of the
    conversation history holds at most ten results. *)
Theorem session_stays_in_bounds :
  forall (repr_other : json -> string) (recommend : string -> exc string)
         (ws : list Main.widgets),
    Main.in_bounds (Main.runs repr_other recommend Main.initial ws).
Proof.
  intros repr_other recommend ws.
  assert (H : forall s, Main.in_bounds s ->
                Main.in_bounds (Main.runs repr_other recommend s ws)).
  { induction ws as [|w ws IH]; intros s Hs; [exact Hs|].
    cbn [Main.runs]. apply IH. now apply run_bounds. }
  apply H. unfold Main.in_bounds, Main.initial.
  cbn [Main.reply_round Main.current_index Main.conversation_history].
  split; [lia|]. split; [exists 0; lia | constructor].
Qed.

(** X20. When the recommender always returns and, whenever its text decodes
    to a list, every item of the list has a name and a link, no run of the
    page is stopped by an exception, whatever was typed and clicked in the
    runs before it and in this one. *)
Theorem page_is_never_stopped :
  forall (repr_other : json -> string) (recommend : string -> exc string),
    (forall q, exists response, recommend q = Ok response) ->
    (forall q response l,
        recommend q = Ok response -> loads response = Ok (JArr l) ->
        Forall (fun v => exposes_both v = true) l) ->
    forall (ws : list Main.widgets) (w : Main.widgets),
      snd (Main.run repr_other recommend
             (Main.runs repr_other recommend Main.initial ws) w) = None.
Proof.
  intros repr_other recommend Hreturns Hitems ws w.
  apply (run_displays repr_other recommend Hreturns Hitems).
  apply (runs_displayable repr_other recommend Hreturns Hitems).
  split; constructor.
Qed.

Lemma page_is_never_stopped_witness :
  snd (Main.run Sample.repr MoreSample.recommender
         (Main.runs Sample.repr MoreSample.recommender Main.initial
            MoreSample.visit)
         {| Main.user_input := "more options"; Main.submit := true;
            Main.show_more := false |}) = None.
Proof.
  apply (page_is_never_stopped Sample.repr MoreSample.recommender).
  - intros q. exists Sample.reply_two_items. reflexivity.
  - intros q response l Hq Hl. injection Hq as <-.
    vm_compute in Hl. injection Hl as <-.
    repeat constructor.
Defined.

(* ===================================================================== *)
(** * The text of the recommender, written and read back *)
(* ===================================================================== *)

Section EncoderFacts.

(** ** Strings *)

Lemma scanstring_char (c : ascii) (f : nat) (r acc : string) :
  scanstring (S f) (Dumps.escape_char c ++ r) acc
  = scanstring f r (acc ++ String c EmptyString).
Proof.
  destruct c as [[] [] [] [] [] [] [] []]; reflexivity.
Qed.

Lemma scanstring_escape (s : string) :
  forall (fuel : nat) (rest acc : string),
    (String.length s < fuel)%nat ->
    scanstring fuel (Dumps.escape s ++ String dquote rest) acc
    = Some (acc ++ s, rest).
Proof.
  induction s as [|c s IH]; intros fuel rest acc Hfuel;
    destruct fuel as [|f]; try (simpl in Hfuel; lia).
  - rewrite app_empty_r. reflexivity.
  - cbn [Dumps.escape]. rewrite app_assoc, scanstring_char.
    rewrite IH by (simpl in Hfuel; lia).
    now rewrite app_assoc.
Qed.

Lemma escape_char_length (c : ascii) :
  (1 <= String.length (Dumps.escape_char c))%nat.
Proof. destruct c as [[] [] [] [] [] [] [] []]; vm_compute; lia. Qed.

Lemma escape_length (s : string) :
  (String.length s <= String.length (Dumps.escape s))%nat.
Proof.
  induction s as [|c s IH]; [reflexivity|].
  cbn [Dumps.escape]. rewrite length_app.
  pose proof (escape_char_length c). simpl. lia.
Qed.

(** ** Numbers *)

Lemma not_a_point {T : Type} (a : ascii) (X Y : T) :
  Ascii.eqb a "." = false ->
  match a with "."%char => X | _ => Y end = Y.
Proof.
  destruct a as [[] [] [] [] [] [] [] []]; intros H; try reflexivity.
  discriminate H.
Qed.

Lemma not_a_minus {T : Type} (a : ascii) (X Y : T) :
  Ascii.eqb a "-" = false ->
  match a with "-"%char => X | _ => Y end = Y.
Proof.
  destruct a as [[] [] [] [] [] [] [] []]; intros H; try reflexivity.
  discriminate H.
Qed.

Lemma span_digits_run (ds rest : string) :
  all_chars is_digit ds = true ->
  match rest with EmptyString => true | String c _ => negb (is_digit c) end = true ->
  span_digits (ds ++ rest) = (ds, rest).
Proof.
  intros Hds Hrest. induction ds as [|c ds IH].
  - destruct rest as [|c t]; [reflexivity|]. simpl.
    apply negb_true_iff in Hrest. now rewrite Hrest.
  - simpl in Hds. apply andb_prop in Hds as [Hc Hds].
    simpl. rewrite Hc, (IH Hds). reflexivity.
Qed.

Lemma follows_not_digit (rest : string) :
  follows rest = true ->
  match rest with EmptyString => true | String c _ => negb (is_digit c) end = true.
Proof.
  destruct rest as [|c t]; [reflexivity|]. unfold follows.
  intros H. apply negb_true_iff in H. apply negb_true_iff.
  now destruct (is_digit c).
Qed.

Lemma match_number_run (neg : bool) (c : ascii) (ds rest : string) :
  between 49 57 c = true ->
  all_chars is_digit ds = true ->
  follows rest = true ->
  match_number ((if neg then "-" else EmptyString) ++ String c ds ++ rest)
  = Some (JInt (negate neg (int (String c ds))), rest).
Proof.
  intros Hc Hds Hrest.
  assert (Hdigit : is_digit c = true).
  { unfold is_digit, between in *. apply andb_prop in Hc as [H1 H2].
    apply N.leb_le in H1. rewrite H2, andb_true_r. apply N.leb_le. lia. }
  assert (Hzero : Ascii.eqb c "0" = false).
  { apply Ascii.eqb_neq. intros ->. discriminate Hc. }
  assert (Hminus : Ascii.eqb c "-" = false).
  { apply Ascii.eqb_neq. intros ->. discriminate Hc. }
  assert (Hspan : span_digits (String c (ds ++ rest)) = (String c ds, rest)).
  { apply (span_digits_run (String c ds) rest); [|now apply follows_not_digit].
    simpl. now rewrite Hdigit. }
  assert (Htail : forall a t, rest = String a t ->
            Ascii.eqb a "." = false
            /\ (Ascii.eqb a "e" || Ascii.eqb a "E")%bool = false).
  { intros a t ->. unfold follows in Hrest. apply negb_true_iff in Hrest.
    destruct (is_digit a); [discriminate|].
    destruct (Ascii.eqb a "."); [discriminate|].
    destruct (Ascii.eqb a "e"); [discriminate|].
    destruct (Ascii.eqb a "E"); [discriminate|]. now split. }
  unfold match_number.
  destruct neg.
  - cbn [append]. cbn -[span_digits int].
    rewrite Hzero, Hc, Hspan.
    destruct rest as [|a t]; [reflexivity|].
    destruct (Htail a t eq_refl) as [Hpoint Hexp].
    rewrite not_a_point by exact Hpoint.
    rewrite Hexp. reflexivity.
  - cbn [append]. cbn -[span_digits int].
    rewrite not_a_minus by exact Hminus.
    rewrite Hzero, Hc, Hspan.
    destruct rest as [|a t]; [reflexivity|].
    destruct (Htail a t eq_refl) as [Hpoint Hexp].
    rewrite not_a_point by exact Hpoint.
    rewrite Hexp. reflexivity.
Qed.

Lemma match_number_zero (rest : string) :
  follows rest = true ->
  match_number (String "0" rest) = Some (JInt 0, rest).
Proof.
  intros Hrest. unfold match_number. cbn -[span_digits int].
  destruct rest as [|a t]; [reflexivity|].
  unfold follows in Hrest. apply negb_true_iff in Hrest.
  destruct (is_digit a); [discriminate|].
  destruct (Ascii.eqb a ".") eqn:Hpoint; [discriminate|].
  destruct (Ascii.eqb a "e") eqn:He; [discriminate|].
  destruct (Ascii.eqb a "E") eqn:HE; [discriminate|].
  rewrite not_a_point by exact Hpoint.
  rewrite He, HE. reflexivity.
Qed.

(** The decimal numeral of a positive number starts with a digit other
    than zero. *)
Lemma to_uint_head (p : positive) :
  exists c ds,
    NilEmpty.string_of_uint (Pos.to_uint p) = String c ds
    /\ between 49 57 c = true
    /\ all_chars is_digit ds = true.
Proof.
  pose proof (digits_of_uint (Pos.to_uint p)) as Hall.
  assert (Hnorm : Decimal.unorm (Pos.to_uint p) = Pos.to_uint p).
  { rewrite <- (DecimalPos.Unsigned.to_of (Pos.to_uint p)).
    now rewrite DecimalPos.Unsigned.of_to. }
  assert (Hhead : forall d, Pos.to_uint p <> Decimal.D0 d).
  { intros d Hd. unfold Decimal.unorm in Hnorm.
    destruct (Decimal.nzhead (Pos.to_uint p)) eqn:Hnz;
      try (rewrite Hd in Hnorm; discriminate Hnorm).
    - apply (DecimalPos.Unsigned.to_uint_nonzero p). now rewrite <- Hnorm.
    - exact (Stdlib.Numbers.DecimalFacts.nzhead_nonzero _ _ Hnz). }
  pose proof (DecimalPos.Unsigned.to_uint_nonnil p) as Hnn.
  destruct (Pos.to_uint p) as [|d|d|d|d|d|d|d|d|d|d];
    [congruence | exfalso; now apply (Hhead d) | ..];
    cbn [NilEmpty.string_of_uint] in *;
    eexists _, _; (split; [reflexivity|]); (split; [reflexivity|]);
    simpl in Hall; exact Hall.
Qed.

Lemma str_of_int_neg (p : positive) :
  str_of_int (Z.neg p)
  = String "-" (NilEmpty.string_of_uint (Pos.to_uint p)).
Proof.
  unfold str_of_int. cbn [Z.to_int NilZero.string_of_int].
  unfold NilZero.string_of_uint.
  pose proof (DecimalPos.Unsigned.to_uint_nonnil p) as Hnn.
  destruct (Pos.to_uint p); [congruence | reflexivity ..].
Qed.

Lemma match_number_int (n : Z) (rest : string) :
  follows rest = true ->
  match_number (str_of_int n ++ rest) = Some (JInt n, rest).
Proof.
  intros Hrest. destruct n as [|p|p].
  - apply (match_number_zero rest Hrest).
  - destruct (to_uint_head p) as (c & ds & Heq & Hc & Hds).
    pose proof (int_str_of_int (Z.pos p) ltac:(lia)) as Hint.
    rewrite str_of_int_pos in *. rewrite Heq in *.
    pose proof (match_number_run false c ds rest Hc Hds Hrest) as Hrun.
    cbn [negate] in Hrun. rewrite Hint in Hrun. exact Hrun.
  - destruct (to_uint_head p) as (c & ds & Heq & Hc & Hds).
    pose proof (int_str_of_int (Z.pos p) ltac:(lia)) as Hint.
    rewrite str_of_int_pos in Hint. rewrite str_of_int_neg, Heq in *.
    pose proof (match_number_run true c ds rest Hc Hds Hrest) as Hrun.
    cbn [negate] in Hrun. rewrite Hint in Hrun. exact Hrun.
Qed.

End EncoderFacts.

Section RoundTrip.

Variable g : layout.
Variable float_repr : string -> string.
Hypothesis g_blank : blank_layout g.

Lemma opens_not_ws (c : ascii) : opens c = true -> is_ws c = false.
Proof.
  destruct c as [[] [] [] [] [] [] [] []]; intros H; try reflexivity;
    vm_compute in H; discriminate H.
Qed.

Lemma skip_ws_opens (c : ascii) (t : string) :
  opens c = true -> skip_ws (String c t) = String c t.
Proof. intros H. simpl. now rewrite (opens_not_ws c H). Qed.

Lemma skip_ws_blank (b s : string) :
  blank b = true -> skip_ws (b ++ s) = skip_ws s.
Proof.
  unfold blank. induction b as [|c b IH]; [reflexivity|]. simpl.
  intros H. apply andb_prop in H as [Hc Hb]. rewrite Hc. now apply IH.
Qed.

Lemma skip_ws_idempotent (s : string) : skip_ws (skip_ws s) = skip_ws s.
Proof.
  induction s as [|c s IH]; [reflexivity|]. simpl.
  destruct (is_ws c) eqn:E; [exact IH|]. simpl. now rewrite E.
Qed.

Lemma ws_follows (c : ascii) (t : string) :
  is_ws c = true -> follows (String c t) = true.
Proof.
  destruct c as [[] [] [] [] [] [] [] []]; intros H; try reflexivity;
    vm_compute in H; discriminate H.
Qed.

Lemma follows_blank (b rest : string) :
  blank b = true -> follows rest = true -> follows (b ++ rest) = true.
Proof.
  destruct b as [|c b]; [now intros _|].
  unfold blank. simpl. intros H _. apply andb_prop in H as [Hc _].
  exact (ws_follows c (b ++ rest) Hc).
Qed.

Lemma scan_once_string (f : nat) (r : string) :
  scan_once (S f) (String dquote r)
  = match scanstring (S (String.length r)) r EmptyString with
    | Some (t, r') => Some (JStr t, r')
    | None => None
    end.
Proof. reflexivity. Qed.

Lemma scan_once_number (f : nat) (c : ascii) (t : string)
    (res : json * string) :
  (is_digit c || Ascii.eqb c "-")%bool = true ->
  match_number (String c t) = Some res ->
  scan_once (S f) (String c t) = Some res.
Proof.
  intros Hc Hres.
  destruct c as [[] [] [] [] [] [] [] []];
    try (vm_compute in Hc; discriminate Hc);
    cbn -[match_number]; now rewrite Hres.
Qed.

Lemma scan_once_array (f : nat) (c : ascii) (t : string) :
  opens c = true ->
  scan_once (S f) (String "[" (String c t))
  = match array_items f (String c t) with
    | Some (l, r) => Some (JArr l, r)
    | None => None
    end.
Proof.
  intros Hc.
  destruct c as [[] [] [] [] [] [] [] []];
    try (vm_compute in Hc; discriminate Hc); reflexivity.
Qed.

Lemma scan_once_bracket (f : nat) (r : string) :
  scan_once (S f) (String "[" r) = scan_once (S f) (String "[" (skip_ws r)).
Proof.
  cbn -[skip_ws array_items object_pairs scanstring].
  now rewrite skip_ws_idempotent.
Qed.

Lemma scan_once_brace (f : nat) (r : string) :
  scan_once (S f) (String "{" r) = scan_once (S f) (String "{" (skip_ws r)).
Proof.
  cbn -[skip_ws array_items object_pairs scanstring].
  now rewrite skip_ws_idempotent.
Qed.

Lemma scan_once_array_open (f : nat) (b : string) (c : ascii) (t : string) :
  blank b = true -> opens c = true ->
  scan_once (S f) (String "[" (b ++ String c t))
  = match array_items f (String c t) with
    | Some (l, r) => Some (JArr l, r)
    | None => None
    end.
Proof.
  intros Hb Hc.
  rewrite scan_once_bracket, (skip_ws_blank b _ Hb), (skip_ws_opens c t Hc).
  now apply scan_once_array.
Qed.

Lemma scan_once_object_open (f : nat) (b t : string) :
  blank b = true ->
  scan_once (S f) (String "{" (b ++ String dquote t))
  = match object_pairs f (String dquote t) [] with
    | Some (d, r) => Some (JObj d, r)
    | None => None
    end.
Proof.
  intros Hb. rewrite scan_once_brace, (skip_ws_blank b _ Hb). reflexivity.
Qed.

Lemma array_items_close (f : nat) (s : string) (v : json) (b rest : string) :
  blank b = true ->
  scan_once f s = Some (v, b ++ String "]" rest) ->
  array_items (S f) s = Some ([v], rest).
Proof.
  intros Hb H. cbn [array_items]. rewrite H, (skip_ws_blank b _ Hb).
  reflexivity.
Qed.

Lemma array_items_sep (f : nat) (s : string) (v : json) (b : string)
    (c : ascii) (next : string) :
  blank b = true -> opens c = true ->
  scan_once f s = Some (v, String "," (b ++ String c next)) ->
  array_items (S f) s
  = match array_items f (String c next) with
    | Some (l, r) => Some (v :: l, r)
    | None => None
    end.
Proof.
  intros Hb Hc H. cbn [array_items]. rewrite H.
  change (skip_ws (String "," (b ++ String c next)))
    with (String "," (b ++ String c next)).
  cbv iota beta.
  now rewrite (skip_ws_blank b _ Hb), (skip_ws_opens c next Hc).
Qed.

Lemma object_pairs_step (f : nat) (k : string) (c : ascii) (t : string)
    (x : json) (next : string) (acc : dict) :
  opens c = true ->
  scan_once f (String c t) = Some (x, next) ->
  object_pairs (S f)
    (String dquote
       (Dumps.escape k
        ++ String dquote (String ":" (String " " (String c t))))) acc
  = match skip_ws next with
    | String "}" r4 => Some (dict_set k x acc, r4)
    | String "," r4 => object_pairs f (skip_ws r4) (dict_set k x acc)
    | _ => None
    end.
Proof.
  intros Hc Hx. cbn [object_pairs].
  change (Ascii.eqb dquote dquote) with true. cbv iota.
  rewrite scanstring_escape
    by (rewrite length_app; pose proof (escape_length k); simpl; lia).
  cbv iota beta. cbn [append].
  change (skip_ws (String ":" (String " " (String c t))))
    with (String ":" (String " " (String c t))).
  cbv iota beta.
  change (skip_ws (String " " (String c t))) with (skip_ws (String c t)).
  rewrite (skip_ws_opens c t Hc), Hx. reflexivity.
Qed.

Lemma object_pairs_close (f : nat) (k : string) (c : ascii) (t : string)
    (x : json) (b rest : string) (acc : dict) :
  blank b = true -> opens c = true ->
  scan_once f (String c t) = Some (x, b ++ String "}" rest) ->
  object_pairs (S f)
    (String dquote
       (Dumps.escape k
        ++ String dquote (String ":" (String " " (String c t))))) acc
  = Some (dict_set k x acc, rest).
Proof.
  intros Hb Hc Hx.
  rewrite (object_pairs_step f k c t x _ acc Hc Hx), (skip_ws_blank b _ Hb).
  reflexivity.
Qed.

Lemma object_pairs_sep (f : nat) (k : string) (c : ascii) (t : string)
    (x : json) (b next : string) (acc : dict) :
  blank b = true -> opens c = true ->
  scan_once f (String c t)
  = Some (x, String "," (b ++ String dquote next)) ->
  object_pairs (S f)
    (String dquote
       (Dumps.escape k
        ++ String dquote (String ":" (String " " (String c t))))) acc
  = object_pairs f (String dquote next) (dict_set k x acc).
Proof.
  intros Hb Hc Hx. rewrite (object_pairs_step f k c t x _ acc Hc Hx).
  change (skip_ws (String "," (b ++ String dquote next)))
    with (String "," (b ++ String dquote next)).
  cbv iota beta. now rewrite (skip_ws_blank b _ Hb).
Qed.

Lemma write_head (level : nat) (v : json) :
  float_free v = true ->
  exists c t, write g float_repr level v = String c t /\ opens c = true.
Proof.
  destruct v as [|[]|n|lit|s|[|x items]|[|kv fields]]; intros Hv;
    try discriminate Hv;
    try (eexists _, _; split; [reflexivity | reflexivity]).
  cbn [write]. destruct n as [|p|p].
  - eexists _, _; split; reflexivity.
  - destruct (to_uint_head p) as (c & ds & Heq & Hc & Hds).
    rewrite str_of_int_pos, Heq. exists c, ds. split; [reflexivity|].
    unfold opens. unfold is_digit, between in *.
    apply andb_prop in Hc as [H1 H2]. apply N.leb_le in H1.
    rewrite H2. replace (48 <=? code c)%N with true
      by (symmetry; apply N.leb_le; lia). reflexivity.
  - rewrite str_of_int_neg. eexists _, _; split; reflexivity.
Qed.

Lemma dict_set_fresh (k : string) (x : json) (acc : dict) :
  existsb (String.eqb k) (keys acc) = false ->
  dict_set k x acc = (acc ++ [(k, x)])%list.
Proof.
  induction acc as [|[k' v'] acc IH]; intros Hfresh; [reflexivity|].
  cbn in Hfresh. apply orb_false_iff in Hfresh as [Hk Hrest].
  cbn [dict_set app]. rewrite String.eqb_sym, Hk. f_equal. now apply IH.
Qed.

Lemma distinct_middle (acc : dict) (k : string) (x : json) (r : dict) :
  distinct (keys (acc ++ (k, x) :: r)%list) = true ->
  existsb (String.eqb k) (keys acc) = false.
Proof.
  induction acc as [|[k' v'] acc IH]; intros Hd; [reflexivity|].
  cbn in Hd. apply andb_prop in Hd as [Hfresh Hd].
  apply negb_true_iff in Hfresh.
  unfold keys in Hfresh. rewrite map_app, existsb_app in Hfresh.
  apply orb_false_iff in Hfresh as [_ Hfresh]. cbn in Hfresh.
  apply orb_false_iff in Hfresh as [Hk _].
  cbn. rewrite String.eqb_sym, Hk. now apply IH.
Qed.

Lemma join_head (sep : string) (c : ascii) (t : string) (more : list string) :
  exists t', join sep (String c t :: more) = String c t'.
Proof. destruct more; eexists; reflexivity. Qed.

Lemma join_cons2 (sep a b : string) (r : list string) :
  join sep (a :: b :: r) = a ++ sep ++ join sep (b :: r).
Proof. reflexivity. Qed.

Lemma array_items_write (level : nat) (items : list json) :
  Forall (reads_back g float_repr) items ->
  forallb float_free items = true ->
  forallb keys_distinct items = true ->
  items <> [] ->
  forall (fuel : nat) (rest : string),
    (list_sum (map (fun x => S (weight x)) items) <= fuel)%nat ->
    array_items fuel
      (join ("," ++ after_comma g level)
         (map (write g float_repr (S level)) items)
       ++ before_close g level ++ String "]" rest)
    = Some (items, rest).
Proof.
  destruct (g_blank level) as (_ & Hcomma & Hclose).
  induction 1 as [|x items Hx Hitems IH]; intros Hff Hkd Hne fuel rest Hfuel;
    [congruence|].
  cbn [forallb] in Hff, Hkd.
  apply andb_prop in Hff as [Hffx Hff]. apply andb_prop in Hkd as [Hkdx Hkd].
  unfold list_sum in *. cbn [map fold_right] in Hfuel.
  destruct fuel as [|f]; [lia|].
  destruct items as [|y items].
  - cbn [map join].
    apply (array_items_close f _ x (before_close g level) rest Hclose).
    apply (Hx Hffx Hkdx); [cbn in Hfuel; lia|].
    now apply follows_blank.
  - assert (Hy : float_free y = true)
      by (cbn in Hff; now apply andb_prop in Hff as [Hy _]).
    destruct (write_head (S level) y Hy) as (c & t & Hhead & Hc).
    destruct (join_head ("," ++ after_comma g level) c t
                (map (write g float_repr (S level)) items))
      as (t' & Hjoin).
    cbn [map].
    assert (Hrest : join ("," ++ after_comma g level)
                      (write g float_repr (S level) y
                       :: map (write g float_repr (S level)) items)
                    = String c t')
      by (rewrite Hhead; exact Hjoin).
    rewrite join_cons2, Hrest.
    assert (Htext :
      (write g float_repr (S level) x
       ++ ("," ++ after_comma g level) ++ String c t')
      ++ before_close g level ++ String "]" rest
      = write g float_repr (S level) x
        ++ String ","
             (after_comma g level
              ++ String c (t' ++ before_close g level ++ String "]" rest)))
      by (rewrite !app_assoc; reflexivity).
    rewrite Htext.
    rewrite (array_items_sep f _ x (after_comma g level) c
               (t' ++ before_close g level ++ String "]" rest) Hcomma Hc).
    + change (String c (t' ++ before_close g level ++ String "]" rest))
        with (String c t' ++ before_close g level ++ String "]" rest).
      rewrite <- Hrest.
      change (write g float_repr (S level) y
              :: map (write g float_repr (S level)) items)
        with (map (write g float_repr (S level)) (y :: items)).
      rewrite (IH Hff Hkd ltac:(discriminate) f rest ltac:(lia)).
      reflexivity.
    + apply (Hx Hffx Hkdx); [lia | reflexivity].
Qed.

Lemma pair_text (k body : string) :
  Dumps.encode_str k ++ ": " ++ body
  = String dquote
      (Dumps.escape k ++ String dquote (String ":" (String " " body))).
Proof.
  unfold Dumps.encode_str, dq. rewrite !app_assoc. reflexivity.
Qed.

Lemma object_pairs_write (level : nat) (fields : dict) :
  Forall (fun kv => reads_back g float_repr (snd kv)) fields ->
  forallb (fun kv => float_free (snd kv)) fields = true ->
  forallb (fun kv => keys_distinct (snd kv)) fields = true ->
  fields <> [] ->
  forall (fuel : nat) (rest : string) (acc : dict),
    distinct (keys (acc ++ fields)%list) = true ->
    (list_sum (map (fun kv => S (weight (snd kv))) fields) <= fuel)%nat ->
    object_pairs fuel
      (join ("," ++ after_comma g level)
         (map (member_text g float_repr (S level)) fields)
       ++ before_close g level ++ String "}" rest) acc
    = Some ((acc ++ fields)%list, rest).
Proof.
  destruct (g_blank level) as (_ & Hcomma & Hclose).
  induction 1 as [|[k x] fields Hx Hfields IH];
    intros Hff Hkd Hne fuel rest acc Hdistinct Hfuel; [congruence|].
  cbn [forallb snd] in Hff, Hkd.
  apply andb_prop in Hff as [Hffx Hff]. apply andb_prop in Hkd as [Hkdx Hkd].
  cbn [snd] in Hx.
  unfold list_sum in *. cbn [map fold_right snd] in Hfuel.
  assert (Hfresh : dict_set k x acc = (acc ++ [(k, x)])%list)
    by (apply dict_set_fresh; exact (distinct_middle acc k x fields Hdistinct)).
  destruct (write_head (S level) x Hffx) as (c & t & Hhead & Hc).
  destruct fuel as [|f]; [lia|].
  destruct fields as [|[k2 x2] fields].
  - cbn [map join]. unfold member_text. cbn [fst snd].
    rewrite !app_assoc, pair_text, Hhead.
    change (String c t ++ before_close g level ++ String "}" rest)
      with (String c (t ++ before_close g level ++ String "}" rest)).
    rewrite (object_pairs_close f k c _ x (before_close g level) rest acc
               Hclose Hc); [now rewrite Hfresh|].
    change (String c (t ++ before_close g level ++ String "}" rest))
      with (String c t ++ before_close g level ++ String "}" rest).
    rewrite <- Hhead.
    apply (Hx Hffx Hkdx); [lia | now apply follows_blank].
  - cbn [map]. rewrite join_cons2.
    destruct (join_head ("," ++ after_comma g level) dquote
                (Dumps.escape k2 ++ dq ++ ": "
                 ++ write g float_repr (S level) x2)
                (map (member_text g float_repr (S level)) fields))
      as (next & Hnext).
    assert (Hrest : join ("," ++ after_comma g level)
                      (member_text g float_repr (S level) (k2, x2)
                       :: map (member_text g float_repr (S level)) fields)
                    = String dquote next).
    { rewrite <- Hnext. f_equal. f_equal.
      unfold member_text, Dumps.encode_str, dq.
      cbn [fst snd]. rewrite !app_assoc. reflexivity. }
    rewrite Hrest. unfold member_text at 1. cbn [fst snd].
    rewrite !app_assoc, pair_text, Hhead.
    change (String c t ++ "," ++ after_comma g level ++ String dquote next
            ++ before_close g level ++ String "}" rest)
      with (String c (t ++ String ","
              (after_comma g level
               ++ String dquote
                    (next ++ before_close g level ++ String "}" rest)))).
    rewrite (object_pairs_sep f k c _ x (after_comma g level)
               (next ++ before_close g level ++ String "}" rest) acc
               Hcomma Hc).
    + rewrite Hfresh.
      change (String dquote
                (next ++ before_close g level ++ String "}" rest))
        with (String dquote next ++ before_close g level ++ String "}" rest).
      rewrite <- Hrest.
      change (member_text g float_repr (S level) (k2, x2)
              :: map (member_text g float_repr (S level)) fields)
        with (map (member_text g float_repr (S level)) ((k2, x2) :: fields)).
      rewrite (IH Hff Hkd ltac:(discriminate) f rest (acc ++ [(k, x)])%list).
      * now rewrite <- List.app_assoc.
      * now rewrite <- List.app_assoc.
      * lia.
    + change (String c (t ++ String ","
                (after_comma g level
                 ++ String dquote
                      (next ++ before_close g level ++ String "}" rest))))
        with (String c t ++ String ","
                (after_comma g level
                 ++ String dquote
                      (next ++ before_close g level ++ String "}" rest))).
      rewrite <- Hhead.
      apply (Hx Hffx Hkdx); [lia | reflexivity].
Qed.

Lemma int_head (n : Z) :
  exists c t,
    str_of_int n = String c t /\ (is_digit c || Ascii.eqb c "-")%bool = true.
Proof.
  destruct n as [|p|p].
  - eexists _, _; split; reflexivity.
  - destruct (to_uint_head p) as (c & ds & Heq & Hc & Hds).
    rewrite str_of_int_pos, Heq. exists c, ds. split; [reflexivity|].
    unfold is_digit, between in *.
    apply andb_prop in Hc as [H1 H2]. apply N.leb_le in H1.
    rewrite H2. replace (48 <=? code c)%N with true
      by (symmetry; apply N.leb_le; lia). reflexivity.
  - rewrite str_of_int_neg. eexists _, _; split; reflexivity.
Qed.

Lemma scan_once_write (v : json) : reads_back g float_repr v.
Proof.
  induction v using json_induction; unfold reads_back;
    intros Hff Hkd level fuel rest Hfuel Hrest;
    (destruct fuel as [|f]; [cbn in Hfuel; lia|]).
  - destruct rest; reflexivity.
  - destruct b, rest; reflexivity.
  - cbn [write].
    destruct (int_head n) as (c & t & Hhead & Hc).
    pose proof (match_number_int n rest Hrest) as Hnum.
    rewrite Hhead in *.
    exact (scan_once_number f c (t ++ rest) _ Hc Hnum).
  - discriminate Hff.
  - cbn [write]. unfold Dumps.encode_str, dq.
    rewrite !app_assoc.
    change (String dquote "" ++ Dumps.escape s ++ String dquote "" ++ rest)
      with (String dquote (Dumps.escape s ++ String dquote rest)).
    rewrite scan_once_string.
    rewrite scanstring_escape
      by (rewrite length_app; pose proof (escape_length s); simpl; lia).
    reflexivity.
  - destruct items as [|x items]; [destruct rest; reflexivity|].
    cbn [write float_free keys_distinct weight] in *.
    destruct (g_blank level) as (Hopen & _ & _).
    assert (Hx : float_free x = true)
      by (cbn in Hff; now apply andb_prop in Hff as [Hx _]).
    destruct (write_head (S level) x Hx) as (c & t & Hhead & Hc).
    destruct (join_head ("," ++ after_comma g level) c t
                (map (write g float_repr (S level)) items))
      as (t' & Hjoin).
    assert (Htext : join ("," ++ after_comma g level)
                      (map (write g float_repr (S level)) (x :: items))
                    = String c t')
      by (cbn [map]; rewrite Hhead; exact Hjoin).
    pose proof (array_items_write level (x :: items) H Hff Hkd
                  ltac:(discriminate) f rest ltac:(lia)) as Hitems.
    rewrite !app_assoc.
    change ("[" ++ after_open g level
            ++ join ("," ++ after_comma g level)
                 (map (write g float_repr (S level)) (x :: items))
            ++ before_close g level ++ "]" ++ rest)
      with (String "["
              (after_open g level
               ++ join ("," ++ after_comma g level)
                    (map (write g float_repr (S level)) (x :: items))
               ++ before_close g level ++ String "]" rest)).
    rewrite Htext in *.
    change (String c t' ++ before_close g level ++ String "]" rest)
      with (String c (t' ++ before_close g level ++ String "]" rest)) in *.
    now rewrite (scan_once_array_open f _ c _ Hopen Hc), Hitems.
  - destruct fields as [|[k x] fields]; [destruct rest; reflexivity|].
    cbn [write float_free keys_distinct weight] in *.
    destruct (g_blank level) as (Hopen & _ & _).
    apply andb_prop in Hkd as [Hdistinct Hkd].
    change (map (fun kv => Dumps.encode_str (fst kv) ++ ": "
                           ++ write g float_repr (S level) (snd kv))
              ((k, x) :: fields))
      with (map (member_text g float_repr (S level)) ((k, x) :: fields)).
    destruct (join_head ("," ++ after_comma g level) dquote
                (Dumps.escape k ++ dq ++ ": "
                 ++ write g float_repr (S level) x)
                (map (member_text g float_repr (S level)) fields))
      as (next & Hnext).
    assert (Htext : join ("," ++ after_comma g level)
                      (map (member_text g float_repr (S level)) ((k, x) :: fields))
                    = String dquote next).
    { rewrite <- Hnext. cbn [map]. f_equal. f_equal.
      unfold member_text, Dumps.encode_str, dq.
      cbn [fst snd]. rewrite !app_assoc. reflexivity. }
    pose proof (object_pairs_write level ((k, x) :: fields) H Hff Hkd
                  ltac:(discriminate) f rest [] Hdistinct ltac:(lia))
      as Hpairs.
    rewrite !app_assoc.
    change ("{" ++ after_open g level
            ++ join ("," ++ after_comma g level)
                 (map (member_text g float_repr (S level)) ((k, x) :: fields))
            ++ before_close g level ++ "}" ++ rest)
      with (String "{"
              (after_open g level
               ++ join ("," ++ after_comma g level)
                    (map (member_text g float_repr (S level)) ((k, x) :: fields))
               ++ before_close g level ++ String "}" rest)).
    rewrite Htext in *.
    change (String dquote next ++ before_close g level ++ String "}" rest)
      with (String dquote (next ++ before_close g level ++ String "}" rest))
      in *.
    now rewrite (scan_once_object_open f _ _ Hopen), Hpairs.
Qed.

Lemma join_weight {A : Type} (w : A -> nat) (text : A -> string)
    (sep : string) (l : list A) :
  Forall (fun a => (w a <= String.length (text a))%nat) l ->
  (list_sum (map (fun a => S (w a)) l)
   <= S (String.length (join ("," ++ sep) (map text l))))%nat.
Proof.
  induction 1 as [|a l Ha Hl IH]; [cbn; lia|].
  destruct l as [|b l]; [cbn; lia|].
  cbn [map] in *. rewrite join_cons2, !length_app.
  unfold list_sum in *. cbn [fold_right] in *.
  change (String.length ",") with 1%nat. lia.
Qed.

Lemma weight_le_length (level : nat) (v : json) :
  float_free v = true ->
  (weight v <= String.length (write g float_repr level v))%nat.
Proof.
  revert level. induction v using json_induction; intros level Hff.
  - cbn; lia.
  - destruct b; cbn; lia.
  - destruct (int_head n) as (c & t & Hhead & _).
    cbn [write weight]. rewrite Hhead. cbn. lia.
  - discriminate Hff.
  - cbn [write weight]. unfold Dumps.encode_str, dq.
    rewrite !length_app. cbn. lia.
  - destruct items as [|x items]; [cbn; lia|].
    cbn [write weight float_free] in *.
    rewrite !length_app. change (String.length "[") with 1%nat.
    change (String.length "]") with 1%nat.
    pose proof (join_weight weight (write g float_repr (S level))
                  (after_comma g level) (x :: items)) as Hjoin.
    assert (Hall : Forall (fun a => (weight a
                     <= String.length (write g float_repr (S level) a))%nat)
                     (x :: items)).
    { rewrite forallb_forall in Hff. rewrite Forall_forall in *.
      intros y Hy. apply H; [exact Hy | now apply Hff]. }
    specialize (Hjoin Hall). lia.
  - destruct fields as [|kv fields]; [cbn; lia|].
    cbn [write weight float_free] in *.
    rewrite !length_app. change (String.length "{") with 1%nat.
    change (String.length "}") with 1%nat.
    pose proof (join_weight (fun kv => weight (snd kv))
                  (member_text g float_repr (S level))
                  (after_comma g level) (kv :: fields)) as Hjoin.
    assert (Hall : Forall (fun kv => (weight (snd kv)
                     <= String.length (member_text g float_repr (S level) kv))%nat)
                     (kv :: fields)).
    { rewrite forallb_forall in Hff. rewrite Forall_forall in *.
      intros y Hy. unfold member_text. rewrite !length_app.
      specialize (H y Hy (S level) (Hff y Hy)). lia. }
    specialize (Hjoin Hall). unfold member_text in Hjoin. lia.
Qed.

Lemma loads_write (level : nat) (v : json) :
  float_free v = true -> keys_distinct v = true ->
  loads (write g float_repr level v) = Ok v.
Proof.
  intros Hff Hkd. unfold loads.
  destruct (write_head level v Hff) as (c & t & Hhead & Hc).
  pose proof (weight_le_length level v Hff) as Hweight.
  pose proof (scan_once_write v Hff Hkd level
                (2 * String.length (write g float_repr level v) + 2)%nat
                EmptyString ltac:(lia) eq_refl) as Hscan.
  rewrite app_empty_r in Hscan.
  rewrite Hhead in *. rewrite (skip_ws_opens c t Hc), Hscan. reflexivity.
Qed.

End RoundTrip.

Section Writers.

Variable float_repr : string -> string.

Lemma compact_blank : blank_layout compact.
Proof. intros level. repeat split. Qed.

Lemma blank_spaces (n : nat) : blank (Dumps.spaces n) = true.
Proof. induction n as [|n IH]; [reflexivity | exact IH]. Qed.

Lemma indented_blank (indent : nat) : blank_layout (indented indent).
Proof.
  intros level. repeat split; apply blank_spaces.
Qed.

Lemma map_write {A : Type} (f h : A -> string) (l : list A) :
  Forall (fun a => f a = h a) l -> map f l = map h l.
Proof. induction 1; cbn [map]; congruence. Qed.

Lemma dumps_write (v : json) :
  forall level, Dumps.dumps float_repr v = write compact float_repr level v.
Proof.
  induction v using json_induction; intros level;
    try reflexivity.
  - destruct items as [|x items]; [reflexivity|].
    cbn [Dumps.dumps write compact after_open after_comma before_close].
    rewrite (map_write (Dumps.dumps float_repr)
               (write compact float_repr (S level)) (x :: items)).
    + reflexivity.
    + eapply Forall_impl; [|exact H]. intros a Ha. apply Ha.
  - destruct fields as [|kv fields]; [reflexivity|].
    cbn [Dumps.dumps write compact after_open after_comma before_close].
    rewrite (map_write
               (fun kv => Dumps.encode_str (fst kv) ++ ": "
                          ++ Dumps.dumps float_repr (snd kv))
               (fun kv => Dumps.encode_str (fst kv) ++ ": "
                          ++ write compact float_repr (S level) (snd kv))
               (kv :: fields)).
    + reflexivity.
    + eapply Forall_impl; [|exact H]. intros a Ha. cbn beta.
      now rewrite (Ha (S level)).
Qed.

Lemma dump_write (indent : nat) (v : json) :
  forall level,
    Dumps.dump float_repr indent level v
    = write (indented indent) float_repr level v.
Proof.
  induction v using json_induction; intros level;
    try reflexivity.
  - destruct items as [|x items]; [reflexivity|].
    cbn [Dumps.dump write indented after_open after_comma before_close].
    rewrite (map_write (Dumps.dump float_repr indent (S level))
               (write (indented indent) float_repr (S level)) (x :: items)).
    + reflexivity.
    + eapply Forall_impl; [|exact H]. intros a Ha. apply Ha.
  - destruct fields as [|kv fields]; [reflexivity|].
    cbn [Dumps.dump write indented after_open after_comma before_close].
    rewrite (map_write
               (fun kv => Dumps.encode_str (fst kv) ++ ": "
                          ++ Dumps.dump float_repr indent (S level) (snd kv))
               (fun kv => Dumps.encode_str (fst kv) ++ ": "
                          ++ write (indented indent) float_repr (S level)
                               (snd kv))
               (kv :: fields)).
    + reflexivity.
    + eapply Forall_impl; [|exact H]. intros a Ha. cbn beta.
      now rewrite (Ha (S level)).
Qed.

Lemma loads_dumps (v : json) :
  float_free v = true -> keys_distinct v = true ->
  loads (Dumps.dumps float_repr v) = Ok v.
Proof.
  intros Hff Hkd. rewrite (dumps_write v 0%nat).
  exact (loads_write compact float_repr compact_blank 0%nat v Hff Hkd).
Qed.

Lemma loads_dump (indent : nat) (v : json) :
  float_free v = true -> keys_distinct v = true ->
  loads (Dumps.dump float_repr indent 0 v) = Ok v.
Proof.
  intros Hff Hkd. rewrite (dump_write indent v 0%nat).
  exact (loads_write (indented indent) float_repr (indented_blank indent)
           0%nat v Hff Hkd).
Qed.

End Writers.

(** ** Decoded values *)

Ltac head_cases H :=
  repeat match type of H with
         | (match ?e with _ => _ end) = _ =>
             destruct e eqn:?; try discriminate H
         end.

Ltac next_bind H :=
  match type of H with
  | bind ?m _ = _ =>
      let E := fresh "E" in
      destruct m eqn:E; cbn [bind] in H; [|discriminate H]
  end.

Section DecodedFacts.

Lemma match_number_scalar (s : string) (v : json) (r : string) :
  match_number s = Some (v, r) -> keys_distinct v = true.
Proof.
  unfold match_number. cbv zeta. intros H. head_cases H.
  all: injection H as <- <-; reflexivity.
Qed.

Lemma existsb_dict_set (p : string -> bool) (k : string) (x : json)
    (acc : dict) :
  existsb p (keys (dict_set k x acc)) = true ->
  existsb p (keys acc) = true \/ p k = true.
Proof.
  unfold keys. induction acc as [|[k' v'] acc IH]; cbn [dict_set map fst existsb].
  - rewrite orb_false_r. now right.
  - destruct (String.eqb k' k); cbn [map fst existsb]; [now left|].
    intros H. apply orb_prop in H as [H|H]; [left; now rewrite H|].
    destruct (IH H) as [H'|H']; [left; rewrite H'; apply orb_true_r | now right].
Qed.

Lemma dict_set_distinct (k : string) (x : json) (acc : dict) :
  keys_distinct (JObj acc) = true -> keys_distinct x = true ->
  keys_distinct (JObj (dict_set k x acc)) = true.
Proof.
  intros Hacc Hx. induction acc as [|[k' v'] acc IH].
  - cbn. now rewrite Hx.
  - cbn [keys_distinct] in *. unfold keys in *.
    cbn [map fst distinct forallb snd] in Hacc.
    apply andb_prop in Hacc as [Hd Hv].
    apply andb_prop in Hd as [Hfresh Hd].
    apply andb_prop in Hv as [Hv' Hv].
    rewrite Hd, Hv in IH. specialize (IH eq_refl).
    apply andb_prop in IH as [IHd IHv].
    cbn [dict_set]. destruct (String.eqb k' k) eqn:Hk.
    + cbn [map fst distinct forallb snd].
      now rewrite Hfresh, Hd, Hx, Hv.
    + cbn [map fst distinct forallb snd].
      rewrite IHd, IHv, Hv'.
      destruct (existsb (String.eqb k') (map fst (dict_set k x acc))) eqn:He;
        [|reflexivity].
      destruct (existsb_dict_set _ k x acc He) as [H|H].
      * unfold keys in H. apply negb_true_iff in Hfresh. congruence.
      * congruence.
Qed.

Lemma decoded_keys_distinct (fuel : nat) :
  (forall s v r, scan_once fuel s = Some (v, r) -> keys_distinct v = true)
  /\ (forall s l r, array_items fuel s = Some (l, r) ->
        forallb keys_distinct l = true)
  /\ (forall s acc d r, object_pairs fuel s acc = Some (d, r) ->
        keys_distinct (JObj acc) = true -> keys_distinct (JObj d) = true).
Proof.
  induction fuel as [|f (IHv & IHl & IHd)];
    [repeat split; intros; discriminate|].
  split; [|split].
  - intros s v r H. cbn [scan_once] in H. head_cases H.
    all: try (injection H as <- <-; reflexivity).
    all: try (injection H as <- <-; cbn [keys_distinct]; eauto; fail).
    all: try (injection H as <-; eauto using match_number_scalar; fail).
    all: try (injection H as <- <-;
              match goal with
              | E : object_pairs _ _ [] = Some _ |- _ =>
                  exact (IHd _ _ _ _ E eq_refl)
              end).
    all: injection H as ->; eapply match_number_scalar; eassumption.
  - intros s l r H. cbn [array_items] in H. head_cases H.
    all: injection H as <- <-; cbn [forallb];
      repeat match goal with
             | E : scan_once _ _ = Some _ |- _ => apply IHv in E; rewrite E
             | E : array_items _ _ = Some _ |- _ => apply IHl in E; rewrite E
             end; reflexivity.
  - intros s acc d r H Hacc. cbn [object_pairs] in H. head_cases H.
    all: match goal with
         | E : scan_once _ _ = Some _ |- _ => apply IHv in E
         end.
    all: try (injection H as <- <-; now apply dict_set_distinct).
    all: eapply IHd; [exact H | now apply dict_set_distinct].
Qed.

Lemma loads_keys_distinct (s : string) (v : json) :
  loads s = Ok v -> keys_distinct v = true.
Proof.
  unfold loads. intros H. head_cases H. injection H as <-.
  match goal with
  | E : scan_once _ _ = Some _ |- _ =>
      exact (proj1 (decoded_keys_distinct _) _ _ _ E)
  end.
Qed.

Lemma lookup_keys_distinct (d : dict) (k : string) (x : json) :
  keys_distinct (JObj d) = true -> lookup k d = Some x ->
  keys_distinct x = true.
Proof.
  cbn [keys_distinct]. intros H. apply andb_prop in H as [_ H].
  induction d as [|[k' v'] d IH]; cbn [lookup]; [discriminate|].
  cbn [forallb snd] in H. apply andb_prop in H as [Hv Hd].
  destruct (String.eqb k' k); [now intros [= <-] | now apply IH].
Qed.

Lemma getitem_keys_distinct (item : json) (k : string) (x : json) :
  keys_distinct item = true -> getitem item k = Ok x ->
  keys_distinct x = true.
Proof.
  destruct item; try discriminate. cbn [getitem]. intros Hd H.
  destruct (lookup k fields) eqn:E; [|discriminate].
  injection H as <-. exact (lookup_keys_distinct _ _ _ Hd E).
Qed.

Lemma iter_keys_distinct (v : json) (l : list json) :
  keys_distinct v = true -> iter v = Ok l ->
  Forall (fun x => keys_distinct x = true) l.
Proof.
  destruct v; try discriminate; cbn [iter keys_distinct]; intros Hd [= <-].
  - induction (chars s); cbn [map]; constructor; [reflexivity | assumption].
  - apply Forall_forall. now apply forallb_forall.
  - clear Hd. unfold keys.
    induction fields; cbn [map]; constructor; [reflexivity | assumption].
Qed.

Lemma clean_items_keys_distinct (results acc l : list json) :
  Forall (fun x => keys_distinct x = true) results ->
  Forall (fun x => keys_distinct x = true) acc ->
  clean_items results acc = Ok l ->
  Forall (fun x => keys_distinct x = true) l.
Proof.
  revert acc l. induction results as [|item rest IH];
    intros acc l Hres Hacc H; simpl in H.
  - now injection H as <-.
  - inversion Hres as [|? ? Hitem Hrest]; subst.
    next_bind H. next_bind H.
    destruct (a && a0)%bool.
    + next_bind H. next_bind H. eapply IH; [exact Hrest | | exact H].
      apply Forall_app. split; [exact Hacc|].
      constructor; [|constructor]. unfold name_url.
      cbn [keys_distinct keys map fst distinct existsb forallb snd].
      rewrite (getitem_keys_distinct _ _ _ Hitem E1),
        (getitem_keys_distinct _ _ _ Hitem E2). reflexivity.
    + eapply IH; [exact Hrest | exact Hacc | exact H].
Qed.

Lemma parse_ui_reply_keys_distinct (s : string) (v : json) :
  parse_ui_reply s = Ok v -> keys_distinct v = true.
Proof.
  unfold parse_ui_reply.
  destruct ((0 <=? Py.find "[" s) && (Py.find "[" s <? Py.rfind "]" s + 1))%bool.
  - intros H.
    destruct (loads _) as [results|] eqn:Eloads; cbn [bind] in H;
      [|discriminate].
    destruct (iter results) as [l|] eqn:Eiter; cbn [bind] in H;
      [|discriminate].
    destruct (clean_items l []) as [items|] eqn:E; cbn [bind] in H;
      [|discriminate].
    injection H as <-. cbn [keys_distinct].
    apply forallb_forall. apply Forall_forall.
    eapply clean_items_keys_distinct; [|constructor|exact E].
    eapply iter_keys_distinct; [|exact Eiter].
    exact (loads_keys_distinct _ _ Eloads).
  - intros [= <-]. reflexivity.
Qed.

End DecodedFacts.

(** ** The service *)

Section ServiceText.

Variable float_repr : string -> string.
Variable repr_other : json -> string.
Variable _get_products : exc (list json).
Variable random_sample : list json -> nat -> list json.
Variable llm_invoke : string -> exc string.

Lemma ui_value (q : string) (k : Z) (v : json) :
  recommend_assessment repr_other _get_products random_sample llm_invoke q k
  = Ok v ->
  keys_distinct v = true
  /\ exists items, v = JArr items /\ Forall name_url_item items.
Proof.
  unfold recommend_assessment. intros H.
  next_bind H. next_bind H. injection H as <-.
  assert (Herr : keys_distinct error_retrieving = true
                 /\ exists items, error_retrieving = JArr items
                                  /\ Forall name_url_item items).
  { split; [reflexivity|]. eexists. split; [reflexivity|].
    constructor; [|constructor]. unfold name_url_item, name_url. eauto. }
  destruct (llm_invoke _) as [reply|e]; cbn [bind try_except]; [|exact Herr].
  destruct (parse_ui_reply (strip reply)) as [v|e] eqn:Eparse;
    cbn [try_except]; [|exact Herr].
  split; [exact (parse_ui_reply_keys_distinct _ _ Eparse)|].
  exact (parse_ui_reply_two_fields _ _ Eparse).
Qed.

Lemma ui_text (q : string) (k : Z) (v : json) :
  recommend_assessment repr_other _get_products random_sample llm_invoke q k
  = Ok v ->
  float_free v = true ->
  Dumps.recommend_assessment_text float_repr repr_other _get_products
    random_sample llm_invoke q k = Ok (Dumps.dumps float_repr v)
  /\ loads (Dumps.dumps float_repr v) = Ok v.
Proof.
  intros Hv Hff. unfold Dumps.recommend_assessment_text. rewrite Hv.
  split; [reflexivity|].
  apply loads_dumps; [exact Hff|]. exact (proj1 (ui_value q k v Hv)).
Qed.

End ServiceText.

(** X21. What [recommend_assessment] returns can be read back by its
    caller: when the list the function built holds no float, the text it
    returns decodes, by [json.loads], to that very list, which is a list of
    dictionaries with exactly the two fields [name] and [url]. *)
Theorem service_text_decodes :
  forall (float_repr : string -> string) (repr_other : json -> string)
         (_get_products : exc (list json))
         (random_sample : list json -> nat -> list json)
         (llm_invoke : string -> exc string)
         (user_query : string) (k : Z) (v : json),
    recommend_assessment repr_other _get_products random_sample llm_invoke
      user_query k = Ok v ->
    float_free v = true ->
    Dumps.recommend_assessment_text float_repr repr_other _get_products
      random_sample llm_invoke user_query k
    = Ok (Dumps.dumps float_repr v)
    /\ loads (Dumps.dumps float_repr v) = Ok v
    /\ exists items, v = JArr items /\ Forall name_url_item items.
Proof.
  intros float_repr repr_other _get_products random_sample llm_invoke
    user_query k v Hv Hff.
  destruct (ui_text float_repr repr_other _get_products random_sample
              llm_invoke user_query k v Hv Hff) as (Htext & Hloads).
  split; [exact Htext|]. split; [exact Hloads|].
  exact (proj2 (ui_value repr_other _get_products random_sample llm_invoke
                  user_query k v Hv)).
Qed.

Lemma service_text_decodes_witness :
  loads
    (Dumps.dumps MoreSample.literal
       (JArr [JObj [("name", JStr "Java 8 (New)");
                    ("url", JStr "https://www.shl.com/java-8-new/")];
              JObj [("name", JStr "Python (New)");
                    ("url", JStr "https://www.shl.com/python-new/")]]))
  = Ok (JArr [JObj [("name", JStr "Java 8 (New)");
                    ("url", JStr "https://www.shl.com/java-8-new/")];
              JObj [("name", JStr "Python (New)");
                    ("url", JStr "https://www.shl.com/python-new/")]]).
Proof.
  refine (proj1 (proj2 (service_text_decodes MoreSample.literal Sample.repr
                          (Ok Sample.catalog) Sample.first_n
                          (Sample.says Sample.reply_array)
                          "Java developer, 30 minutes" 5 _ _ _))).
  - vm_compute. reflexivity.
  - reflexivity.
Defined.

(* ===================================================================== *)
(** * The page over the service *)
(* ===================================================================== *)

Section PageEvents.

Variable repr_other : json -> string.
Variable recommend : string -> exc string.

Lemma markdown_each_ordinary (line : json -> exc string) (l : list json) :
  forallb ordinary (fst (Main.markdown_each line l)) = true.
Proof.
  induction l as [|x l IH]; [reflexivity|]. cbn [Main.markdown_each].
  destruct (line x); [|reflexivity].
  destruct (Main.markdown_each line l) as [shown stopped]. exact IH.
Qed.

Lemma history_turns_ordinary (turns : list Main.turn) :
  forallb ordinary (fst (Main.history_turns repr_other turns)) = true.
Proof.
  induction turns as [|t turns IH]; [reflexivity|].
  cbn [Main.history_turns].
  pose proof (markdown_each_ordinary
                (Main.entry_line repr_other "• [" "](" ")") (Main.results t))
    as Hshown.
  destruct (Main.markdown_each _ (Main.results t)) as [shown stopped].
  cbn [fst] in Hshown.
  destruct stopped; [exact Hshown|].
  destruct (Main.history_turns repr_other turns) as [shown' stopped'].
  cbn [fst] in *. cbn [forallb ordinary app].
  rewrite forallb_app, Hshown. exact IH.
Qed.

Lemma typed_more_ordinary (s : Main.session) :
  forallb ordinary (snd (fst (Main.typed_more repr_other s))) = true.
Proof.
  unfold Main.typed_more.
  destruct (2 <=? Main.reply_round s); [reflexivity|].
  destruct (Main.last_results s) as [|r0 rs]; [reflexivity|].
  cbn [Main.current_index Main.last_results].
  destruct (Main.list_slice _ _ _) as [|n0 ns]; [reflexivity|].
  pose proof (markdown_each_ordinary
                (Main.entry_line repr_other "**🔹 " Main.view_link ")")
                (n0 :: ns)) as Hshown.
  destruct (Main.markdown_each _ _) as [shown stopped]. exact Hshown.
Qed.

Lemma show_more_ordinary (w : Main.widgets) (s : Main.session) :
  forallb ordinary (snd (fst (Main.show_more_block repr_other w s))) = true.
Proof.
  unfold Main.show_more_block.
  destruct (Main.last_results s) as [|r0 rs]; [reflexivity|].
  destruct (_ && _)%bool; [|reflexivity].
  destruct (Main.show_more w); [|reflexivity].
  cbn [Main.current_index Main.last_results].
  destruct (Main.list_slice _ _ _) as [|n0 ns]; [reflexivity|].
  pose proof (markdown_each_ordinary
                (Main.entry_line repr_other EmptyString Main.view_link ")")
                (n0 :: ns)) as Hshown.
  destruct (Main.markdown_each _ _) as [shown stopped]. exact Hshown.
Qed.

Lemma and_then_ordinary (first : Main.progress)
    (next : Main.session -> Main.progress) :
  forallb ordinary (snd (fst first)) = true ->
  (forall s, forallb ordinary (snd (fst (next s))) = true) ->
  forallb ordinary (snd (fst (Main.and_then first next))) = true.
Proof.
  intros Hfirst Hnext. destruct first as [[s shown] [e|]]; cbn in *;
    [exact Hfirst|].
  specialize (Hnext s). destruct (next s) as [[s' shown'] stopped'].
  cbn in *. now rewrite forallb_app, Hfirst, Hnext.
Qed.

Hypothesis recommend_decodes :
  forall q, exists response l,
    recommend q = Ok response /\ loads response = Ok (JArr l).

Lemma new_query_ordinary (s : Main.session) (input : string) :
  forallb ordinary
    (snd (fst (Main.new_query repr_other recommend s input))) = true.
Proof.
  unfold Main.new_query.
  destruct (recommend_decodes input) as (response & l & -> & ->).
  destruct l as [|r0 rs]; [reflexivity|].
  pose proof (markdown_each_ordinary
                (Main.entry_line repr_other " " ("  " ++ nl ++ " (") ")")
                (list_prefix (r0 :: rs) 10)) as Hshown.
  destruct (Main.markdown_each _ _) as [shown stopped]. exact Hshown.
Qed.

Lemma run_ordinary (s : Main.session) (w : Main.widgets) :
  forallb ordinary (snd (fst (Main.run repr_other recommend s w))) = true.
Proof.
  unfold Main.run.
  apply and_then_ordinary.
  - apply and_then_ordinary; [|intros s'; apply show_more_ordinary].
    apply and_then_ordinary; [reflexivity|].
    intros s'. unfold Main.submit_block.
    destruct (_ && _)%bool; [|reflexivity].
    destruct (Main.is_more _);
      [apply typed_more_ordinary | apply new_query_ordinary].
  - intros s'. unfold Main.history_block.
    pose proof (history_turns_ordinary (Main.conversation_history s')) as H.
    destruct (Main.history_turns _ _) as [shown stopped]. exact H.
Qed.

End PageEvents.

Lemma name_url_item_exposes (v : json) :
  name_url_item v -> exposes_both v = true.
Proof. intros (name & url & ->). reflexivity. Qed.

(** X22. The page over the service: when the dataset is read and rendered
    and no list the service builds holds a float, then, whatever the
    language model replies or raises and whatever is typed and clicked, no
    run of the page is stopped by an exception and none displays the
    message of a failed parse or the raw response; every call displays a
    title, a markdown text, a warning or an information. *)
Theorem page_decodes_the_service :
  forall (float_repr : string -> string) (repr_other : json -> string)
         (random_sample : list json -> nat -> list json)
         (llm_invoke : string -> exc string)
         (products : list json) (products_text : string),
    _format_for_llm repr_other
      (random_sample products (Nat.min 50 (length products))) 30
    = Ok products_text ->
    (forall q v,
        recommend_assessment repr_other (Ok products) random_sample
          llm_invoke q 5 = Ok v ->
        float_free v = true) ->
    forall (ws : list Main.widgets) (w : Main.widgets),
      let service :=
        fun q => Dumps.recommend_assessment_text float_repr repr_other
                   (Ok products) random_sample llm_invoke q 5 in
      snd (Main.run repr_other service
             (Main.runs repr_other service Main.initial ws) w) = None
      /\ forallb ordinary
           (snd (fst (Main.run repr_other service
                        (Main.runs repr_other service Main.initial ws) w)))
         = true.
Proof.
  intros float_repr repr_other random_sample llm_invoke products
    products_text Hfmt Hfloat ws w service.
  assert (Hservice : forall q, exists l,
            service q = Ok (Dumps.dumps float_repr (JArr l))
            /\ loads (Dumps.dumps float_repr (JArr l)) = Ok (JArr l)
            /\ Forall (fun v => exposes_both v = true) l).
  { intros q.
    pose proof (ui_service_try repr_other random_sample llm_invoke
                  products products_text q 5 Hfmt) as Hv.
    destruct (ui_value repr_other (Ok products) random_sample llm_invoke
                q 5 _ Hv) as (_ & l & Hl & Hitems).
    rewrite Hl in Hv.
    destruct (ui_text float_repr repr_other (Ok products) random_sample
                llm_invoke q 5 _ Hv (Hfloat q _ Hv)) as (Htext & Hloads).
    exists l. repeat split; try assumption.
    eapply Forall_impl; [|exact Hitems].
    intros v. apply name_url_item_exposes. }
  assert (Hreturns : forall q, exists response, service q = Ok response).
  { intros q. destruct (Hservice q) as (l & Hq & _). eauto. }
  assert (Hitems : forall q response l,
            service q = Ok response -> loads response = Ok (JArr l) ->
            Forall (fun v => exposes_both v = true) l).
  { intros q response l Hq Hl.
    destruct (Hservice q) as (l' & Hq' & Hl' & Hexp).
    assert (Hsame : response = Dumps.dumps float_repr (JArr l'))
      by congruence.
    subst response.
    assert (Hlist : l = l') by congruence.
    now subst l. }
  split.
  - apply (run_displays repr_other service Hreturns Hitems).
    apply (runs_displayable repr_other service Hreturns Hitems).
    split; constructor.
  - apply run_ordinary. intros q.
    destruct (Hservice q) as (l & Hq & Hl & _). eauto.
Qed.

Lemma page_decodes_the_service_witness :
  snd (Main.run Sample.repr
         (fun q => Dumps.recommend_assessment_text MoreSample.literal
                     Sample.repr (Ok Sample.catalog) Sample.first_n
                     (Sample.says Sample.reply_array) q 5)
         (Main.runs Sample.repr
            (fun q => Dumps.recommend_assessment_text MoreSample.literal
                        Sample.repr (Ok Sample.catalog) Sample.first_n
                        (Sample.says Sample.reply_array) q 5)
            Main.initial MoreSample.visit)
         {| Main.user_input := "more options"; Main.submit := true;
            Main.show_more := false |}) = None
  /\ forallb ordinary
       (snd (fst (Main.run Sample.repr
                    (fun q => Dumps.recommend_assessment_text
                                MoreSample.literal Sample.repr
                                (Ok Sample.catalog) Sample.first_n
                                (Sample.says Sample.reply_array) q 5)
                    (Main.runs Sample.repr
                       (fun q => Dumps.recommend_assessment_text
                                   MoreSample.literal Sample.repr
                                   (Ok Sample.catalog) Sample.first_n
                                   (Sample.says Sample.reply_array) q 5)
                       Main.initial MoreSample.visit)
                    {| Main.user_input := "more options";
                       Main.submit := true; Main.show_more := false |})))
     = true.
Proof.
  apply (page_decodes_the_service MoreSample.literal Sample.repr
           Sample.first_n (Sample.says Sample.reply_array) Sample.catalog
           (match _format_for_llm Sample.repr Sample.catalog 30 with
            | Ok t => t
            | Raise _ => EmptyString
            end)).
  - vm_compute. reflexivity.
  - intros q v Hv. vm_compute in Hv. injection Hv as <-. reflexivity.
Defined.

(** X23. When the language model cannot be reached, or its reply cannot be
    decoded or cleaned, a new query on the page displays the stand-in of
    the service under the heading of the recommended assessments, as an
    assessment named "Error retrieving recommendations" that links to the
    contact page, and keeps it as the results of the query: in
    [last_results], for the follow-ups, and in the conversation history. *)
Theorem service_failure_is_shown_as_a_result :
  forall (float_repr : string -> string) (repr_other : json -> string)
         (random_sample : list json -> nat -> list json)
         (llm_invoke : string -> exc string)
         (products : list json) (products_text : string)
         (s : Main.session) (q : string) (e : exn),
    _format_for_llm repr_other
      (random_sample products (Nat.min 50 (length products))) 30
    = Ok products_text ->
    (response <- llm_invoke (ui_prompt q 5 products_text) ;;
     parse_ui_reply (strip response))%exc = Raise e ->
    strip q <> EmptyString ->
    Main.is_more (strip (Main.lower q)) = false ->
    Main.submit_block repr_other
      (fun q => Dumps.recommend_assessment_text float_repr repr_other
                  (Ok products) random_sample llm_invoke q 5)
      {| Main.user_input := q; Main.submit := true; Main.show_more := false |}
      s
    = ({| Main.conversation_history :=
            (Main.conversation_history s
             ++ [{| Main.query := q;
                    Main.results :=
                      [name_url (JStr "Error retrieving recommendations")
                         (JStr CONTACT_URL)] |}])%list;
          Main.current_index := 10;
          Main.last_results :=
            [name_url (JStr "Error retrieving recommendations")
               (JStr CONTACT_URL)];
          Main.reply_round := 1 |},
       [Main.Markdown "---";
        Main.Markdown ("**Your query:** _" ++ q ++ "_");
        Main.Markdown "## Recommended Assessments";
        Main.Markdown (" Error retrieving recommendations  " ++ nl
                       ++ " (" ++ CONTACT_URL ++ ")")],
       None).
Proof.
  intros float_repr repr_other random_sample llm_invoke products
    products_text s q e Hfmt Hraise Hq Hmore.
  unfold Main.submit_block. cbn [Main.submit Main.user_input].
  apply String.eqb_neq in Hq. rewrite Hq, Hmore. cbn [negb andb].
  unfold Main.new_query, Dumps.recommend_assessment_text.
  rewrite (ui_service_try repr_other random_sample llm_invoke products
             products_text q 5 Hfmt).
  rewrite Hraise. cbn [try_except bind].
  change (loads (Dumps.dumps float_repr error_retrieving))
    with (Ok error_retrieving).
  reflexivity.
Qed.

Lemma service_failure_is_shown_as_a_result_witness :
  Main.submit_block Sample.repr
    (fun q => Dumps.recommend_assessment_text MoreSample.literal Sample.repr
                (Ok Sample.catalog) Sample.first_n Sample.unreachable q 5)
    {| Main.user_input := "Java developer, 30 minutes";
       Main.submit := true; Main.show_more := false |}
    Main.initial
  = ({| Main.conversation_history :=
          [{| Main.query := "Java developer, 30 minutes";
              Main.results :=
                [name_url (JStr "Error retrieving recommendations")
                   (JStr CONTACT_URL)] |}];
        Main.current_index := 10;
        Main.last_results :=
          [name_url (JStr "Error retrieving recommendations")
             (JStr CONTACT_URL)];
        Main.reply_round := 1 |},
     [Main.Markdown "---";
      Main.Markdown "**Your query:** _Java developer, 30 minutes_";
      Main.Markdown "## Recommended Assessments";
      Main.Markdown (" Error retrieving recommendations  " ++ nl
                     ++ " (" ++ CONTACT_URL ++ ")")],
     None).
Proof.
  apply (service_failure_is_shown_as_a_result MoreSample.literal Sample.repr
           Sample.first_n Sample.unreachable Sample.catalog
           (match _format_for_llm Sample.repr Sample.catalog 30 with
            | Ok t => t
            | Raise _ => EmptyString
            end)
           Main.initial "Java developer, 30 minutes"
           (External "503 The model is overloaded.")).
  - vm_compute. reflexivity.
  - reflexivity.
  - intros H. vm_compute in H. discriminate H.
  - reflexivity.
Defined.

(** The word typed between a no-break space and an em space is a
    follow-up, not a new query: the page strips both. *)
Example padded_more_is_a_follow_up :
  Main.is_more
    (strip (Main.lower (Sample.no_break_space ++ "More" ++ Sample.em_space)))
  = true.
Proof. vm_compute. reflexivity. Qed.

(* ===================================================================== *)
(** * The dataset, from the harvester to the recommender *)
(* ===================================================================== *)

Section DatasetFacts.

Variable float_repr : string -> string.
Variable exn_str : exn -> string.
Variable requests_get : string -> list (string * json) -> exc response.
Variable BeautifulSoup : string -> exc Soup.node.

Lemma plain_strings {A : Type} (f : A -> string) (l : list A) :
  forallb float_free (map (fun a => JStr (f a)) l) = true
  /\ forallb keys_distinct (map (fun a => JStr (f a)) l) = true.
Proof. induction l as [|a l [IH1 IH2]]; split; cbn; auto. Qed.

Lemma plain_sections (pairs : list (string * string)) :
  forallb float_free (map section_dict pairs) = true
  /\ forallb keys_distinct (map section_dict pairs) = true.
Proof. induction pairs as [|p pairs [IH1 IH2]]; split; cbn; auto. Qed.

Lemma record_of_plain (product_type : string) (link_tag : Soup.node)
    (href : string) (column0 column1 column2 : Soup.node)
    (description : string) (pairs : list (string * string))
    (job_family job_level industry job_category : json) :
  plain job_family = true -> plain job_level = true ->
  plain industry = true -> plain job_category = true ->
  plain (record_of product_type link_tag href column0 column1 column2
           (JStr description) (JArr (map section_dict pairs))
           job_family job_level industry job_category) = true.
Proof.
  unfold plain. intros H1 H2 H3 H4.
  apply andb_prop in H1 as [F1 K1]. apply andb_prop in H2 as [F2 K2].
  apply andb_prop in H3 as [F3 K3]. apply andb_prop in H4 as [F4 K4].
  destruct (plain_sections pairs) as [Fs Ks].
  destruct (plain_strings (fun span => strip (Soup.get_text span))
              (Soup.find_all column2
                 (both (Soup.is_tag "span")
                    (Soup.has_class "product-catalogue__key"))))
    as [Ft Kt].
  unfold record_of.
  cbn [float_free keys_distinct forallb snd keys map fst].
  rewrite Fs, Ks, Ft, Kt, F1, F2, F3, F4, K1, K2, K3, K4. reflexivity.
Qed.

Lemma parse_rows_plain (rows : list Soup.node)
    (job_family job_level industry job_category : json) (l : list json) :
  plain job_family = true -> plain job_level = true ->
  plain industry = true -> plain job_category = true ->
  parse_rows exn_str requests_get BeautifulSoup rows
    job_family job_level industry job_category = Ok l ->
  Forall (fun v => plain v = true) l.
Proof.
  intros H1 H2 H3 H4. revert l.
  induction rows as [|row rows IH]; intros l H; cbn [parse_rows] in H.
  - injection H as <-. constructor.
  - next_bind H. next_bind H. specialize (IH _ eq_refl).
    destruct a as [product|]; injection H as <-; [|exact IH].
    destruct (truthy product); [|exact IH].
    constructor; [|exact IH].
    destruct (emitted_record_shape exn_str requests_get BeautifulSoup
                _ _ _ _ _ _ _ E)
      as (link_tag & href & c0 & c1 & c2 & more & d & pairs & _ & _ & _ & _
          & ->).
    now apply record_of_plain.
Qed.

Lemma scrape_combination_plain (job_family job_level industry : Z) :
  Forall (fun v => plain v = true)
    (scrape_combination exn_str requests_get BeautifulSoup
       job_family job_level industry).
Proof.
  unfold scrape_combination.
  destruct (requests_get _ _) as [res|]; cbn [bind try_except];
    [|constructor].
  destruct (BeautifulSoup _) as [soup|]; cbn [bind try_except];
    [|constructor].
  destruct (parse_rows _ _ _ _ _ _ _ _) as [l|] eqn:E; cbn [try_except];
    [|constructor].
  exact (parse_rows_plain (listing_rows soup) (JInt job_family)
           (JInt job_level) (JInt industry) JNull l
           eq_refl eq_refl eq_refl eq_refl E).
Qed.

Lemma scrape_job_category_plain (jc : Z) :
  Forall (fun v => plain v = true)
    (scrape_job_category exn_str requests_get BeautifulSoup jc).
Proof.
  unfold scrape_job_category.
  destruct (requests_get _ _) as [res|]; cbn [bind try_except];
    [|constructor].
  destruct (BeautifulSoup _) as [soup|]; cbn [bind try_except];
    [|constructor].
  destruct (parse_rows _ _ _ _ _ _ _ _) as [l|] eqn:E; cbn [try_except];
    [|constructor].
  exact (parse_rows_plain (listing_rows soup) JNull JNull JNull (JInt jc) l
           eq_refl eq_refl eq_refl eq_refl E).
Qed.

Lemma flat_map_forall {A B : Type} (P : B -> Prop) (f : A -> list B)
    (l : list A) :
  (forall a, Forall P (f a)) -> Forall P (flat_map f l).
Proof.
  intros H. induction l as [|a l IH]; cbn [flat_map]; [constructor|].
  apply Forall_app. split; [apply H | exact IH].
Qed.

Lemma run_plain (completed_combos : list (Z * Z * Z))
    (completed_categories : list Z) :
  Forall (fun v => plain v = true)
    (Harvest.run exn_str requests_get BeautifulSoup
       completed_combos completed_categories).
Proof.
  unfold Harvest.run. rewrite !collect_flat_map. cbn [app].
  apply Forall_app. split; apply flat_map_forall.
  - intros [[job_family job_level] industry].
    apply scrape_combination_plain.
  - intros jc. apply scrape_job_category_plain.
Qed.

Lemma plain_list (l : list json) :
  Forall (fun v => plain v = true) l ->
  float_free (JArr l) = true /\ keys_distinct (JArr l) = true.
Proof.
  induction 1 as [|v l Hv Hl [IH1 IH2]]; [split; reflexivity|].
  unfold plain in Hv. apply andb_prop in Hv as [Hf Hk].
  cbn [float_free keys_distinct forallb] in *. now rewrite Hf, Hk, IH1, IH2.
Qed.

End DatasetFacts.

(** X24. The dataset the harvester writes is the dataset the recommender
    reads: whatever the site answers and in whatever order the pages
    complete, the text [json.dump] writes for the harvested list, with an
    indentation of two, decodes to that very list, which is what the first
    call of [_get_products] returns and keeps. *)
Theorem harvest_is_read_back :
  forall (float_repr : string -> string) (exn_str : exn -> string)
         (requests_get : string -> list (string * json) -> exc response)
         (BeautifulSoup : string -> exc Soup.node)
         (completed_combos : list (Z * Z * Z))
         (completed_categories : list Z),
    let results :=
      Harvest.run exn_str requests_get BeautifulSoup
        completed_combos completed_categories in
    loads (Dumps.dump float_repr 2 0 (JArr results)) = Ok (JArr results)
    /\ Dataset._get_products JNull
         (loads (Dumps.dump float_repr 2 0 (JArr results)))
       = (JArr results, Ok (JArr results)).
Proof.
  intros float_repr exn_str requests_get BeautifulSoup completed_combos
    completed_categories results.
  destruct (plain_list results
              (run_plain exn_str requests_get BeautifulSoup
                 completed_combos completed_categories)) as [Hff Hkd].
  pose proof (loads_dump float_repr 2 (JArr results) Hff Hkd) as Hloads.
  split; [exact Hloads|]. now rewrite Hloads.
Qed.
